(** * Emploi du temps: the timetable generator and the conflict detector

    A shallow embedding of [utils/timetable_generator.py] and
    [utils/conflict_detector.py] together with the part of [models.py]
    they read, followed by the properties of the scheduling core.

    Conventions of the embedding.
    - A [datetime.time] is the number of minutes since midnight, a [Z]
      in [0, 1440).  The generator only builds times with zero seconds,
      and the order of [datetime.time] values is then the order of [Z].
    - Integer columns are [Z]; nullable columns the code tests for
      [None], or leaves unset, are [option].  [Course.weekly_sessions]
      and [TimeSlot.day_of_week] are always set by the code that creates
      the rows and are plain [Z].
    - The ORM queries of the two classes are list operations over an
      explicit [Database] snapshot: [filter_by] is [List.filter],
      [.first()] is the head of the filtered rows, [.all()] keeps the
      table order.  The relationship collections [group.courses] and
      [course.teachers] are fields of the records.
    - [random.shuffle] is an operation of an abstract [RandomSource]
      that returns some permutation of its argument and the next state
      of the source.
    - A call returns a value or raises an exception.  The definitions
      that come first give what the methods compute when nothing raises;
      the module [Raising] gives the same methods with the exceptions of
      the date arithmetic and of the missing relations written out, and
      the route that runs the generator is built on it.
    - The methods of the two classes take the object ([self]) as an
      argument and return it when they change it. *)

From Stdlib Require Import ZArith List Lia Bool String Permutation DecimalString.
From stdpp Require Import base gmap sets sorting.
Import ListNotations.
Open Scope Z_scope.

(** ** Times *)

Definition time := Z.

Definition mk_time (h m : Z) : time := h * 60 + m.
Definition hour (t : time) : Z := t / 60.
Definition minute (t : time) : Z := t mod 60.

(** [str] on an integer. *)
Definition str_of_Z (z : Z) : string := NilZero.string_of_int (Z.to_int z).

(** ** Exceptions

    A call returns a value or raises an exception, given here by its
    class and by its message, the text [str(e)] gives. *)

Record PyError := mkError { error_class : string; error_message : string }.

Inductive outcome (A : Type) : Type :=
| returned (a : A)
| raised (e : PyError).

Arguments returned {A} a.
Arguments raised {A} e.

Definition bind {A B : Type} (x : outcome A) (f : A -> outcome B) : outcome B :=
  match x with
  | returned a => f a
  | raised e => raised e
  end.

(** A loop whose body can raise: the loop is left at the first
    exception. *)
Fixpoint fold_outcome {A B : Type} (f : A -> B -> outcome A) (l : list B) (a : A)
    : outcome A :=
  match l with
  | [] => returned a
  | b :: rest => bind (f a b) (fold_outcome f rest)
  end.

(** ** models.py *)

Module Teacher.
Record t := mk { id : Z; full_name : string }.
End Teacher.

Module Course.
Record t := mk {
    id : Z;
    name : string;
    duration_minutes : option Z;
    requires_lab : option bool;
    weekly_sessions : Z;
    teachers : list Teacher.t
  }.
End Course.

Module Group.
Record t := mk {
    id : Z;
    name : string;
    department_id : Z;
    courses : list Course.t
  }.
End Group.

Module Room.
Record t := mk {
    id : Z;
    name : string;
    capacity : Z;
    room_type : string
  }.
End Room.

Module TimeSlot.
  (** [id] and [is_locked] are [None] for an object that was built but
      not yet flushed, as the slots of a generation run are: the key and
      the column default are given at insertion. *)
Record t := mk {
    id : option Z;
    teacher_id : Z;
    course_id : Z;
    group_id : option Z;
    room_id : Z;
    day_of_week : Z;
    start_time : time;
    end_time : time;
    is_locked : option bool
  }.
End TimeSlot.

Module TeacherAvailability.
Record t := mk {
    id : Z;
    teacher_id : Z;
    day_of_week : Z;
    start_time : time;
    end_time : time;
    is_available : bool
  }.
End TeacherAvailability.

(** The tables the two classes query. *)
Record Database := mkDatabase {
  db_groups : list Group.t;
  db_rooms : list Room.t;
  db_courses : list Course.t;
  db_teachers : list Teacher.t;
  db_timeslots : list TimeSlot.t;
  db_teacher_availability : list TeacherAvailability.t
}.

(** ** The random source *)

Class RandomSource := {
  rng : Type;
  shuffle : forall {A : Type}, list A -> rng -> list A * rng;
  shuffle_Permutation :
    forall (A : Type) (l : list A) (g : rng), Permutation l (fst (shuffle l g))
}.

(** Two sources to run the generator on: one leaves every list in place,
    the other reverses it. *)
#[export, refine] Instance identity_source : RandomSource :=
  {| rng := unit; shuffle := fun A l g => (l, g) |}.
Proof. intros; reflexivity. Defined.

#[export, refine] Instance reversing_source : RandomSource :=
  {| rng := unit; shuffle := fun A l g => (rev l, g) |}.
Proof. intros; apply Permutation_rev. Defined.

(** ** utils/timetable_generator.py *)

Module Failure.
Record t := mk { course : string; group : string; reason : string }.
End Failure.

Module TimetableGenerator.
Record t := mk {
    department_id : Z;
    semester : Z;
    start_date : option Z;
    end_date : option Z;
    group_id : Z;
    generated_slots : list TimeSlot.t;
    conflicts : list Failure.t;
    debug : bool;
    slot_starts : list time;
    days : list Z
  }.
End TimetableGenerator.

Module Result.
Record t := mk {
    generated : Z;
    failed : Z;
    timeslots : list TimeSlot.t;
    conflicts : list Failure.t
  }.
End Result.

Definition NO_GROUP_FOUND : string := "Aucun groupe trouvé".
Definition NO_TEACHER_ASSIGNED : string := "Aucun enseignant assigné à ce cours".
Definition NO_VALID_SLOT : string :=
  "Impossible de trouver un créneau valide (Conflits Salle/Enseignant/Groupe)".

(** [__init__] *)
Definition init (department_id semester group_id : Z) : TimetableGenerator.t :=
  {| TimetableGenerator.department_id := department_id;
     TimetableGenerator.semester := semester;
     TimetableGenerator.start_date := None;
     TimetableGenerator.end_date := None;
     TimetableGenerator.group_id := group_id;
     TimetableGenerator.generated_slots := [];
     TimetableGenerator.conflicts := [];
     TimetableGenerator.debug := false;
     TimetableGenerator.slot_starts :=
       [mk_time 8 0; mk_time 9 0; mk_time 10 0; mk_time 11 0; mk_time 12 0;
        mk_time 13 0; mk_time 14 0; mk_time 15 0; mk_time 16 0; mk_time 17 0];
     TimetableGenerator.days := [0; 1; 2; 3; 4; 5] |}.

(** [datetime(2000, 1, 1, h, m) + timedelta(minutes)] and then [.time()]:
    the date part is dropped, so the sum wraps around midnight.  This is
    the time the method returns when it returns; the date arithmetic can
    also raise, see [Raising.add_minutes]. *)
Definition add_minutes (start_time : time) (minutes : Z) : time :=
  (hour start_time * 60 + minute start_time + minutes) mod 1440.

Definition is_overlap (start1 end1 start2 end2 : time) : bool :=
  Z.max start1 start2 <? Z.min end1 end2.

Definition group_id_is (slot_group : option Z) (group_id : Z) : bool :=
  match slot_group with
  | Some g => g =? group_id
  | None => false
  end.

Definition check_group_busy (self : TimetableGenerator.t) (db : Database)
    (group_id day : Z) (start_time end_time : time) : bool :=
  existsb
    (fun slot =>
       group_id_is (TimeSlot.group_id slot) group_id
       && (TimeSlot.day_of_week slot =? day)
       && is_overlap start_time end_time
            (TimeSlot.start_time slot) (TimeSlot.end_time slot))
    (TimetableGenerator.generated_slots self)
  || existsb
       (fun slot =>
          is_overlap start_time end_time
            (TimeSlot.start_time slot) (TimeSlot.end_time slot))
       (List.filter
          (fun slot =>
             group_id_is (TimeSlot.group_id slot) group_id
             && (TimeSlot.day_of_week slot =? day))
          (db_timeslots db)).

Definition check_room_busy (self : TimetableGenerator.t) (db : Database)
    (room_id day : Z) (start_time end_time : time) : bool :=
  existsb
    (fun slot =>
       (TimeSlot.room_id slot =? room_id)
       && (TimeSlot.day_of_week slot =? day)
       && is_overlap start_time end_time
            (TimeSlot.start_time slot) (TimeSlot.end_time slot))
    (TimetableGenerator.generated_slots self)
  || existsb
       (fun slot =>
          is_overlap start_time end_time
            (TimeSlot.start_time slot) (TimeSlot.end_time slot))
       (List.filter
          (fun slot =>
             (TimeSlot.room_id slot =? room_id)
             && (TimeSlot.day_of_week slot =? day))
          (db_timeslots db)).

Definition check_teacher_busy (self : TimetableGenerator.t) (db : Database)
    (teacher_id day : Z) (start_time end_time : time) : bool :=
  existsb
    (fun slot =>
       (TimeSlot.teacher_id slot =? teacher_id)
       && (TimeSlot.day_of_week slot =? day)
       && is_overlap start_time end_time
            (TimeSlot.start_time slot) (TimeSlot.end_time slot))
    (TimetableGenerator.generated_slots self)
  || existsb
       (fun slot =>
          is_overlap start_time end_time
            (TimeSlot.start_time slot) (TimeSlot.end_time slot))
       (List.filter
          (fun slot =>
             (TimeSlot.teacher_id slot =? teacher_id)
             && (TimeSlot.day_of_week slot =? day))
          (db_timeslots db)).

(** The window test of one availability row. *)
Definition covers (avail : TeacherAvailability.t) (start_time end_time : time)
    : bool :=
  TeacherAvailability.is_available avail
  && (TeacherAvailability.start_time avail <=? start_time)
  && (end_time <=? TeacherAvailability.end_time avail).

Definition check_teacher_preferences (db : Database)
    (teacher_id day : Z) (start_time end_time : time) : bool :=
  let availabilities :=
    List.filter
      (fun a =>
         (TeacherAvailability.teacher_id a =? teacher_id)
         && (TeacherAvailability.day_of_week a =? day))
      (db_teacher_availability db) in
  match availabilities with
  | [] =>
      let any_avail :=
        head
          (List.filter
             (fun a => TeacherAvailability.teacher_id a =? teacher_id)
             (db_teacher_availability db)) in
      match any_avail with
      | None => true
      | Some _ => false
      end
  | _ => existsb (fun avail => covers avail start_time end_time) availabilities
  end.

(** The room filter of [generate]: [(r.room_type == 'Lab') == course.requires_lab].
    A [None] flag is equal to neither boolean. *)
Definition lab_flag_matches (r : Room.t) (course : Course.t) : bool :=
  match Course.requires_lab course with
  | Some b => Bool.eqb (String.eqb (Room.room_type r) "Lab") b
  | None => false
  end.

Definition suitable_rooms_of (all_rooms : list Room.t) (course : Course.t)
    : list Room.t :=
  List.filter (fun r => lab_flag_matches r course) all_rooms.

(** [course.duration_minutes if course.duration_minutes else 60] *)
Definition duration_of (course : Course.t) : Z :=
  match Course.duration_minutes course with
  | Some d => if d =? 0 then 60 else d
  | None => 60
  end.

Definition select_room (self : TimetableGenerator.t) (db : Database)
    (suitable_rooms : list Room.t) (day : Z) (start_time end_time : time)
    : option Room.t :=
  find
    (fun room => negb (check_room_busy self db (Room.id room) day start_time end_time))
    suitable_rooms.

Definition select_teacher (self : TimetableGenerator.t) (db : Database)
    (available_teachers : list Teacher.t) (day : Z) (start_time end_time : time)
    : option Teacher.t :=
  find
    (fun teacher =>
       negb (check_teacher_busy self db (Teacher.id teacher) day start_time end_time)
       && check_teacher_preferences db (Teacher.id teacher) day start_time end_time)
    available_teachers.

(** The body of the loop over start times: the slot built for this day
    and start time, or [None] where the code reaches a [continue]. *)
Definition place_at (self : TimetableGenerator.t) (db : Database)
    (group : Group.t) (course : Course.t) (duration_min : Z)
    (suitable_rooms : list Room.t) (day : Z) (start_time : time)
    : option TimeSlot.t :=
  let end_time := add_minutes start_time duration_min in
  if mk_time 17 0 <? end_time then None
  else if check_group_busy self db (Group.id group) day start_time end_time then None
  else
    match select_room self db suitable_rooms day start_time end_time with
    | None => None
    | Some selected_room =>
        match select_teacher self db (Course.teachers course) day start_time end_time with
        | None => None
        | Some selected_teacher =>
            Some {| TimeSlot.id := None;
                    TimeSlot.teacher_id := Teacher.id selected_teacher;
                    TimeSlot.course_id := Course.id course;
                    TimeSlot.group_id := Some (Group.id group);
                    TimeSlot.room_id := Room.id selected_room;
                    TimeSlot.day_of_week := day;
                    TimeSlot.start_time := start_time;
                    TimeSlot.end_time := add_minutes start_time duration_min;
                    TimeSlot.is_locked := None |}
        end
    end.

(** [for start_time in current_starts], left at the first success. *)
Fixpoint scan_starts (self : TimetableGenerator.t) (db : Database)
    (group : Group.t) (course : Course.t) (duration_min : Z)
    (suitable_rooms : list Room.t) (day : Z) (current_starts : list time)
    : option TimeSlot.t :=
  match current_starts with
  | [] => None
  | start_time :: rest =>
      match place_at self db group course duration_min suitable_rooms day start_time with
      | Some slot => Some slot
      | None => scan_starts self db group course duration_min suitable_rooms day rest
      end
  end.

(** [for day in self.days]: the start times are shuffled afresh for each
    day that is tried, and no day is tried after a success. *)
Fixpoint scan_days `{RandomSource} (self : TimetableGenerator.t) (db : Database)
    (group : Group.t) (course : Course.t) (duration_min : Z)
    (suitable_rooms : list Room.t) (days : list Z) (g : rng)
    : option TimeSlot.t * rng :=
  match days with
  | [] => (None, g)
  | day :: rest =>
      let (current_starts, g') := shuffle (TimetableGenerator.slot_starts self) g in
      match scan_starts self db group course duration_min suitable_rooms day current_starts with
      | Some slot => (Some slot, g')
      | None => scan_days self db group course duration_min suitable_rooms rest g'
      end
  end.

(** The variables [generate] carries through its loops. *)
Record Run `{RandomSource} := mkRun {
  run_self : TimetableGenerator.t;
  run_rng : rng;
  generated_count : Z;
  failed_count : Z
}.

Definition with_days (self : TimetableGenerator.t) (days : list Z)
    : TimetableGenerator.t :=
  {| TimetableGenerator.department_id := TimetableGenerator.department_id self;
     TimetableGenerator.semester := TimetableGenerator.semester self;
     TimetableGenerator.start_date := TimetableGenerator.start_date self;
     TimetableGenerator.end_date := TimetableGenerator.end_date self;
     TimetableGenerator.group_id := TimetableGenerator.group_id self;
     TimetableGenerator.generated_slots := TimetableGenerator.generated_slots self;
     TimetableGenerator.conflicts := TimetableGenerator.conflicts self;
     TimetableGenerator.debug := TimetableGenerator.debug self;
     TimetableGenerator.slot_starts := TimetableGenerator.slot_starts self;
     TimetableGenerator.days := days |}.

Definition append_slot (self : TimetableGenerator.t) (slot : TimeSlot.t)
    : TimetableGenerator.t :=
  {| TimetableGenerator.department_id := TimetableGenerator.department_id self;
     TimetableGenerator.semester := TimetableGenerator.semester self;
     TimetableGenerator.start_date := TimetableGenerator.start_date self;
     TimetableGenerator.end_date := TimetableGenerator.end_date self;
     TimetableGenerator.group_id := TimetableGenerator.group_id self;
     TimetableGenerator.generated_slots :=
       TimetableGenerator.generated_slots self ++ [slot];
     TimetableGenerator.conflicts := TimetableGenerator.conflicts self;
     TimetableGenerator.debug := TimetableGenerator.debug self;
     TimetableGenerator.slot_starts := TimetableGenerator.slot_starts self;
     TimetableGenerator.days := TimetableGenerator.days self |}.

Definition append_conflict (self : TimetableGenerator.t) (f : Failure.t)
    : TimetableGenerator.t :=
  {| TimetableGenerator.department_id := TimetableGenerator.department_id self;
     TimetableGenerator.semester := TimetableGenerator.semester self;
     TimetableGenerator.start_date := TimetableGenerator.start_date self;
     TimetableGenerator.end_date := TimetableGenerator.end_date self;
     TimetableGenerator.group_id := TimetableGenerator.group_id self;
     TimetableGenerator.generated_slots := TimetableGenerator.generated_slots self;
     TimetableGenerator.conflicts := TimetableGenerator.conflicts self ++ [f];
     TimetableGenerator.debug := TimetableGenerator.debug self;
     TimetableGenerator.slot_starts := TimetableGenerator.slot_starts self;
     TimetableGenerator.days := TimetableGenerator.days self |}.

(** One pass of [for _ in range(sessions_needed)]. *)
Definition schedule_session `{RandomSource} (db : Database) (all_rooms : list Room.t)
    (group : Group.t) (course : Course.t) (duration_min : Z) (st : Run) : Run :=
  let (suitable_rooms, g1) := shuffle (suitable_rooms_of all_rooms course) (run_rng st) in
  let (days, g2) := shuffle (TimetableGenerator.days (run_self st)) g1 in
  let self := with_days (run_self st) days in
  match Course.teachers course with
  | [] =>
      {| run_self :=
           append_conflict self
             {| Failure.course := Course.name course;
                Failure.group := Group.name group;
                Failure.reason := NO_TEACHER_ASSIGNED |};
         run_rng := g2;
         generated_count := generated_count st;
         failed_count := failed_count st + 1 |}
  | _ :: _ =>
      match scan_days self db group course duration_min suitable_rooms
              (TimetableGenerator.days self) g2 with
      | (Some new_slot, g3) =>
          {| run_self := append_slot self new_slot;
             run_rng := g3;
             generated_count := generated_count st + 1;
             failed_count := failed_count st |}
      | (None, g3) =>
          {| run_self :=
               append_conflict self
                 {| Failure.course := Course.name course;
                    Failure.group := Group.name group;
                    Failure.reason := NO_VALID_SLOT |};
             run_rng := g3;
             generated_count := generated_count st;
             failed_count := failed_count st + 1 |}
      end
  end.

(** [range(sessions_needed)] has no element when the count is not positive. *)
Fixpoint repeat_sessions `{RandomSource} (n : nat) (db : Database)
    (all_rooms : list Room.t) (group : Group.t) (course : Course.t)
    (duration_min : Z) (st : Run) : Run :=
  match n with
  | O => st
  | S n' =>
      repeat_sessions n' db all_rooms group course duration_min
        (schedule_session db all_rooms group course duration_min st)
  end.

Definition schedule_course `{RandomSource} (db : Database) (all_rooms : list Room.t)
    (group : Group.t) (st : Run) (course : Course.t) : Run :=
  let sessions_needed := Course.weekly_sessions course in
  let duration_min := duration_of course in
  repeat_sessions (Z.to_nat sessions_needed) db all_rooms group course duration_min st.

Definition schedule_group `{RandomSource} (db : Database) (all_rooms : list Room.t)
    (st : Run) (group : Group.t) : Run :=
  fold_left (schedule_course db all_rooms group) (Group.courses group) st.

(** The groups a run targets. *)
Definition target_groups (self : TimetableGenerator.t) (db : Database)
    : list Group.t :=
  if negb (TimetableGenerator.group_id self =? 0) then
    List.filter (fun grp => Group.id grp =? TimetableGenerator.group_id self)
      (db_groups db)
  else
    List.filter
      (fun grp => Group.department_id grp =? TimetableGenerator.department_id self)
      (db_groups db).

(** [generate]: the returned dictionary (an error message when no group
    is targeted), the generator object after the call and the random
    source after the call. *)
Definition generate `{RandomSource} (self : TimetableGenerator.t) (db : Database)
    (g : rng) : (string + Result.t) * TimetableGenerator.t * rng :=
  match target_groups self db with
  | [] => (inl NO_GROUP_FOUND, self, g)
  | groups =>
      let all_rooms := db_rooms db in
      let st :=
        fold_left (schedule_group db all_rooms) groups
          {| run_self := self; run_rng := g;
             generated_count := 0; failed_count := 0 |} in
      (inr {| Result.generated := generated_count st;
              Result.failed := failed_count st;
              Result.timeslots := TimetableGenerator.generated_slots (run_self st);
              Result.conflicts := TimetableGenerator.conflicts (run_self st) |},
       run_self st, run_rng st)
  end.

(** The slots a run returns; none when it returns the error. *)
Definition generated_of (r : string + Result.t) : list TimeSlot.t :=
  match r with
  | inl _ => []
  | inr res => Result.timeslots res
  end.

(** ** The session of the storage layer

    [save_timetable] talks to [db.session].  The session is the
    environment of the program, kept as small as the method needs: the
    committed rows, the rows added since the last commit, and a
    [commit] that either makes every added row durable or raises and
    leaves the committed rows as they were.  Whether a commit goes
    through is the storage's decision, [commit_ok]. *)

Record Session := mkSession {
  committed : list TimeSlot.t;
  pending : list TimeSlot.t
}.

Definition session_add (s : Session) (slot : TimeSlot.t) : Session :=
  {| committed := committed s; pending := pending s ++ [slot] |}.

Definition session_commit (commit_ok : Session -> bool) (s : Session)
    : option Session :=
  if commit_ok s
  then Some {| committed := committed s ++ pending s; pending := [] |}
  else None.

Definition session_rollback (s : Session) : Session :=
  {| committed := committed s; pending := [] |}.

(** The two uniqueness constraints of the [timeslot] table, as one way a
    commit can be refused. *)
Definition same_room_time (a b : TimeSlot.t) : bool :=
  (TimeSlot.room_id a =? TimeSlot.room_id b)
  && (TimeSlot.day_of_week a =? TimeSlot.day_of_week b)
  && (TimeSlot.start_time a =? TimeSlot.start_time b).

Definition same_teacher_time (a b : TimeSlot.t) : bool :=
  (TimeSlot.teacher_id a =? TimeSlot.teacher_id b)
  && (TimeSlot.day_of_week a =? TimeSlot.day_of_week b)
  && (TimeSlot.start_time a =? TimeSlot.start_time b).

Fixpoint unique_rows (rows : list TimeSlot.t) : bool :=
  match rows with
  | [] => true
  | r :: rest =>
      negb (existsb (fun o => same_room_time r o || same_teacher_time r o) rest)
      && unique_rows rest
  end.

Definition unique_constraints_ok (s : Session) : bool :=
  unique_rows (committed s ++ pending s).

(** [save_timetable]: the returned count, the generator object after the
    call and the session after the call.  The [try] block adds every
    generated slot and commits; the [except] block rolls back. *)
Definition save_timetable (commit_ok : Session -> bool)
    (self : TimetableGenerator.t) (s : Session)
    : Z * TimetableGenerator.t * Session :=
  let s1 := fold_left session_add (TimetableGenerator.generated_slots self) s in
  match session_commit commit_ok s1 with
  | Some s2 =>
      (Z.of_nat (length (TimetableGenerator.generated_slots self)), self, s2)
  | None => (0, self, session_rollback s1)
  end.

(** ** utils/conflict_detector.py *)

(** The dictionaries appended to [self.conflicts], one constructor per
    ['type'].  The ['description'] sentence, formatted from the other
    entries, is left out; ['time'] keeps the two times it prints and
    ['hours'] the total in minutes. *)
Inductive Conflict :=
| room_conflict (room slot1_course slot2_course : string)
| teacher_conflict (teacher slot1_course slot2_course : string)
| group_conflict (group slot1_course slot2_course : string)
| availability_conflict (teacher course : string) (window : time * time)
| workload_conflict (group : string) (total_minutes : Z)
| capacity_conflict (room : string) (required capacity : Z).

Definition conflict_type (c : Conflict) : string :=
  match c with
  | room_conflict _ _ _ => "room_conflict"
  | teacher_conflict _ _ _ => "teacher_conflict"
  | group_conflict _ _ _ => "group_conflict"
  | availability_conflict _ _ _ => "availability_conflict"
  | workload_conflict _ _ => "workload_conflict"
  | capacity_conflict _ _ _ => "capacity_conflict"
  end.

Definition severity (c : Conflict) : string :=
  match c with
  | room_conflict _ _ _ => "critical"
  | teacher_conflict _ _ _ => "critical"
  | group_conflict _ _ _ => "critical"
  | availability_conflict _ _ _ => "high"
  | workload_conflict _ _ => "medium"
  | capacity_conflict _ _ _ => "high"
  end.

(** The relationships of a row ([slot.room], [slot.course], ...) are
    look-ups by foreign key.  A room and a course are deleted together
    with their rows, so these two keys resolve.  The definitions of this
    part give the entries the checks build for rows whose teacher and
    group resolve as well; what the checks do with a row that lost its
    teacher or its group is written out in [Raising]. *)
Definition room_of (db : Database) (slot : TimeSlot.t) : option Room.t :=
  find (fun r => Room.id r =? TimeSlot.room_id slot) (db_rooms db).

Definition group_of (db : Database) (slot : TimeSlot.t) : option Group.t :=
  match TimeSlot.group_id slot with
  | Some g => find (fun grp => Group.id grp =? g) (db_groups db)
  | None => None
  end.

Definition room_name (db : Database) (slot : TimeSlot.t) : string :=
  match room_of db slot with
  | Some r => Room.name r
  | None => EmptyString
  end.

Definition course_name (db : Database) (slot : TimeSlot.t) : string :=
  match find (fun c => Course.id c =? TimeSlot.course_id slot) (db_courses db) with
  | Some c => Course.name c
  | None => EmptyString
  end.

(** [slot.group.name] for a row whose group is stored; for a row without
    group record the expression raises, see [Raising.group_conflict_entry]. *)
Definition group_name (db : Database) (slot : TimeSlot.t) : string :=
  match group_of db slot with
  | Some grp => Group.name grp
  | None => EmptyString
  end.

(** [slot.teacher.full_name if slot.teacher else 'Inconnu'], the guarded
    entry of the teacher check.  The other reads of [slot.teacher.full_name]
    are not guarded, see [Raising.teacher_conflict_entry] and
    [Raising.availability_conflict_entry]. *)
Definition teacher_name (db : Database) (slot : TimeSlot.t) : string :=
  match find (fun t => Teacher.id t =? TimeSlot.teacher_id slot) (db_teachers db) with
  | Some t => Teacher.full_name t
  | None => "Inconnu"
  end.

(** The primary key of a stored row. *)
Definition pk (slot : TimeSlot.t) : Z :=
  match TimeSlot.id slot with
  | Some i => i
  | None => 0
  end.

(** [tuple(sorted((slot.id, conflict_slot.id)))] *)
Definition pair_key (a b : Z) : Z * Z := (Z.min a b, Z.max a b).

(** The two time conditions of the detector's queries:
    [TimeSlot.start_time < slot.end_time] and
    [TimeSlot.end_time > slot.start_time]. *)
Definition crosses (start1 end1 start2 end2 : time) : bool :=
  (start2 <? end1) && (start1 <? end2).

Definition windows_cross (slot other : TimeSlot.t) : bool :=
  crosses (TimeSlot.start_time slot) (TimeSlot.end_time slot)
    (TimeSlot.start_time other) (TimeSlot.end_time other).

(** The query of the three pairwise checks; [same] is the resource
    condition ([room_id], [teacher_id] or [group_id] equal). *)
Definition overlapping (same : TimeSlot.t -> TimeSlot.t -> bool)
    (db : Database) (slot : TimeSlot.t) : list TimeSlot.t :=
  List.filter
    (fun other =>
       negb (pk other =? pk slot)
       && same other slot
       && (TimeSlot.day_of_week other =? TimeSlot.day_of_week slot)
       && windows_cross slot other)
    (db_timeslots db).

Definition same_room (other slot : TimeSlot.t) : bool :=
  TimeSlot.room_id other =? TimeSlot.room_id slot.

Definition same_teacher (other slot : TimeSlot.t) : bool :=
  TimeSlot.teacher_id other =? TimeSlot.teacher_id slot.

Definition same_group (other slot : TimeSlot.t) : bool :=
  match TimeSlot.group_id other, TimeSlot.group_id slot with
  | Some a, Some b => a =? b
  | _, _ => false
  end.

(** [if not slot.group_id: continue] *)
Definition has_group (slot : TimeSlot.t) : bool :=
  match TimeSlot.group_id slot with
  | Some g => negb (g =? 0)
  | None => false
  end.

Section PairwiseCheck.
Context {E : Type}.
Variable entry : TimeSlot.t -> TimeSlot.t -> E.
Variable same : TimeSlot.t -> TimeSlot.t -> bool.
Variable considered : TimeSlot.t -> bool.
Variable db : Database.

  (** The inner loop, [for conflict_slot in overlapping]. *)
Definition report_pair (slot : TimeSlot.t) (acc : gset (Z * Z) * list E)
      (conflict_slot : TimeSlot.t) : gset (Z * Z) * list E :=
    let pair_key := pair_key (pk slot) (pk conflict_slot) in
    if bool_decide (pair_key ∈ acc.1) then acc
    else ({[ pair_key ]} ∪ acc.1, acc.2 ++ [entry slot conflict_slot]).

  (** The outer loop, [for slot in timeslots]. *)
Definition report_slot (acc : gset (Z * Z) * list E) (slot : TimeSlot.t)
      : gset (Z * Z) * list E :=
    if considered slot
    then fold_left (report_pair slot) (overlapping same db slot) acc
    else acc.

Definition pairwise_check (conflicts : list E) : gset (Z * Z) * list E :=
    fold_left report_slot (db_timeslots db) (∅, conflicts).
End PairwiseCheck.

Definition has_type (ty : string) (c : Conflict) : bool :=
  String.eqb (conflict_type c) ty.

(** Each [detect_*] method: [self.conflicts] after the call, and the
    list the method returns. *)
Definition detect_room_conflicts (self : list Conflict) (db : Database)
    : list Conflict * list Conflict :=
  let conflicts :=
    (pairwise_check
       (fun slot conflict_slot =>
          room_conflict (room_name db slot) (course_name db slot)
            (course_name db conflict_slot))
       same_room (fun _ => true) db self).2 in
  (conflicts, List.filter (has_type "room_conflict") conflicts).

Definition detect_teacher_conflicts (self : list Conflict) (db : Database)
    : list Conflict * list Conflict :=
  let conflicts :=
    (pairwise_check
       (fun slot conflict_slot =>
          teacher_conflict (teacher_name db slot) (course_name db slot)
            (course_name db conflict_slot))
       same_teacher (fun _ => true) db self).2 in
  (conflicts, List.filter (has_type "teacher_conflict") conflicts).

Definition detect_group_conflicts (self : list Conflict) (db : Database)
    : list Conflict * list Conflict :=
  let conflicts :=
    (pairwise_check
       (fun slot conflict_slot =>
          group_conflict (group_name db slot) (course_name db slot)
            (course_name db conflict_slot))
       same_group has_group db self).2 in
  (conflicts, List.filter (has_type "group_conflict") conflicts).

(** The row [detect_availability_conflicts] looks at: the first one of
    the teacher for the day of the slot. *)
Definition first_availability (db : Database) (slot : TimeSlot.t)
    : option TeacherAvailability.t :=
  head
    (List.filter
       (fun a =>
          (TeacherAvailability.teacher_id a =? TimeSlot.teacher_id slot)
          && (TeacherAvailability.day_of_week a =? TimeSlot.day_of_week slot))
       (db_teacher_availability db)).

Definition is_valid (db : Database) (slot : TimeSlot.t) : bool :=
  match first_availability db slot with
  | Some avail =>
      covers avail (TimeSlot.start_time slot) (TimeSlot.end_time slot)
  | None => false
  end.

(** The slots for which the method appends an entry, in table order. *)
Definition availability_flagged (db : Database) : list TimeSlot.t :=
  List.filter
    (fun slot => negb (TimeSlot.teacher_id slot =? 0) && negb (is_valid db slot))
    (db_timeslots db).

Definition availability_entry (db : Database) (slot : TimeSlot.t) : Conflict :=
  availability_conflict (teacher_name db slot) (course_name db slot)
    (TimeSlot.start_time slot, TimeSlot.end_time slot).

Definition detect_availability_conflicts (self : list Conflict) (db : Database)
    : list Conflict * list Conflict :=
  let conflicts := self ++ map (availability_entry db) (availability_flagged db) in
  (conflicts, List.filter (has_type "availability_conflict") conflicts).

(** The weekly load of a group in minutes.  The code divides by [60.0]
    and tests [total_hours < 18 or total_hours > 24]. *)
Definition total_minutes_of (db : Database) (group : Group.t) : Z :=
  fold_left
    (fun total slot => total + (TimeSlot.end_time slot - TimeSlot.start_time slot))
    (List.filter
       (fun slot => group_id_is (TimeSlot.group_id slot) (Group.id group))
       (db_timeslots db))
    0.

Definition detect_workload_violations (self : list Conflict) (db : Database)
    : list Conflict * list Conflict :=
  let conflicts :=
    self
    ++ map (fun group => workload_conflict (Group.name group) (total_minutes_of db group))
         (List.filter
            (fun group =>
               (total_minutes_of db group <? 18 * 60)
               || (24 * 60 <? total_minutes_of db group))
            (db_groups db)) in
  (conflicts, List.filter (has_type "workload_conflict") conflicts).

(** [getattr(slot.group, 'student_count', 30)]: the [Group] model has no
    such attribute. *)
Definition students_count (db : Database) (slot : TimeSlot.t) : Z :=
  match group_of db slot with
  | Some _ => 30
  | None => 0
  end.

Definition room_capacity (db : Database) (slot : TimeSlot.t) : Z :=
  match room_of db slot with
  | Some r => Room.capacity r
  | None => 0
  end.

Definition detect_capacity_conflicts (self : list Conflict) (db : Database)
    : list Conflict * list Conflict :=
  let conflicts :=
    self
    ++ map (fun slot =>
              capacity_conflict (room_name db slot) (students_count db slot)
                (room_capacity db slot))
         (List.filter
            (fun slot => room_capacity db slot <? students_count db slot)
            (db_timeslots db)) in
  (conflicts, List.filter (has_type "capacity_conflict") conflicts).

Module Report.
Record t := mk {
  total_conflicts : Z;
  critical : Z;
  high : Z;
  medium : Z;
  conflicts : list Conflict
}.
End Report.

Definition count_severity (sev : string) (conflicts : list Conflict) : Z :=
  Z.of_nat (length (List.filter (fun c => String.eqb (severity c) sev) conflicts)).

Definition detect_all_conflicts (db : Database) : Report.t :=
  let c0 : list Conflict := [] in
  let c1 := (detect_room_conflicts c0 db).1 in
  let c2 := (detect_teacher_conflicts c1 db).1 in
  let c3 := (detect_group_conflicts c2 db).1 in
  let c4 := (detect_availability_conflicts c3 db).1 in
  let c5 := (detect_workload_violations c4 db).1 in
  let c6 := (detect_capacity_conflicts c5 db).1 in
  {| Report.total_conflicts := Z.of_nat (length c6);
     Report.critical := count_severity "critical" c6;
     Report.high := count_severity "high" c6;
     Report.medium := count_severity "medium" c6;
     Report.conflicts := c6 |}.

(** ** The two classes with their exceptions

    The definitions of [Raising] follow the same code as the ones above
    with the exceptions written out.  Where a call of [Raising] returns,
    it returns what the definition above computes.

    The generator.  [timedelta(minutes=n)] raises [OverflowError] when the number of
    days, [n // 1440], does not fit a C [int], or is beyond 999999999 in
    absolute value.  [datetime + timedelta] raises [OverflowError] when
    the sum leaves the years 1 to 9999: counted in minutes from
    2000-01-01 00:00, the calendar starts 730119 days earlier and ends
    2921940 days later.  [generate] has no [try]: the exception leaves
    the method, and nothing is returned.

    The detector.  [slot.teacher] and [slot.group] are [None] for a row
    whose teacher or group is no longer stored: [delete_user] deletes a
    teacher and leaves the rows of the teacher in the table.  Reading an
    attribute of [None] raises [AttributeError].  The teacher check
    guards the ['teacher'] entry of its dictionary and not the
    ['description'] entry; the group check and the availability check
    do not guard.  The methods have no [try]: the exception leaves the
    method, and [self.conflicts] keeps what was appended before. *)

Definition teacher_of (db : Database) (slot : TimeSlot.t) : option Teacher.t :=
  find (fun t => Teacher.id t =? TimeSlot.teacher_id slot) (db_teachers db).

Definition NONE_HAS_NO (attribute : string) : PyError :=
  mkError "AttributeError"
    (String.append "'NoneType' object has no attribute '"
       (String.append attribute "'")).

Definition OVERFLOW_C_INT : PyError :=
  mkError "OverflowError" "Python int too large to convert to C int".

Definition OVERFLOW_DAYS (days : Z) : PyError :=
  mkError "OverflowError"
    (String.append "days="
       (String.append (str_of_Z days) "; must have magnitude <= 999999999")).

Definition OVERFLOW_DATE : PyError :=
  mkError "OverflowError" "date value out of range".

Definition FIRST_MINUTE : Z := - (730119 * 1440).
Definition END_OF_CALENDAR : Z := 2921940 * 1440.

(** [timedelta(minutes=minutes)] *)
Definition timedelta (minutes : Z) : outcome Z :=
  let days := minutes / 1440 in
  if (days <? -2147483648) || (2147483647 <? days) then raised OVERFLOW_C_INT
  else if (days <? -999999999) || (999999999 <? days) then raised (OVERFLOW_DAYS days)
  else returned minutes.

Module Raising.

Definition add_minutes (start_time : time) (minutes : Z) : outcome time :=
  let dummy_date := hour start_time * 60 + minute start_time in
  bind (timedelta minutes)
    (fun delta =>
       let new_date := dummy_date + delta in
       if (new_date <? FIRST_MINUTE) || (END_OF_CALENDAR <=? new_date)
       then raised OVERFLOW_DATE
       else returned (new_date mod 1440)).

(** The body of the loop over start times. *)
Definition place_at (self : TimetableGenerator.t) (db : Database)
    (group : Group.t) (course : Course.t) (duration_min : Z)
    (suitable_rooms : list Room.t) (day : Z) (start_time : time)
    : outcome (option TimeSlot.t) :=
  bind (add_minutes start_time duration_min)
    (fun end_time =>
       returned
         (if mk_time 17 0 <? end_time then None
          else if check_group_busy self db (Group.id group) day start_time end_time
          then None
          else
            match select_room self db suitable_rooms day start_time end_time with
            | None => None
            | Some selected_room =>
                match select_teacher self db (Course.teachers course) day
                        start_time end_time with
                | None => None
                | Some selected_teacher =>
                    Some {| TimeSlot.id := None;
                            TimeSlot.teacher_id := Teacher.id selected_teacher;
                            TimeSlot.course_id := Course.id course;
                            TimeSlot.group_id := Some (Group.id group);
                            TimeSlot.room_id := Room.id selected_room;
                            TimeSlot.day_of_week := day;
                            TimeSlot.start_time := start_time;
                            TimeSlot.end_time := end_time;
                            TimeSlot.is_locked := None |}
                end
            end)).

Fixpoint scan_starts (self : TimetableGenerator.t) (db : Database)
    (group : Group.t) (course : Course.t) (duration_min : Z)
    (suitable_rooms : list Room.t) (day : Z) (current_starts : list time)
    : outcome (option TimeSlot.t) :=
  match current_starts with
  | [] => returned None
  | start_time :: rest =>
      bind (place_at self db group course duration_min suitable_rooms day start_time)
        (fun placed =>
           match placed with
           | Some slot => returned (Some slot)
           | None =>
               scan_starts self db group course duration_min suitable_rooms day rest
           end)
  end.

Fixpoint scan_days `{RandomSource} (self : TimetableGenerator.t) (db : Database)
    (group : Group.t) (course : Course.t) (duration_min : Z)
    (suitable_rooms : list Room.t) (days : list Z) (g : rng)
    : outcome (option TimeSlot.t * rng) :=
  match days with
  | [] => returned (None, g)
  | day :: rest =>
      let (current_starts, g') := shuffle (TimetableGenerator.slot_starts self) g in
      bind (scan_starts self db group course duration_min suitable_rooms day
              current_starts)
        (fun found =>
           match found with
           | Some slot => returned (Some slot, g')
           | None =>
               scan_days self db group course duration_min suitable_rooms rest g'
           end)
  end.

(** One pass of [for _ in range(sessions_needed)]. *)
Definition schedule_session `{RandomSource} (db : Database) (all_rooms : list Room.t)
    (group : Group.t) (course : Course.t) (duration_min : Z) (st : Run)
    : outcome Run :=
  let (suitable_rooms, g1) := shuffle (suitable_rooms_of all_rooms course) (run_rng st) in
  let (days, g2) := shuffle (TimetableGenerator.days (run_self st)) g1 in
  let self := with_days (run_self st) days in
  match Course.teachers course with
  | [] =>
      returned
        {| run_self :=
             append_conflict self
               {| Failure.course := Course.name course;
                  Failure.group := Group.name group;
                  Failure.reason := NO_TEACHER_ASSIGNED |};
           run_rng := g2;
           generated_count := generated_count st;
           failed_count := failed_count st + 1 |}
  | _ :: _ =>
      bind (scan_days self db group course duration_min suitable_rooms
              (TimetableGenerator.days self) g2)
        (fun found =>
           match found with
           | (Some new_slot, g3) =>
               returned
                 {| run_self := append_slot self new_slot;
                    run_rng := g3;
                    generated_count := generated_count st + 1;
                    failed_count := failed_count st |}
           | (None, g3) =>
               returned
                 {| run_self :=
                      append_conflict self
                        {| Failure.course := Course.name course;
                           Failure.group := Group.name group;
                           Failure.reason := NO_VALID_SLOT |};
                    run_rng := g3;
                    generated_count := generated_count st;
                    failed_count := failed_count st + 1 |}
           end)
  end.

Fixpoint repeat_sessions `{RandomSource} (n : nat) (db : Database)
    (all_rooms : list Room.t) (group : Group.t) (course : Course.t)
    (duration_min : Z) (st : Run) : outcome Run :=
  match n with
  | O => returned st
  | S n' =>
      bind (schedule_session db all_rooms group course duration_min st)
        (repeat_sessions n' db all_rooms group course duration_min)
  end.

Definition schedule_course `{RandomSource} (db : Database) (all_rooms : list Room.t)
    (group : Group.t) (st : Run) (course : Course.t) : outcome Run :=
  let sessions_needed := Course.weekly_sessions course in
  let duration_min := duration_of course in
  repeat_sessions (Z.to_nat sessions_needed) db all_rooms group course duration_min st.

Definition schedule_group `{RandomSource} (db : Database) (all_rooms : list Room.t)
    (st : Run) (group : Group.t) : outcome Run :=
  fold_outcome (schedule_course db all_rooms group) (Group.courses group) st.

(** [generate]: what the call returns, with the generator object and the
    random source after the call, or the exception that leaves it. *)
Definition generate `{RandomSource} (self : TimetableGenerator.t) (db : Database)
    (g : rng) : outcome ((string + Result.t) * TimetableGenerator.t * rng) :=
  match target_groups self db with
  | [] => returned (inl NO_GROUP_FOUND, self, g)
  | groups =>
      let all_rooms := db_rooms db in
      bind (fold_outcome (schedule_group db all_rooms) groups
              {| run_self := self; run_rng := g;
                 generated_count := 0; failed_count := 0 |})
        (fun st =>
           returned
             (inr {| Result.generated := generated_count st;
                     Result.failed := failed_count st;
                     Result.timeslots :=
                       TimetableGenerator.generated_slots (run_self st);
                     Result.conflicts := TimetableGenerator.conflicts (run_self st) |},
              run_self st, run_rng st))
  end.

(** The dictionary of a teacher conflict: ['teacher'] is guarded, the
    ['description'] reads [slot.teacher.full_name] again. *)
Definition teacher_conflict_entry (db : Database) (slot conflict_slot : TimeSlot.t)
    : outcome Conflict :=
  let teacher := teacher_name db slot in
  match teacher_of db slot with
  | Some _ =>
      returned
        (teacher_conflict teacher (course_name db slot) (course_name db conflict_slot))
  | None => raised (NONE_HAS_NO "full_name")
  end.

(** The dictionary of a group conflict: ['group'] reads [slot.group.name]. *)
Definition group_conflict_entry (db : Database) (slot conflict_slot : TimeSlot.t)
    : outcome Conflict :=
  match group_of db slot with
  | Some grp =>
      returned
        (group_conflict (Group.name grp) (course_name db slot)
           (course_name db conflict_slot))
  | None => raised (NONE_HAS_NO "name")
  end.

(** The dictionary of an availability conflict: ['teacher'] reads
    [slot.teacher.full_name]. *)
Definition availability_conflict_entry (db : Database) (slot : TimeSlot.t)
    : outcome Conflict :=
  match teacher_of db slot with
  | Some t =>
      returned
        (availability_conflict (Teacher.full_name t) (course_name db slot)
           (TimeSlot.start_time slot, TimeSlot.end_time slot))
  | None => raised (NONE_HAS_NO "full_name")
  end.

(** The two loops of a pairwise check.  The state of the loops is the
    set [checked_pairs], [self.conflicts] and the exception that left
    the loops, if any: after it nothing is done. *)
Section PairwiseCheck.
Context {E : Type}.
Variable entry : TimeSlot.t -> TimeSlot.t -> outcome E.
Variable same : TimeSlot.t -> TimeSlot.t -> bool.
Variable considered : TimeSlot.t -> bool.
Variable db : Database.

Definition report_pair (slot : TimeSlot.t)
    (acc : gset (Z * Z) * list E * option PyError) (conflict_slot : TimeSlot.t)
    : gset (Z * Z) * list E * option PyError :=
  match acc.2 with
  | Some _ => acc
  | None =>
      let pair_key := pair_key (pk slot) (pk conflict_slot) in
      if bool_decide (pair_key ∈ acc.1.1) then acc
      else
        match entry slot conflict_slot with
        | returned c => ({[ pair_key ]} ∪ acc.1.1, acc.1.2 ++ [c], None)
        | raised e => ({[ pair_key ]} ∪ acc.1.1, acc.1.2, Some e)
        end
  end.

Definition report_slot (acc : gset (Z * Z) * list E * option PyError)
    (slot : TimeSlot.t) : gset (Z * Z) * list E * option PyError :=
  if considered slot
  then fold_left (report_pair slot) (overlapping same db slot) acc
  else acc.

Definition pairwise_check (conflicts : list E)
    : gset (Z * Z) * list E * option PyError :=
  fold_left report_slot (db_timeslots db) (∅, conflicts, None).
End PairwiseCheck.

(** The end of a method: [self.conflicts], and the entries of the type
    of the method unless an exception left the loop. *)
Definition finish (ty : string) (conflicts : list Conflict) (left : option PyError)
    : list Conflict * outcome (list Conflict) :=
  (conflicts,
   match left with
   | None => returned (List.filter (has_type ty) conflicts)
   | Some e => raised e
   end).

Definition detect_teacher_conflicts (self : list Conflict) (db : Database)
    : list Conflict * outcome (list Conflict) :=
  let state :=
    pairwise_check (teacher_conflict_entry db) same_teacher (fun _ => true) db self in
  finish "teacher_conflict" state.1.2 state.2.

Definition detect_group_conflicts (self : list Conflict) (db : Database)
    : list Conflict * outcome (list Conflict) :=
  let state := pairwise_check (group_conflict_entry db) same_group has_group db self in
  finish "group_conflict" state.1.2 state.2.

(** The body of the loop of [detect_availability_conflicts]. *)
Definition check_availability (db : Database)
    (acc : list Conflict * option PyError) (slot : TimeSlot.t)
    : list Conflict * option PyError :=
  match acc.2 with
  | Some _ => acc
  | None =>
      if TimeSlot.teacher_id slot =? 0 then acc
      else if is_valid db slot then acc
      else
        match availability_conflict_entry db slot with
        | returned c => (acc.1 ++ [c], None)
        | raised e => (acc.1, Some e)
        end
  end.

Definition detect_availability_conflicts (self : list Conflict) (db : Database)
    : list Conflict * outcome (list Conflict) :=
  let state := fold_left (check_availability db) (db_timeslots db) (self, None) in
  finish "availability_conflict" state.1 state.2.

(** [detect_all_conflicts]: the report, unless one of the checks is left
    by an exception. *)
Definition detect_all_conflicts (db : Database) : outcome Report.t :=
  let c0 : list Conflict := [] in
  let c1 := (detect_room_conflicts c0 db).1 in
  let (c2, teacher_conflicts) := detect_teacher_conflicts c1 db in
  bind teacher_conflicts
    (fun _ =>
       let (c3, group_conflicts) := detect_group_conflicts c2 db in
       bind group_conflicts
         (fun _ =>
            let (c4, availability_conflicts) := detect_availability_conflicts c3 db in
            bind availability_conflicts
              (fun _ =>
                 let c5 := (detect_workload_violations c4 db).1 in
                 let c6 := (detect_capacity_conflicts c5 db).1 in
                 returned
                   {| Report.total_conflicts := Z.of_nat (length c6);
                      Report.critical := count_severity "critical" c6;
                      Report.high := count_severity "high" c6;
                      Report.medium := count_severity "medium" c6;
                      Report.conflicts := c6 |}))).

End Raising.

(** ** The properties read off an assignment set *)

Definition windows_overlap (a b : TimeSlot.t) : Prop :=
  is_overlap (TimeSlot.start_time a) (TimeSlot.end_time a)
    (TimeSlot.start_time b) (TimeSlot.end_time b) = true.

Definition room_clash (a b : TimeSlot.t) : Prop :=
  TimeSlot.room_id a = TimeSlot.room_id b
  /\ TimeSlot.day_of_week a = TimeSlot.day_of_week b
  /\ windows_overlap a b.

Definition teacher_clash (a b : TimeSlot.t) : Prop :=
  TimeSlot.teacher_id a = TimeSlot.teacher_id b
  /\ TimeSlot.day_of_week a = TimeSlot.day_of_week b
  /\ windows_overlap a b.

Definition group_clash (a b : TimeSlot.t) : Prop :=
  TimeSlot.group_id a <> None
  /\ TimeSlot.group_id a = TimeSlot.group_id b
  /\ TimeSlot.day_of_week a = TimeSlot.day_of_week b
  /\ windows_overlap a b.

Definition double_booked (a b : TimeSlot.t) : Prop :=
  room_clash a b \/ teacher_clash a b \/ group_clash a b.

(** The assignments at two different positions of a list are never
    double booked, whenever one of the two positions is below [n]. *)
Definition no_double_booking_below (n : nat) (all : list TimeSlot.t) : Prop :=
  forall (i j : nat) (a b : TimeSlot.t),
    i <> j -> (i < n \/ j < n)%nat ->
    nth_error all i = Some a -> nth_error all j = Some b ->
    ~ double_booked a b.

Definition no_double_booking (all : list TimeSlot.t) : Prop :=
  no_double_booking_below (length all) all.

(** The invariant of a run: the generated slots are pairwise free of
    double booking, and free of it against every stored slot. *)
Definition clear_run (db : Database) (gens : list TimeSlot.t) : Prop :=
  ForallOrdPairs (fun a b => ~ double_booked a b) gens
  /\ Forall (fun a => Forall (fun b => ~ double_booked a b) (db_timeslots db)) gens.

(** The number of session instances a run has to place, and how many of
    them belong to a course without teacher. *)
Definition sessions_of_course (course : Course.t) : nat :=
  Z.to_nat (Course.weekly_sessions course).

Definition sessions_of_group (group : Group.t) : nat :=
  list_sum (map sessions_of_course (Group.courses group)).

Definition session_instances (groups : list Group.t) : nat :=
  list_sum (map sessions_of_group groups).

Definition has_no_teacher (course : Course.t) : bool :=
  match Course.teachers course with
  | [] => true
  | _ :: _ => false
  end.

Definition unstaffed_sessions_of_group (group : Group.t) : nat :=
  list_sum
    (map sessions_of_course (List.filter has_no_teacher (Group.courses group))).

Definition unstaffed_instances (groups : list Group.t) : nat :=
  list_sum (map unstaffed_sessions_of_group groups).

Definition count_reason (r : string) (conflicts : list Failure.t) : nat :=
  length (List.filter (fun f => String.eqb (Failure.reason f) r) conflicts).

(** A declared window of the teacher on that day that is marked
    available and contains [start_time, end_time). *)
Definition available_window (db : Database) (teacher_id day : Z)
    (start_time end_time : time) (a : TeacherAvailability.t) : Prop :=
  In a (db_teacher_availability db)
  /\ TeacherAvailability.teacher_id a = teacher_id
  /\ TeacherAvailability.day_of_week a = day
  /\ TeacherAvailability.is_available a = true
  /\ TeacherAvailability.start_time a <= start_time
  /\ end_time <= TeacherAvailability.end_time a.

Definition declares_nothing (db : Database) (teacher_id : Z) : Prop :=
  forall a, In a (db_teacher_availability db) ->
            TeacherAvailability.teacher_id a <> teacher_id.

Definition declares_on (db : Database) (teacher_id day : Z) : Prop :=
  exists a, In a (db_teacher_availability db)
            /\ TeacherAvailability.teacher_id a = teacher_id
            /\ TeacherAvailability.day_of_week a = day.

(** The keys under which a pairwise check reported its pairs. *)
Definition keys_of (pairs : list (TimeSlot.t * TimeSlot.t)) : list (Z * Z) :=
  map (fun p => pair_key (pk p.1) (pk p.2)) pairs.

Definition reports_of (key : Z * Z) (pairs : list (TimeSlot.t * TimeSlot.t))
    : nat :=
  length (List.filter (fun p => bool_decide (pair_key (pk p.1) (pk p.2) = key)) pairs).

Definition as_pair (slot conflict_slot : TimeSlot.t) : TimeSlot.t * TimeSlot.t :=
  (slot, conflict_slot).

(** The state of a pairwise check against the state of the same check
    when it collects the pairs themselves: the same keys, and the
    entries of the pairs after the conflicts that were there before. *)
Definition tracks {E : Type} (entry : TimeSlot.t -> TimeSlot.t -> E)
    (acc : gset (Z * Z) * list E)
    (trace : gset (Z * Z) * list (TimeSlot.t * TimeSlot.t)) (conflicts : list E)
    : Prop :=
  acc.1 = trace.1 /\ acc.2 = conflicts ++ map (fun p => entry p.1 p.2) trace.2.

(** The pairs the room check and the teacher check report, in the order
    of their entries. *)
Definition room_pairs (db : Database) : list (TimeSlot.t * TimeSlot.t) :=
  (pairwise_check as_pair
     same_room (fun _ => true) db []).2.

Definition teacher_pairs (db : Database) : list (TimeSlot.t * TimeSlot.t) :=
  (pairwise_check as_pair
     same_teacher (fun _ => true) db []).2.

Definition room_entry (db : Database) (p : TimeSlot.t * TimeSlot.t) : Conflict :=
  room_conflict (room_name db p.1) (course_name db p.1) (course_name db p.2).

Definition teacher_entry (db : Database) (p : TimeSlot.t * TimeSlot.t) : Conflict :=
  teacher_conflict (teacher_name db p.1) (course_name db p.1) (course_name db p.2).

Definition group_pairs (db : Database) : list (TimeSlot.t * TimeSlot.t) :=
  (pairwise_check as_pair
     same_group has_group db []).2.

Definition group_entry (db : Database) (p : TimeSlot.t * TimeSlot.t) : Conflict :=
  group_conflict (group_name db p.1) (course_name db p.1) (course_name db p.2).

(** The two slots of a reported pair are stored rows with different
    keys that the query of the check relates. *)
Definition conflicting (same : TimeSlot.t -> TimeSlot.t -> bool) (db : Database)
    (p : TimeSlot.t * TimeSlot.t) : Prop :=
  In p.1 (db_timeslots db) /\ In p.2 (db_timeslots db)
  /\ pk p.2 <> pk p.1
  /\ same p.2 p.1 = true
  /\ TimeSlot.day_of_week p.2 = TimeSlot.day_of_week p.1
  /\ windows_cross p.1 p.2 = true.

(** The windows of the teacher of a slot, on the day of the slot, that
    are marked available and contain the window of the slot. *)
Definition covering_windows (db : Database) (slot : TimeSlot.t)
    : list TeacherAvailability.t :=
  List.filter
    (fun a =>
       (TeacherAvailability.teacher_id a =? TimeSlot.teacher_id slot)
       && (TeacherAvailability.day_of_week a =? TimeSlot.day_of_week slot)
       && covers a (TimeSlot.start_time slot) (TimeSlot.end_time slot))
    (db_teacher_availability db).

(** All the windows of the teacher of a slot on the day of the slot. *)
Definition windows_of_day (db : Database) (slot : TimeSlot.t)
    : list TeacherAvailability.t :=
  List.filter
    (fun a =>
       (TeacherAvailability.teacher_id a =? TimeSlot.teacher_id slot)
       && (TeacherAvailability.day_of_week a =? TimeSlot.day_of_week slot))
    (db_teacher_availability db).

(** The invariant of the two loops of a pairwise check: the set holds
    the keys of the reported pairs, no key was reported twice, and every
    reported pair is a conflicting one. *)
Definition trace_ok (same : TimeSlot.t -> TimeSlot.t -> bool) (db : Database)
    (trace : gset (Z * Z) * list (TimeSlot.t * TimeSlot.t)) : Prop :=
  (forall k, k ∈ trace.1 <-> In k (keys_of trace.2))
  /\ List.NoDup (keys_of trace.2)
  /\ Forall (conflicting same db) trace.2.

(** Everything [place_at] has checked when it builds a slot. *)
Inductive placed (self : TimetableGenerator.t) (db : Database) (group : Group.t)
    (course : Course.t) (duration_min : Z) (suitable_rooms : list Room.t)
    (day : Z) (start_time : time) : TimeSlot.t -> Prop :=
| placed_intro (room : Room.t) (teacher : Teacher.t) :
    add_minutes start_time duration_min <= mk_time 17 0 ->
    check_group_busy self db (Group.id group) day start_time
      (add_minutes start_time duration_min) = false ->
    In room suitable_rooms ->
    check_room_busy self db (Room.id room) day start_time
      (add_minutes start_time duration_min) = false ->
    In teacher (Course.teachers course) ->
    check_teacher_busy self db (Teacher.id teacher) day start_time
      (add_minutes start_time duration_min) = false ->
    check_teacher_preferences db (Teacher.id teacher) day start_time
      (add_minutes start_time duration_min) = true ->
    placed self db group course duration_min suitable_rooms day start_time
      {| TimeSlot.id := None;
         TimeSlot.teacher_id := Teacher.id teacher;
         TimeSlot.course_id := Course.id course;
         TimeSlot.group_id := Some (Group.id group);
         TimeSlot.room_id := Room.id room;
         TimeSlot.day_of_week := day;
         TimeSlot.start_time := start_time;
         TimeSlot.end_time := add_minutes start_time duration_min;
         TimeSlot.is_locked := None |}.

(** The three ways one session instance can end. *)
Inductive session_outcome `{RandomSource} (db : Database) (all_rooms : list Room.t)
    (group : Group.t) (course : Course.t) (duration_min : Z) (st st' : Run)
    : Prop :=
| outcome_no_teacher :
    Course.teachers course = [] ->
    TimetableGenerator.generated_slots (run_self st')
    = TimetableGenerator.generated_slots (run_self st) ->
    TimetableGenerator.conflicts (run_self st')
    = TimetableGenerator.conflicts (run_self st)
      ++ [{| Failure.course := Course.name course;
             Failure.group := Group.name group;
             Failure.reason := NO_TEACHER_ASSIGNED |}] ->
    generated_count st' = generated_count st ->
    failed_count st' = failed_count st + 1 ->
    session_outcome db all_rooms group course duration_min st st'
| outcome_placed (slot : TimeSlot.t) (rooms : list Room.t) (day : Z)
    (start_time : time) :
    Course.teachers course <> [] ->
    Permutation (suitable_rooms_of all_rooms course) rooms ->
    In day (TimetableGenerator.days (run_self st)) ->
    In start_time (TimetableGenerator.slot_starts (run_self st)) ->
    place_at (run_self st) db group course duration_min rooms day start_time
    = Some slot ->
    TimetableGenerator.generated_slots (run_self st')
    = TimetableGenerator.generated_slots (run_self st) ++ [slot] ->
    TimetableGenerator.conflicts (run_self st')
    = TimetableGenerator.conflicts (run_self st) ->
    generated_count st' = generated_count st + 1 ->
    failed_count st' = failed_count st ->
    session_outcome db all_rooms group course duration_min st st'
| outcome_exhausted (rooms : list Room.t) :
    Course.teachers course <> [] ->
    Permutation (suitable_rooms_of all_rooms course) rooms ->
    (forall day start_time,
       In day (TimetableGenerator.days (run_self st)) ->
       In start_time (TimetableGenerator.slot_starts (run_self st)) ->
       place_at (run_self st) db group course duration_min rooms day start_time
       = None) ->
    TimetableGenerator.generated_slots (run_self st')
    = TimetableGenerator.generated_slots (run_self st) ->
    TimetableGenerator.conflicts (run_self st')
    = TimetableGenerator.conflicts (run_self st)
      ++ [{| Failure.course := Course.name course;
             Failure.group := Group.name group;
             Failure.reason := NO_VALID_SLOT |}] ->
    generated_count st' = generated_count st ->
    failed_count st' = failed_count st + 1 ->
    session_outcome db all_rooms group course duration_min st st'.

(** The loop variables of [generate] after its three loops. *)
Definition final_run `{RandomSource} (self : TimetableGenerator.t) (db : Database)
    (g : rng) : Run :=
  fold_left (schedule_group db (db_rooms db)) (target_groups self db)
    {| run_self := self; run_rng := g; generated_count := 0; failed_count := 0 |}.

(** The book-keeping of a run between two states of its loop variables:
    [n] session instances were handled, [u] of them for a course without
    teacher; each one added one slot or one failure, and the two counters
    moved with the two lists. *)
Definition known_reason (f : Failure.t) : Prop :=
  Failure.reason f = NO_TEACHER_ASSIGNED \/ Failure.reason f = NO_VALID_SLOT.

Record progress `{RandomSource} (st st' : Run) (n u : nat) : Prop := {
  progress_total :
    (length (TimetableGenerator.generated_slots (run_self st'))
     + length (TimetableGenerator.conflicts (run_self st'))
     = length (TimetableGenerator.generated_slots (run_self st))
       + length (TimetableGenerator.conflicts (run_self st)) + n)%nat;
  progress_unstaffed :
    (count_reason NO_TEACHER_ASSIGNED (TimetableGenerator.conflicts (run_self st'))
     = count_reason NO_TEACHER_ASSIGNED (TimetableGenerator.conflicts (run_self st))
       + u)%nat;
  progress_generated :
    generated_count st'
    + Z.of_nat (length (TimetableGenerator.generated_slots (run_self st)))
    = generated_count st
      + Z.of_nat (length (TimetableGenerator.generated_slots (run_self st')));
  progress_failed :
    failed_count st'
    + Z.of_nat (length (TimetableGenerator.conflicts (run_self st)))
    = failed_count st
      + Z.of_nat (length (TimetableGenerator.conflicts (run_self st')));
  progress_reasons :
    Forall known_reason (TimetableGenerator.conflicts (run_self st)) ->
    Forall known_reason (TimetableGenerator.conflicts (run_self st'))
}.

(** The same generator object with another scope: the three attributes
    [department_id], [semester] and [group_id] are replaced. *)
Definition with_scope (self : TimetableGenerator.t)
    (department_id semester group_id : Z) : TimetableGenerator.t :=
  {| TimetableGenerator.department_id := department_id;
     TimetableGenerator.semester := semester;
     TimetableGenerator.start_date := TimetableGenerator.start_date self;
     TimetableGenerator.end_date := TimetableGenerator.end_date self;
     TimetableGenerator.group_id := group_id;
     TimetableGenerator.generated_slots := TimetableGenerator.generated_slots self;
     TimetableGenerator.conflicts := TimetableGenerator.conflicts self;
     TimetableGenerator.debug := TimetableGenerator.debug self;
     TimetableGenerator.slot_starts := TimetableGenerator.slot_starts self;
     TimetableGenerator.days := TimetableGenerator.days self |}.

Definition rescope `{RandomSource} (st : Run) (department_id semester group_id : Z)
    : Run :=
  {| run_self := with_scope (run_self st) department_id semester group_id;
     run_rng := run_rng st;
     generated_count := generated_count st;
     failed_count := failed_count st |}.

(** ** A small catalog to run the two classes on *)

Definition ada : Teacher.t := {| Teacher.id := 1; Teacher.full_name := "Ada Diallo" |}.
Definition bob : Teacher.t := {| Teacher.id := 2; Teacher.full_name := "Bob Amrani" |}.

Definition algo : Course.t :=
  {| Course.id := 10; Course.name := "Algorithmique";
     Course.duration_minutes := Some 60; Course.requires_lab := Some false;
     Course.weekly_sessions := 1; Course.teachers := [ada] |}.

Definition web_lab : Course.t :=
  {| Course.id := 11; Course.name := "Développement Web";
     Course.duration_minutes := Some 60; Course.requires_lab := Some true;
     Course.weekly_sessions := 2; Course.teachers := [ada; bob] |}.

Definition orphan : Course.t :=
  {| Course.id := 12; Course.name := "Optique";
     Course.duration_minutes := Some 60; Course.requires_lab := Some false;
     Course.weekly_sessions := 1; Course.teachers := [] |}.

(** A course of ten hours: no start time of the grid lets it end by 17:00. *)
Definition marathon : Course.t :=
  {| Course.id := 13; Course.name := "Atelier";
     Course.duration_minutes := Some 600; Course.requires_lab := Some false;
     Course.weekly_sessions := 1; Course.teachers := [ada] |}.

Definition lab_room : Room.t :=
  {| Room.id := 1; Room.name := "Labo 1"; Room.capacity := 20; Room.room_type := "Lab" |}.
Definition class_room : Room.t :=
  {| Room.id := 2; Room.name := "Salle 2"; Room.capacity := 40;
     Room.room_type := "Classroom" |}.

Definition info1 : Group.t :=
  {| Group.id := 100; Group.name := "INFO-1"; Group.department_id := 7;
     Group.courses := [algo; web_lab; orphan] |}.
Definition math1 : Group.t :=
  {| Group.id := 200; Group.name := "MATH-1"; Group.department_id := 8;
     Group.courses := [algo] |}.
Definition atelier_group : Group.t :=
  {| Group.id := 300; Group.name := "ATELIER"; Group.department_id := 9;
     Group.courses := [marathon] |}.

Definition stored (id teacher course group room day : Z) (s e : time) : TimeSlot.t :=
  {| TimeSlot.id := Some id; TimeSlot.teacher_id := teacher;
     TimeSlot.course_id := course; TimeSlot.group_id := Some group;
     TimeSlot.room_id := room; TimeSlot.day_of_week := day;
     TimeSlot.start_time := s; TimeSlot.end_time := e;
     TimeSlot.is_locked := Some false |}.

Definition window (id teacher day : Z) (s e : time) (available : bool)
    : TeacherAvailability.t :=
  {| TeacherAvailability.id := id; TeacherAvailability.teacher_id := teacher;
     TeacherAvailability.day_of_week := day;
     TeacherAvailability.start_time := s; TeacherAvailability.end_time := e;
     TeacherAvailability.is_available := available |}.

Definition catalog (rows : list TimeSlot.t) (windows : list TeacherAvailability.t)
    : Database :=
  {| db_groups := [info1; math1; atelier_group];
     db_rooms := [lab_room; class_room];
     db_courses := [algo; web_lab; orphan; marathon];
     db_teachers := [ada; bob];
     db_timeslots := rows;
     db_teacher_availability := windows |}.

(** Two stored rows that already share room 2 on Monday morning. *)
Definition clashing_rows : list TimeSlot.t :=
  [stored 1 1 10 200 2 0 (mk_time 8 0) (mk_time 10 0);
   stored 2 2 10 400 2 0 (mk_time 9 0) (mk_time 11 0)].

(** Two stored rows of the same teacher on Tuesday, in two rooms, that
    overlap by fifteen minutes. *)
Definition quarter_hour_rows : list TimeSlot.t :=
  [stored 1 1 10 100 2 1 (mk_time 9 0) (mk_time 10 0);
   stored 2 1 11 200 1 1 (mk_time 9 45) (mk_time 10 45)].

(** One stored row of teacher 1 on Monday from 09:00 to 10:00, and two
    windows of that teacher on Monday that both contain it. *)
Definition monday_row : TimeSlot.t :=
  stored 1 1 10 100 2 0 (mk_time 9 0) (mk_time 10 0).

Definition two_windows : list TeacherAvailability.t :=
  [window 1 1 0 (mk_time 8 0) (mk_time 12 0) true;
   window 2 1 0 (mk_time 8 0) (mk_time 17 0) true].

(** Two stored rows of teacher 9, whose record was deleted: Wednesday
    from 09:00 to 11:00 in room 1 and from 10:00 to 12:00 in room 2. *)
Definition orphaned_rows : list TimeSlot.t :=
  [stored 1 9 10 100 1 2 (mk_time 9 0) (mk_time 11 0);
   stored 2 9 11 200 2 2 (mk_time 10 0) (mk_time 12 0)].

(** Two stored rows of ten hours on Monday, from 14:00 and from 15:00,
    with the end times 00:00 and 01:00 the generator gives such slots,
    in the same room with the same teacher for the same group. *)
Definition wrapped_rows : list TimeSlot.t :=
  [stored 1 1 13 300 2 0 (mk_time 14 0) (mk_time 0 0);
   stored 2 1 13 300 2 0 (mk_time 15 0) (mk_time 1 0)].

(** A course whose duration, 5 000 000 000 minutes, carries the dummy
    date of [add_minutes] past the year 9999, in a group that also follows
    the one hour course. *)
Definition eon : Course.t :=
  {| Course.id := 14; Course.name := "Histoire longue";
     Course.duration_minutes := Some 5000000000; Course.requires_lab := Some false;
     Course.weekly_sessions := 1; Course.teachers := [ada] |}.

Definition hist1 : Group.t :=
  {| Group.id := 500; Group.name := "HIST-1"; Group.department_id := 10;
     Group.courses := [algo; eon] |}.

Definition long_catalog : Database :=
  {| db_groups := [hist1];
     db_rooms := [class_room];
     db_courses := [algo; eon];
     db_teachers := [ada];
     db_timeslots := [];
     db_teacher_availability := [] |}.

(** A group with two courses of ten hours, taught by the same teacher. *)
Definition marathon2 : Course.t :=
  {| Course.id := 15; Course.name := "Atelier II";
     Course.duration_minutes := Some 600; Course.requires_lab := Some false;
     Course.weekly_sessions := 1; Course.teachers := [ada] |}.

Definition atelier2_group : Group.t :=
  {| Group.id := 600; Group.name := "ATELIER-2"; Group.department_id := 11;
     Group.courses := [marathon; marathon2] |}.

Definition double_catalog : Database :=
  {| db_groups := [atelier2_group];
     db_rooms := [class_room];
     db_courses := [marathon; marathon2];
     db_teachers := [ada];
     db_timeslots := [];
     db_teacher_availability := [] |}.

(** The one window teacher 1 declared: Monday from 08:00 to 12:00. *)
Definition monday_morning : list TeacherAvailability.t :=
  [window 1 1 0 (mk_time 8 0) (mk_time 12 0) true].

(** ** utils/export_utils.py

    The exporter reads [slot.course.code], [slot.room.code] and
    [slot.course.teachers] through the relationships of the rows it was
    given; they are the functions of [Loaded].  The layout of the PDF and
    of the workbook belongs to the libraries; the table of strings the
    PDF is built from and the rows written to the CSV are modelled. *)

Record Loaded := mkLoaded {
  course_code : TimeSlot.t -> string;
  room_code : TimeSlot.t -> string;
  course_teachers : TimeSlot.t -> list Teacher.t
}.

Module TimetableExporter.
Record t := mk { timeslots : list TimeSlot.t; title : string }.
End TimetableExporter.

Definition NEWLINE : string := String (Ascii.ascii_of_nat 10) EmptyString.

(** [str] of a [datetime.time] without seconds: ["HH:MM:00"]. *)
Definition two_digits (n : Z) : string :=
  String (Ascii.ascii_of_nat (48 + Z.to_nat (n / 10)))
    (String (Ascii.ascii_of_nat (48 + Z.to_nat (n mod 10))) EmptyString).

Definition time_str (t : time) : string :=
  String.append (two_digits (hour t))
    (String.append ":" (String.append (two_digits (minute t)) ":00")).

(** [_get_unique_times]: the start times are collected in a set, and the
    set is sorted. *)
Definition _get_unique_times (self : TimetableExporter.t) : list time :=
  let times : gset Z :=
    fold_left (fun times slot => {[ TimeSlot.start_time slot ]} ∪ times)
      (TimetableExporter.timeslots self) ∅ in
  merge_sort Z.le (elements times).

(** The slots of a day and a start time, in the order of the list. *)
Definition slots_at (self : TimetableExporter.t) (day : Z) (time_slot : time)
    : list TimeSlot.t :=
  List.filter
    (fun s => (TimeSlot.day_of_week s =? day) && (TimeSlot.start_time s =? time_slot))
    (TimetableExporter.timeslots self).

Definition cell_text (rel : Loaded) (slot : TimeSlot.t) : string :=
  String.append (course_code rel slot) (String.append NEWLINE (room_code rel slot)).

(** One cell of [_create_table_data]. *)
Definition table_cell (rel : Loaded) (self : TimetableExporter.t)
    (time_slot : time) (day : Z) : string :=
  match slots_at self day time_slot with
  | slot :: _ => cell_text rel slot
  | [] => EmptyString
  end.

Definition table_row (rel : Loaded) (self : TimetableExporter.t) (time_slot : time)
    : list string :=
  time_str time_slot :: map (table_cell rel self time_slot) [0; 1; 2; 3; 4].

Definition _create_table_data (rel : Loaded) (self : TimetableExporter.t)
    : list (list string) :=
  let days := ["Lundi"; "Mardi"; "Mercredi"; "Jeudi"; "Vendredi"]%string in
  let times := _get_unique_times self in
  ("Heure"%string :: days) :: map (table_row rel self) times.








(** [export_to_excel]: the values of the cells of the worksheet, by row
    and column; fonts, fills and the merged title area are left out.
    [enumerate(l, start)] numbers the elements from [start]. *)
Fixpoint enumerate {A : Type} (start : Z) (l : list A) : list (Z * A) :=
  match l with
  | [] => []
  | x :: rest => (start, x) :: enumerate (start + 1) rest
  end.

Definition EXCEL_HEADERS : list string :=
  ["Heure"; "Lundi"; "Mardi"; "Mercredi"; "Jeudi"; "Vendredi"]%string.

Definition write_header (ws : gmap (Z * Z) string) (p : Z * string)
    : gmap (Z * Z) string :=
  <[ (3, p.1) := p.2 ]> ws.

Definition write_day (rel : Loaded) (self : TimetableExporter.t) (row_idx : Z)
    (time_slot : time) (ws : gmap (Z * Z) string) (day : Z)
    : gmap (Z * Z) string :=
  match slots_at self day time_slot with
  | slot :: _ => <[ (row_idx, day + 2) := cell_text rel slot ]> ws
  | [] => ws
  end.

Definition write_time_row (rel : Loaded) (self : TimetableExporter.t)
    (ws : gmap (Z * Z) string) (p : Z * time) : gmap (Z * Z) string :=
  fold_left (write_day rel self p.1 p.2) [0; 1; 2; 3; 4]
    (<[ (p.1, 1) := time_str p.2 ]> ws).

Definition export_to_excel (rel : Loaded) (self : TimetableExporter.t)
    : gmap (Z * Z) string :=
  let ws := <[ (1, 1) := TimetableExporter.title self ]> ∅ in
  let ws := fold_left write_header (enumerate 1 EXCEL_HEADERS) ws in
  fold_left (write_time_row rel self) (enumerate 4 (_get_unique_times self)) ws.

(** The value a cell of the row of [time_slot] holds once the row is
    written, from the value it held before. *)
Definition row_value (rel : Loaded) (self : TimetableExporter.t)
    (time_slot : time) (c : Z) (before : option string) : option string :=
  if c =? 1 then Some (time_str time_slot)
  else if (2 <=? c) && (c <=? 6) then
    match slots_at self (c - 2) time_slot with
    | slot :: _ => Some (cell_text rel slot)
    | [] => before
    end
  else before.

(** The same exporter without the slots of Saturday, of Sunday and of
    any day that is not one of the five columns. *)
Definition weekdays_only (self : TimetableExporter.t) : TimetableExporter.t :=
  {| TimetableExporter.timeslots :=
       List.filter
         (fun s => (0 <=? TimeSlot.day_of_week s) && (TimeSlot.day_of_week s <=? 4))
         (TimetableExporter.timeslots self);
     TimetableExporter.title := TimetableExporter.title self |}.

(** ** routes/admin_routes.py: edit_timeslot

    The route on a POST request whose fields are all filled in.  The
    row is looked up by its id, then the form is validated; the two
    queries use the time comparisons of the detector.  The message of
    the first check reads [conflict.teacher.name], an attribute the
    [Teacher] model does not have, so that branch raises
    [AttributeError] before anything is flashed.  [commit_ok] is the
    decision of the storage on the table with the edited row. *)

Record EditForm := mkEditForm {
  form_room_id : Z;
  form_teacher_id : Z;
  form_day_of_week : Z;
  form_start_time : time;
  form_end_time : time
}.

Inductive EditOutcome :=
| edit_not_found
| edit_form_shown
| edit_raises (exception : string)
| edit_refused (flash : string * string)
| edit_updated (rows : list TimeSlot.t) (flash : string * string).

(** [form.validate_on_submit()] for [EditTimeSlotForm].  The three
    select fields coerce to [int]; each must hold one of its choices (the
    ids of the stored rooms, the ids of the stored teachers, the days 0
    to 6) and, by [DataRequired], a value that is not falsy: the day 0,
    Monday, is among the choices and is refused all the same. *)
Definition validate_on_submit (db : Database) (form : EditForm) : bool :=
  existsb (fun r => Room.id r =? form_room_id form) (db_rooms db)
  && negb (form_room_id form =? 0)
  && existsb (fun t => Teacher.id t =? form_teacher_id form) (db_teachers db)
  && negb (form_teacher_id form =? 0)
  && existsb (fun day => day =? form_day_of_week form) [0; 1; 2; 3; 4; 5; 6]
  && negb (form_day_of_week form =? 0).

Definition teacher_query (rows : list TimeSlot.t) (slot_id : Z) (form : EditForm)
    : option TimeSlot.t :=
  head
    (List.filter
       (fun row =>
          (TimeSlot.teacher_id row =? form_teacher_id form)
          && (TimeSlot.day_of_week row =? form_day_of_week form)
          && (TimeSlot.start_time row <? form_end_time form)
          && (form_start_time form <? TimeSlot.end_time row)
          && negb (pk row =? slot_id))
       rows).

Definition room_query (rows : list TimeSlot.t) (slot_id : Z) (form : EditForm)
    : option TimeSlot.t :=
  head
    (List.filter
       (fun row =>
          (TimeSlot.room_id row =? form_room_id form)
          && (TimeSlot.day_of_week row =? form_day_of_week form)
          && (TimeSlot.start_time row <? form_end_time form)
          && (form_start_time form <? TimeSlot.end_time row)
          && negb (pk row =? slot_id))
       rows).

Definition apply_form (form : EditForm) (slot : TimeSlot.t) : TimeSlot.t :=
  {| TimeSlot.id := TimeSlot.id slot;
     TimeSlot.teacher_id := form_teacher_id form;
     TimeSlot.course_id := TimeSlot.course_id slot;
     TimeSlot.group_id := TimeSlot.group_id slot;
     TimeSlot.room_id := form_room_id form;
     TimeSlot.day_of_week := form_day_of_week form;
     TimeSlot.start_time := form_start_time form;
     TimeSlot.end_time := form_end_time form;
     TimeSlot.is_locked := TimeSlot.is_locked slot |}.

Definition room_busy_message (db : Database) (busy : TimeSlot.t)
    : string * string :=
  (String.append "Erreur : La salle "
     (String.append (room_name db busy) " est déjà occupée à ce moment."),
   "danger"%string).

Definition edit_timeslot (commit_ok : list TimeSlot.t -> bool) (db : Database)
    (slot_id : Z) (form : EditForm) : EditOutcome :=
  match find (fun row => pk row =? slot_id) (db_timeslots db) with
  | None => edit_not_found
  | Some slot =>
      if negb (validate_on_submit db form) then edit_form_shown
      else
        match teacher_query (db_timeslots db) (pk slot) form with
        | Some conflict => edit_raises "AttributeError"
        | None =>
            match room_query (db_timeslots db) (pk slot) form with
            | Some busy => edit_refused (room_busy_message db busy)
            | None =>
                let rows :=
                  map (fun row => if pk row =? pk slot then apply_form form row else row)
                    (db_timeslots db) in
                if commit_ok rows
                then edit_updated rows
                       ("Créneau mis à jour avec succès"%string, "success"%string)
                else edit_raises "IntegrityError"
            end
        end
  end.

(** ** Further notions for the detector *)

(** What each check appends to [self.conflicts]. *)
Definition workload_flagged (db : Database) : list Group.t :=
  List.filter
    (fun group =>
       (total_minutes_of db group <? 18 * 60)
       || (24 * 60 <? total_minutes_of db group))
    (db_groups db).

Definition workload_entry (db : Database) (group : Group.t) : Conflict :=
  workload_conflict (Group.name group) (total_minutes_of db group).

Definition capacity_flagged (db : Database) : list TimeSlot.t :=
  List.filter (fun slot => room_capacity db slot <? students_count db slot)
    (db_timeslots db).

Definition capacity_entry (db : Database) (slot : TimeSlot.t) : Conflict :=
  capacity_conflict (room_name db slot) (students_count db slot)
    (room_capacity db slot).

Definition fresh_room (db : Database) : list Conflict :=
  map (room_entry db) (room_pairs db).
Definition fresh_teacher (db : Database) : list Conflict :=
  map (teacher_entry db) (teacher_pairs db).
Definition fresh_group (db : Database) : list Conflict :=
  map (group_entry db) (group_pairs db).
Definition fresh_availability (db : Database) : list Conflict :=
  map (availability_entry db) (availability_flagged db).
Definition fresh_workload (db : Database) : list Conflict :=
  map (workload_entry db) (workload_flagged db).
Definition fresh_capacity (db : Database) : list Conflict :=
  map (capacity_entry db) (capacity_flagged db).

(** A method of the detector leaves [self.conflicts] extended by its
    fresh entries and returns the entries of its type, old and fresh. *)
Definition appends (ty : string) (fresh : list Conflict)
    (detect : list Conflict -> list Conflict * list Conflict) : Prop :=
  forall self : list Conflict,
    (detect self).1 = self ++ fresh
    /\ (detect self).2 = List.filter (has_type ty) self ++ fresh.


(** Entries are appended one after the other until one of them cannot
    be built. *)
Fixpoint settle {E : Type} (conflicts : list E) (attempts : list (outcome E))
    : list E * option PyError :=
  match attempts with
  | [] => (conflicts, None)
  | returned c :: rest => settle (conflicts ++ [c]) rest
  | raised e :: _ => (conflicts, Some e)
  end.

(** The state of a pairwise check with exceptions against the state of
    the check that collects the pairs it reports. *)
Definition follows {E : Type} (entry : TimeSlot.t -> TimeSlot.t -> outcome E)
    (conflicts : list E) (acc : gset (Z * Z) * list E * option PyError)
    (trace : gset (Z * Z) * list (TimeSlot.t * TimeSlot.t)) : Prop :=
  (acc.1.2, acc.2) = settle conflicts (map (fun p => entry p.1 p.2) trace.2)
  /\ (acc.2 = None -> acc.1.1 = trace.1).

(** Every minute of the window of a slot lies in a declared window. *)
Definition inside (slot : TimeSlot.t) (a : TeacherAvailability.t) : Prop :=
  forall t : time,
    TimeSlot.start_time slot <= t < TimeSlot.end_time slot ->
    TeacherAvailability.start_time a <= t < TeacherAvailability.end_time a.

(** Every stored row has its teacher, and its group when it names one. *)
Definition relations_resolve (db : Database) : Prop :=
  Forall
    (fun slot =>
       teacher_of db slot <> None
       /\ (TimeSlot.group_id slot <> None -> group_of db slot <> None))
    (db_timeslots db).

(** ** Further notions for the generator *)


(** What a generated slot keeps of the run that built it: a course of a
    targeted group, a day and a start time of the generator, and the end
    time the generator computed and accepted. *)
Definition from_grid (self : TimetableGenerator.t) (db : Database)
    (slot : TimeSlot.t) : Prop :=
  exists group course,
    In group (target_groups self db)
    /\ In course (Group.courses group)
    /\ TimeSlot.group_id slot = Some (Group.id group)
    /\ TimeSlot.course_id slot = Course.id course
    /\ In (TimeSlot.day_of_week slot) [0; 1; 2; 3; 4; 5]
    /\ In (TimeSlot.start_time slot) (TimetableGenerator.slot_starts self)
    /\ TimeSlot.end_time slot
       = add_minutes (TimeSlot.start_time slot) (duration_of course)
    /\ TimeSlot.end_time slot <= mk_time 17 0.

(** The invariant of a run of a fresh generator on its own attributes. *)
Definition grid_kept `{RandomSource} (self : TimetableGenerator.t) (db : Database)
    (st : Run) : Prop :=
  TimetableGenerator.slot_starts (run_self st) = TimetableGenerator.slot_starts self
  /\ Permutation [0; 1; 2; 3; 4; 5] (TimetableGenerator.days (run_self st))
  /\ Forall (from_grid self db) (TimetableGenerator.generated_slots (run_self st)).

(** The start times for which the end time of a duration is computed
    without exception. *)
Definition computable (starts : list time) (duration_min : Z) : Prop :=
  Forall
    (fun start_time =>
       Raising.add_minutes start_time duration_min
       = returned (add_minutes start_time duration_min))
    starts.

(** Courses whose sessions stay within the day from every start time of
    the grid: a positive duration below seven hours. *)
Definition within_day (course : Course.t) : Prop :=
  0 < duration_of course < 420.

Definition targets_within_day (self : TimetableGenerator.t) (db : Database) : Prop :=
  Forall (fun group => Forall within_day (Group.courses group))
    (target_groups self db).

Definition nonempty_window (slot : TimeSlot.t) : Prop :=
  TimeSlot.start_time slot < TimeSlot.end_time slot.

(** The two uniqueness constraints between two rows. *)
Definition distinct_keys (a b : TimeSlot.t) : Prop :=
  same_room_time a b = false /\ same_teacher_time a b = false.

(** A pair the detector would report: the same day, crossing windows and
    the same room, the same teacher or the same non-null group. *)
Definition detector_conflict (a b : TimeSlot.t) : Prop :=
  TimeSlot.day_of_week a = TimeSlot.day_of_week b
  /\ windows_cross a b = true
  /\ (TimeSlot.room_id a = TimeSlot.room_id b
      \/ TimeSlot.teacher_id a = TimeSlot.teacher_id b
      \/ (TimeSlot.group_id a <> None
          /\ TimeSlot.group_id a = TimeSlot.group_id b)).

(** ** routes/admin_routes.py: generate_timetable

    The route on a POST request whose form validates.  Reading
    ['generated'] in the dictionary of a run without group raises
    [KeyError], whose text is the quoted key; the [except] clause of the
    route catches it, as it catches the [OverflowError] that leaves
    [generate], rolls the session back and flashes the text of the
    exception.

    The dictionary handed to the template holds the two counters, the
    failure records and, under ['timeslots'], the list of the generator:
    the very objects [save_timetable] added to the session.  After a
    commit that went through they are persistent rows, with the id and
    the column defaults the database gave them; after a commit that was
    refused they are as [generate] built them.  [Rendered] keeps the
    plain values and which of the two states the objects are in. *)

Definition flash_success (generated : Z) : string * string :=
  (String.append "Succès! "
     (String.append (str_of_Z generated) " créneaux générés."),
   "success"%string).

Definition flash_warning : string * string :=
  ("Aucun créneau généré. Vérifiez les contraintes."%string, "warning"%string).

Definition flash_error (text : string) : string * string :=
  (String.append "Erreur: " text, "danger"%string).

Definition KEY_ERROR_GENERATED : PyError := mkError "KeyError" "'generated'".

Record Rendered := mkRendered {
  rendered_generated : Z;
  rendered_failed : Z;
  rendered_conflicts : list Failure.t;
  timeslots_persistent : bool
}.

(** What a request leaves: the flashed message with its category, the
    dictionary the template is rendered with, if any, and the session. *)
Record Response := mkResponse {
  flashed : string * string;
  generated_timetable : option Rendered;
  session_after : Session
}.

Definition generate_timetable `{RandomSource} (commit_ok : Session -> bool)
    (department_id semester group_id : Z) (db : Database) (s : Session) (g : rng)
    : Response :=
  let generator := init department_id semester group_id in
  match Raising.generate generator db g with
  | raised e =>
      {| flashed := flash_error (error_message e);
         generated_timetable := None;
         session_after := session_rollback s |}
  | returned (result, generator, _) =>
      let '(_, _, s1) := save_timetable commit_ok generator s in
      match result with
      | inl _ =>
          {| flashed := flash_error (error_message KEY_ERROR_GENERATED);
             generated_timetable := None;
             session_after := session_rollback s1 |}
      | inr res =>
          {| flashed :=
               if 0 <? Result.generated res
               then flash_success (Result.generated res)
               else flash_warning;
             generated_timetable :=
               Some {| rendered_generated := Result.generated res;
                       rendered_failed := Result.failed res;
                       rendered_conflicts := Result.conflicts res;
                       timeslots_persistent :=
                         commit_ok
                           (fold_left session_add
                              (TimetableGenerator.generated_slots generator) s) |};
             session_after := s1 |}
      end
  end.

(** ** Overlap *)

Lemma hour_minute (t : time) : hour t * 60 + minute t = t.
Proof.
  unfold hour, minute. pose proof (Z.div_mod t 60). lia.
Qed.

Lemma add_minutes_mod (start_time : time) (minutes : Z) :
  add_minutes start_time minutes = (start_time + minutes) mod 1440.
Proof.
  unfold add_minutes. now rewrite hour_minute.
Qed.

Lemma add_minutes_exact (start_time : time) (minutes : Z) :
  0 <= start_time + minutes < 1440 ->
  add_minutes start_time minutes = start_time + minutes.
Proof.
  intros Hr. rewrite add_minutes_mod. now apply Z.mod_small.
Qed.

Lemma is_overlap_spec (s1 e1 s2 e2 : time) :
  is_overlap s1 e1 s2 e2 = true <-> Z.max s1 s2 < Z.min e1 e2.
Proof.
  unfold is_overlap. apply Z.ltb_lt.
Qed.

Lemma is_overlap_sym (s1 e1 s2 e2 : time) :
  is_overlap s1 e1 s2 e2 = is_overlap s2 e2 s1 e1.
Proof.
  unfold is_overlap. now rewrite Z.max_comm, Z.min_comm.
Qed.

Lemma crosses_spec (s1 e1 s2 e2 : time) :
  crosses s1 e1 s2 e2 = true <-> s2 < e1 /\ s1 < e2.
Proof.
  unfold crosses. rewrite andb_true_iff, !Z.ltb_lt. tauto.
Qed.

Lemma crosses_sym (s1 e1 s2 e2 : time) :
  crosses s1 e1 s2 e2 = crosses s2 e2 s1 e1.
Proof.
  unfold crosses. apply andb_comm.
Qed.

(** C4, as stated, fails on the detector: for the empty window
    [10:00, 10:00) inside [09:00, 11:00) the detector's two conditions
    hold although max(s1,s2) < min(e1,e2) does not. *)
Lemma C4_detector_flags_empty_window :
  ~ (forall s1 e1 s2 e2 : time,
       (is_overlap s1 e1 s2 e2 = true <-> Z.max s1 s2 < Z.min e1 e2)
       /\ (crosses s1 e1 s2 e2 = true <-> Z.max s1 s2 < Z.min e1 e2)).
Proof.
  intros Hall.
  destruct (Hall (mk_time 10 0) (mk_time 10 0) (mk_time 9 0) (mk_time 11 0))
    as [_ [Hcross _]].
  assert (Hc : crosses (mk_time 10 0) (mk_time 10 0) (mk_time 9 0) (mk_time 11 0) = true)
    by reflexivity.
  apply Hcross in Hc. unfold mk_time in Hc. lia.
Qed.

(** C4 (amended): the generator's test is max(s1,s2) < min(e1,e2) for all
    windows; the detector's condition is the same for windows that are not
    empty (s1 < e1 and s2 < e2); windows that touch at an endpoint overlap
    for neither. *)
Theorem C4_overlap_semantics :
  (forall s1 e1 s2 e2 : time,
     is_overlap s1 e1 s2 e2 = true <-> Z.max s1 s2 < Z.min e1 e2)
  /\ (forall s1 e1 s2 e2 : time,
        s1 < e1 -> s2 < e2 ->
        (crosses s1 e1 s2 e2 = true <-> Z.max s1 s2 < Z.min e1 e2))
  /\ (forall s1 e1 s2 e2 : time,
        e1 = s2 \/ e2 = s1 ->
        is_overlap s1 e1 s2 e2 = false /\ crosses s1 e1 s2 e2 = false).
Proof.
  split; [exact is_overlap_spec|]. split.
  - intros s1 e1 s2 e2 H1 H2. rewrite crosses_spec. lia.
  - intros s1 e1 s2 e2 Htouch. split.
    + apply not_true_is_false. rewrite is_overlap_spec. lia.
    + apply not_true_is_false. rewrite crosses_spec. lia.
Qed.

(** The two windows 08:00-10:00 and 09:00-11:00 cross, and 08:00-09:00
    only touches 09:00-10:00. *)
Lemma C4_overlap_semantics_witness :
  (crosses (mk_time 8 0) (mk_time 10 0) (mk_time 9 0) (mk_time 11 0) = true
   <-> Z.max (mk_time 8 0) (mk_time 9 0) < Z.min (mk_time 10 0) (mk_time 11 0))
  /\ is_overlap (mk_time 8 0) (mk_time 9 0) (mk_time 9 0) (mk_time 10 0) = false
  /\ crosses (mk_time 8 0) (mk_time 9 0) (mk_time 9 0) (mk_time 10 0) = false.
Proof.
  destruct C4_overlap_semantics as [_ [Hcross Htouch]].
  split.
  - apply Hcross; reflexivity.
  - apply (Htouch (mk_time 8 0) (mk_time 9 0) (mk_time 9 0) (mk_time 10 0)).
    left; reflexivity.
Defined.

(** ** The checks of the generator *)

Lemma existsb_false_In {A : Type} (f : A -> bool) (l : list A) (x : A) :
  existsb f l = false -> In x l -> f x = false.
Proof.
  intros Hex Hin. destruct (f x) eqn:Hfx; [|reflexivity].
  assert (Ht : existsb f l = true) by (apply existsb_exists; eauto).
  congruence.
Qed.

(** A busy check that answers [False] has looked at every generated slot
    and every stored slot of the resource on that day. *)
Lemma busy_check_false (key : TimeSlot.t -> bool) (day : Z) (s e : time)
    (gens rows : list TimeSlot.t) (y : TimeSlot.t) :
  existsb
    (fun slot =>
       key slot && (TimeSlot.day_of_week slot =? day)
       && is_overlap s e (TimeSlot.start_time slot) (TimeSlot.end_time slot)) gens
  || existsb
       (fun slot => is_overlap s e (TimeSlot.start_time slot) (TimeSlot.end_time slot))
       (List.filter (fun slot => key slot && (TimeSlot.day_of_week slot =? day)) rows)
  = false ->
  In y (gens ++ rows) ->
  key y = true -> TimeSlot.day_of_week y = day ->
  is_overlap s e (TimeSlot.start_time y) (TimeSlot.end_time y) = false.
Proof.
  intros Hbusy Hin Hkey Hday.
  apply orb_false_iff in Hbusy as [Hgen Hrow].
  assert (Hd : (TimeSlot.day_of_week y =? day) = true) by now apply Z.eqb_eq.
  apply in_app_or in Hin as [Hin|Hin].
  - pose proof (existsb_false_In _ _ _ Hgen Hin) as Hy. cbv beta in Hy.
    now rewrite Hkey, Hd in Hy.
  - apply (existsb_false_In _ _ y Hrow).
    apply filter_In. split; [assumption|]. now rewrite Hkey, Hd.
Qed.

Lemma check_room_busy_false (self : TimetableGenerator.t) (db : Database)
    (room_id day : Z) (s e : time) (y : TimeSlot.t) :
  check_room_busy self db room_id day s e = false ->
  In y (TimetableGenerator.generated_slots self ++ db_timeslots db) ->
  TimeSlot.room_id y = room_id -> TimeSlot.day_of_week y = day ->
  is_overlap s e (TimeSlot.start_time y) (TimeSlot.end_time y) = false.
Proof.
  intros Hbusy Hin Hroom Hday.
  apply (busy_check_false (fun slot => TimeSlot.room_id slot =? room_id)
           day s e _ _ y Hbusy Hin); [now apply Z.eqb_eq | assumption].
Qed.

Lemma check_teacher_busy_false (self : TimetableGenerator.t) (db : Database)
    (teacher_id day : Z) (s e : time) (y : TimeSlot.t) :
  check_teacher_busy self db teacher_id day s e = false ->
  In y (TimetableGenerator.generated_slots self ++ db_timeslots db) ->
  TimeSlot.teacher_id y = teacher_id -> TimeSlot.day_of_week y = day ->
  is_overlap s e (TimeSlot.start_time y) (TimeSlot.end_time y) = false.
Proof.
  intros Hbusy Hin Hteacher Hday.
  apply (busy_check_false (fun slot => TimeSlot.teacher_id slot =? teacher_id)
           day s e _ _ y Hbusy Hin); [now apply Z.eqb_eq | assumption].
Qed.

Lemma check_group_busy_false (self : TimetableGenerator.t) (db : Database)
    (group_id day : Z) (s e : time) (y : TimeSlot.t) :
  check_group_busy self db group_id day s e = false ->
  In y (TimetableGenerator.generated_slots self ++ db_timeslots db) ->
  TimeSlot.group_id y = Some group_id -> TimeSlot.day_of_week y = day ->
  is_overlap s e (TimeSlot.start_time y) (TimeSlot.end_time y) = false.
Proof.
  intros Hbusy Hin Hgroup Hday.
  apply (busy_check_false (fun slot => group_id_is (TimeSlot.group_id slot) group_id)
           day s e _ _ y Hbusy Hin); [|assumption].
  rewrite Hgroup. cbn. apply Z.eqb_refl.
Qed.

(** What [check_teacher_preferences] accepts. *)
Lemma check_teacher_preferences_true (db : Database) (teacher_id day : Z)
    (s e : time) :
  check_teacher_preferences db teacher_id day s e = true ->
  (exists a, available_window db teacher_id day s e a)
  \/ declares_nothing db teacher_id.
Proof.
  unfold check_teacher_preferences.
  destruct (List.filter _ (db_teacher_availability db)) as [|a0 rest] eqn:Hday.
  - destruct (List.filter
                (fun a => TeacherAvailability.teacher_id a =? teacher_id)
                (db_teacher_availability db)) as [|b l] eqn:Hany;
      cbn; [|discriminate].
    intros _. right. intros a Hin Hid.
    assert (Hf : In a (List.filter
                         (fun a => TeacherAvailability.teacher_id a =? teacher_id)
                         (db_teacher_availability db))).
    { apply filter_In. split; [assumption|]. now apply Z.eqb_eq. }
    rewrite Hany in Hf. destruct Hf.
  - intros Hex. left. apply existsb_exists in Hex as [a [Hin Hcov]].
    rewrite <- Hday in Hin. apply filter_In in Hin as [Hin Hkey].
    apply andb_true_iff in Hkey as [Hid Hd].
    unfold covers in Hcov.
    apply andb_true_iff in Hcov as [Hcov Hend].
    apply andb_true_iff in Hcov as [Hav Hstart].
    exists a. unfold available_window.
    rewrite Z.eqb_eq in Hid, Hd. rewrite Z.leb_le in Hstart, Hend. tauto.
Qed.

(** The converse: a covering window, or no declaration at all, is
    accepted. *)
Lemma check_teacher_preferences_complete (db : Database) (teacher_id day : Z)
    (s e : time) :
  (exists a, available_window db teacher_id day s e a)
  \/ declares_nothing db teacher_id ->
  check_teacher_preferences db teacher_id day s e = true.
Proof.
  unfold check_teacher_preferences.
  intros [[a (Hin & Hid & Hd & Hav & Hs & He)]|Hnone].
  - assert (Hf : In a (List.filter
                         (fun a => (TeacherAvailability.teacher_id a =? teacher_id)
                                   && (TeacherAvailability.day_of_week a =? day))
                         (db_teacher_availability db))).
    { apply filter_In. split; [assumption|].
      apply andb_true_iff. split; now apply Z.eqb_eq. }
    destruct (List.filter _ (db_teacher_availability db)) as [|a0 rest] eqn:Hday;
      [destruct Hf|].
    apply existsb_exists. exists a. split; [assumption|].
    unfold covers. rewrite Hav. cbn.
    apply andb_true_iff. split; now apply Z.leb_le.
  - assert (Hall : forall (f : TeacherAvailability.t -> bool),
               (forall a, f a = true -> TeacherAvailability.teacher_id a = teacher_id) ->
               List.filter f (db_teacher_availability db) = []).
    { intros f Hf.
      destruct (List.filter f (db_teacher_availability db)) as [|a rest] eqn:Hl;
        [reflexivity|].
      assert (Hin : In a (List.filter f (db_teacher_availability db)))
        by (rewrite Hl; now left).
      apply filter_In in Hin as [Hin Hfa]. exfalso.
      apply (Hnone a Hin). now apply Hf. }
    rewrite (Hall (fun a => (TeacherAvailability.teacher_id a =? teacher_id)
                            && (TeacherAvailability.day_of_week a =? day))).
    + rewrite (Hall (fun a => TeacherAvailability.teacher_id a =? teacher_id)).
      * reflexivity.
      * intros a Ha. now apply Z.eqb_eq.
    + intros a Ha. apply andb_true_iff in Ha as [Ha _]. now apply Z.eqb_eq.
Qed.

(** ** One placement *)

Lemma place_at_Some (self : TimetableGenerator.t) (db : Database)
    (group : Group.t) (course : Course.t) (duration_min : Z)
    (suitable_rooms : list Room.t) (day : Z) (start_time : time)
    (slot : TimeSlot.t) :
  place_at self db group course duration_min suitable_rooms day start_time = Some slot ->
  placed self db group course duration_min suitable_rooms day start_time slot.
Proof.
  unfold place_at, select_room, select_teacher.
  destruct (mk_time 17 0 <? add_minutes start_time duration_min) eqn:Hend;
    [discriminate|].
  destruct (check_group_busy _ _ _ _ _ _) eqn:Hgroup; [discriminate|].
  destruct (find _ suitable_rooms) as [room|] eqn:Hroom; [|discriminate].
  destruct (find _ (Course.teachers course)) as [teacher|] eqn:Hteacher;
    [|discriminate].
  intros [= <-].
  apply find_some in Hroom as [Hrin Hrfree].
  apply find_some in Hteacher as [Htin Htfree].
  apply negb_true_iff in Hrfree.
  apply andb_true_iff in Htfree as [Htfree Hprefs].
  apply negb_true_iff in Htfree.
  apply Z.ltb_ge in Hend.
  now apply placed_intro.
Qed.

(** [place_at] reads the generated slots of the generator and nothing
    else of it. *)
Lemma place_at_ext (self self' : TimetableGenerator.t) (db : Database)
    (group : Group.t) (course : Course.t) (duration_min : Z)
    (suitable_rooms : list Room.t) (day : Z) (start_time : time) :
  TimetableGenerator.generated_slots self = TimetableGenerator.generated_slots self' ->
  place_at self db group course duration_min suitable_rooms day start_time
  = place_at self' db group course duration_min suitable_rooms day start_time.
Proof.
  intros Hgen.
  unfold place_at, select_room, select_teacher,
    check_group_busy, check_room_busy, check_teacher_busy.
  now rewrite Hgen.
Qed.

Lemma scan_starts_Some (self : TimetableGenerator.t) (db : Database)
    (group : Group.t) (course : Course.t) (duration_min : Z)
    (suitable_rooms : list Room.t) (day : Z) (current_starts : list time)
    (slot : TimeSlot.t) :
  scan_starts self db group course duration_min suitable_rooms day current_starts
  = Some slot ->
  exists start_time,
    In start_time current_starts
    /\ place_at self db group course duration_min suitable_rooms day start_time
       = Some slot.
Proof.
  induction current_starts as [|s rest IH]; cbn; [discriminate|].
  destruct (place_at self db group course duration_min suitable_rooms day s)
    as [placed_slot|] eqn:Hplace.
  - intros [= <-]. exists s. split; [now left | assumption].
  - intros Hrest. destruct (IH Hrest) as [s' [Hin Hs']].
    exists s'. split; [now right | assumption].
Qed.

Lemma scan_starts_None (self : TimetableGenerator.t) (db : Database)
    (group : Group.t) (course : Course.t) (duration_min : Z)
    (suitable_rooms : list Room.t) (day : Z) (current_starts : list time) :
  scan_starts self db group course duration_min suitable_rooms day current_starts
  = None ->
  forall start_time,
    In start_time current_starts ->
    place_at self db group course duration_min suitable_rooms day start_time = None.
Proof.
  induction current_starts as [|s rest IH]; cbn; [intros _ ? []|].
  destruct (place_at self db group course duration_min suitable_rooms day s)
    as [placed_slot|] eqn:Hplace; [discriminate|].
  intros Hrest s' [<-|Hin]; [assumption | now apply IH].
Qed.

Section ScanDays.
Context `{RandomSource}.
Variable self : TimetableGenerator.t.
Variable db : Database.
Variable group : Group.t.
Variable course : Course.t.
Variable duration_min : Z.
Variable suitable_rooms : list Room.t.

Lemma shuffle_In {A : Type} (l : list A) (g : rng) (x : A) :
  In x (shuffle l g).1 <-> In x l.
Proof.
  split; apply Permutation_in;
    [symmetry|]; apply shuffle_Permutation.
Qed.

Lemma scan_days_Some (days : list Z) (g g' : rng) (slot : TimeSlot.t) :
  scan_days self db group course duration_min suitable_rooms days g
  = (Some slot, g') ->
  exists day start_time,
    In day days
    /\ In start_time (TimetableGenerator.slot_starts self)
    /\ place_at self db group course duration_min suitable_rooms day start_time
       = Some slot.
Proof.
  revert g. induction days as [|day rest IH]; cbn; intros g; [discriminate|].
  destruct (shuffle (TimetableGenerator.slot_starts self) g)
    as [current_starts g1] eqn:Hsh.
  destruct (scan_starts self db group course duration_min suitable_rooms day
              current_starts) as [found|] eqn:Hscan.
  - intros [= <- <-]. apply scan_starts_Some in Hscan as [s [Hin Hs]].
    exists day, s. split; [now left|]. split; [|assumption].
    apply (shuffle_In _ g). now rewrite Hsh.
  - intros Hrest. destruct (IH _ Hrest) as [d [s [Hd Hs]]].
    exists d, s. split; [now right | assumption].
Qed.

Lemma scan_days_None (days : list Z) (g g' : rng) :
  scan_days self db group course duration_min suitable_rooms days g = (None, g') ->
  forall day start_time,
    In day days -> In start_time (TimetableGenerator.slot_starts self) ->
    place_at self db group course duration_min suitable_rooms day start_time = None.
Proof.
  revert g. induction days as [|day rest IH]; cbn; intros g; [intros _ ? ? []|].
  destruct (shuffle (TimetableGenerator.slot_starts self) g)
    as [current_starts g1] eqn:Hsh.
  destruct (scan_starts self db group course duration_min suitable_rooms day
              current_starts) as [found|] eqn:Hscan; [discriminate|].
  intros Hrest d s [<-|Hd] Hs.
  - apply (scan_starts_None _ _ _ _ _ _ _ _ Hscan).
    apply (shuffle_In _ g) in Hs. now rewrite Hsh in Hs.
  - now apply (IH _ Hrest).
Qed.
End ScanDays.

(** ** One session instance *)

Section Session.
Context `{RandomSource}.
Variable db : Database.
Variable all_rooms : list Room.t.

Lemma schedule_session_outcome (group : Group.t) (course : Course.t)
    (duration_min : Z) (st : Run) :
  session_outcome db all_rooms group course duration_min st
    (schedule_session db all_rooms group course duration_min st).
Proof.
  unfold schedule_session.
  destruct (shuffle (suitable_rooms_of all_rooms course) (run_rng st))
    as [rooms g1] eqn:Hrooms.
  destruct (shuffle (TimetableGenerator.days (run_self st)) g1)
    as [days g2] eqn:Hdays.
  assert (Hperm : Permutation (suitable_rooms_of all_rooms course) rooms).
  { pose proof (shuffle_Permutation _ (suitable_rooms_of all_rooms course)
                  (run_rng st)) as Hp. now rewrite Hrooms in Hp. }
  assert (Hday : forall d, In d days -> In d (TimetableGenerator.days (run_self st))).
  { intros d Hd. apply (shuffle_In _ g1). now rewrite Hdays. }
  assert (Hday' : forall d, In d (TimetableGenerator.days (run_self st)) -> In d days).
  { intros d Hd. apply (shuffle_In _ g1) in Hd. now rewrite Hdays in Hd. }
  destruct (Course.teachers course) as [|t0 ts] eqn:Hteachers.
  - now apply outcome_no_teacher.
  - cbn [with_days TimetableGenerator.days].
    destruct (scan_days (with_days (run_self st) days) db group course
                duration_min rooms days g2) as [[slot|] g3] eqn:Hscan.
    + apply scan_days_Some in Hscan as [day [s [Hd [Hs Hplace]]]].
      apply (outcome_placed _ _ _ _ _ _ _ slot rooms day s);
        [ rewrite Hteachers; discriminate | assumption | now apply Hday
        | assumption | | reflexivity | reflexivity | reflexivity | reflexivity ].
      rewrite <- Hplace. now apply place_at_ext.
    + apply (outcome_exhausted _ _ _ _ _ _ _ rooms);
        [ rewrite Hteachers; discriminate | assumption |
        | reflexivity | reflexivity | reflexivity | reflexivity ].
      intros day s Hd Hs.
      rewrite <- (scan_days_None _ _ _ _ _ _ _ _ _ Hscan day s (Hday' _ Hd) Hs).
      now apply place_at_ext.
Qed.

(** What a session instance leaves alone. *)
Lemma schedule_session_frame (group : Group.t) (course : Course.t)
    (duration_min : Z) (st : Run) :
  let st' := schedule_session db all_rooms group course duration_min st in
  TimetableGenerator.slot_starts (run_self st')
  = TimetableGenerator.slot_starts (run_self st)
  /\ Permutation (TimetableGenerator.days (run_self st))
       (TimetableGenerator.days (run_self st')).
Proof.
  unfold schedule_session.
  destruct (shuffle (suitable_rooms_of all_rooms course) (run_rng st))
    as [rooms g1] eqn:Hrooms.
  destruct (shuffle (TimetableGenerator.days (run_self st)) g1)
    as [days g2] eqn:Hdays.
  assert (Hperm : Permutation (TimetableGenerator.days (run_self st)) days).
  { pose proof (shuffle_Permutation _ (TimetableGenerator.days (run_self st)) g1)
      as Hp. now rewrite Hdays in Hp. }
  destruct (Course.teachers course) as [|t0 ts]; [now split|].
  destruct (scan_days _ _ _ _ _ _ _ _) as [[slot|] g3]; now split.
Qed.

(** Induction over the three nested loops of [generate]: a property of
    the loop variables that holds at the start and is kept by every
    session instance holds at the end. *)
Lemma repeat_sessions_ind (P : Run -> Prop) (group : Group.t) (course : Course.t)
    (duration_min : Z) (n : nat) (st : Run) :
  (forall st, P st -> P (schedule_session db all_rooms group course duration_min st)) ->
  P st -> P (repeat_sessions n db all_rooms group course duration_min st).
Proof.
  intros Hstep. revert st.
  induction n as [|n IH]; cbn; intros st Hst; [assumption|].
  apply IH. now apply Hstep.
Qed.

Lemma schedule_group_ind (P : Run -> Prop) (group : Group.t) (st : Run) :
  (forall course st,
     In course (Group.courses group) -> P st ->
     P (schedule_session db all_rooms group course (duration_of course) st)) ->
  P st -> P (schedule_group db all_rooms st group).
Proof.
  unfold schedule_group. intros Hstep. revert st.
  induction (Group.courses group) as [|course rest IH]; cbn; intros st Hst;
    [assumption|].
  apply IH.
  - intros c st' Hc. apply Hstep. now right.
  - unfold schedule_course. apply repeat_sessions_ind; [|assumption].
    intros st'. apply Hstep. now left.
Qed.

Lemma schedule_groups_ind (P : Run -> Prop) (groups : list Group.t) (st : Run) :
  (forall group course st,
     In group groups -> In course (Group.courses group) -> P st ->
     P (schedule_session db all_rooms group course (duration_of course) st)) ->
  P st -> P (fold_left (schedule_group db all_rooms) groups st).
Proof.
  intros Hstep. revert st.
  induction groups as [|group rest IH]; cbn; intros st Hst; [assumption|].
  apply IH.
  - intros g c st' Hg. apply Hstep. now right.
  - apply schedule_group_ind; [|assumption].
    intros c st'. apply Hstep. now left.
Qed.
End Session.

(** ** No double booking *)

Lemma windows_overlap_sym (a b : TimeSlot.t) :
  windows_overlap a b -> windows_overlap b a.
Proof.
  unfold windows_overlap. now rewrite is_overlap_sym.
Qed.

Lemma double_booked_sym (a b : TimeSlot.t) :
  double_booked a b -> double_booked b a.
Proof.
  unfold double_booked, room_clash, teacher_clash, group_clash.
  intros [(Hr & Hd & Ho)|[(Ht & Hd & Ho)|(Hn & Hg & Hd & Ho)]];
    apply windows_overlap_sym in Ho.
  - left. auto.
  - right; left. auto.
  - right; right. rewrite <- Hg. auto.
Qed.

(** A slot that [place_at] builds is double booked with no slot the
    generator holds and with no stored slot. *)
Lemma placed_clear (self : TimetableGenerator.t) (db : Database)
    (group : Group.t) (course : Course.t) (duration_min : Z)
    (suitable_rooms : list Room.t) (day : Z) (start_time : time)
    (slot y : TimeSlot.t) :
  placed self db group course duration_min suitable_rooms day start_time slot ->
  In y (TimetableGenerator.generated_slots self ++ db_timeslots db) ->
  ~ double_booked slot y.
Proof.
  intros Hplaced Hin.
  destruct Hplaced as [room teacher Hend Hgroup Hrin Hroom Htin Hteacher Hprefs].
  unfold double_booked, room_clash, teacher_clash, group_clash, windows_overlap.
  cbn.
  intros [(Hr & Hd & Ho)|[(Ht & Hd & Ho)|(_ & Hg & Hd & Ho)]].
  - rewrite (check_room_busy_false _ _ _ _ _ _ y Hroom Hin) in Ho; auto.
    discriminate.
  - rewrite (check_teacher_busy_false _ _ _ _ _ _ y Hteacher Hin) in Ho; auto.
    discriminate.
  - rewrite (check_group_busy_false _ _ _ _ _ _ y Hgroup Hin) in Ho; auto.
    discriminate.
Qed.

Section OrderedPairs.
Context {A : Type}.
Variable R : A -> A -> Prop.

Lemma ForallOrdPairs_snoc (l : list A) (x : A) :
  ForallOrdPairs R l -> Forall (fun y => R y x) l ->
  ForallOrdPairs R (l ++ [x]).
Proof.
  induction 1 as [|a l Ha Hl IH]; cbn; intros Hx.
  - constructor; constructor.
  - inversion Hx as [|? ? Hax Hlx]; subst.
    constructor; [|now apply IH].
    apply Forall_app. split; [assumption|]. now constructor.
Qed.

Lemma ForallOrdPairs_nth (l : list A) (i j : nat) (a b : A) :
  ForallOrdPairs R l -> (i < j)%nat ->
  nth_error l i = Some a -> nth_error l j = Some b -> R a b.
Proof.
  intros Hl. revert i j.
  induction Hl as [|x l Hx Hl IH]; intros i j Hij Hi Hj.
  - destruct i; discriminate.
  - destruct j as [|j]; [lia|]. cbn in Hj.
    destruct i as [|i]; cbn in Hi.
    + injection Hi as Hxa. subst a.
      apply nth_error_In in Hj.
      rewrite List.Forall_forall in Hx. now apply Hx.
    + apply (IH i j); [lia | assumption | assumption].
Qed.
End OrderedPairs.

Lemma clear_run_snoc (self : TimetableGenerator.t) (db : Database)
    (group : Group.t) (course : Course.t) (duration_min : Z)
    (suitable_rooms : list Room.t) (day : Z) (start_time : time)
    (slot : TimeSlot.t) :
  clear_run db (TimetableGenerator.generated_slots self) ->
  place_at self db group course duration_min suitable_rooms day start_time = Some slot ->
  clear_run db (TimetableGenerator.generated_slots self ++ [slot]).
Proof.
  intros [Hpairs Hrows] Hplace. apply place_at_Some in Hplace.
  split.
  - apply ForallOrdPairs_snoc; [assumption|].
    apply List.Forall_forall. intros y Hy Hbooked.
    apply double_booked_sym in Hbooked.
    apply (placed_clear _ _ _ _ _ _ _ _ _ y Hplace); [|assumption].
    apply in_or_app. now left.
  - apply Forall_app. split; [assumption|].
    constructor; [|constructor].
    apply List.Forall_forall. intros y Hy.
    apply (placed_clear _ _ _ _ _ _ _ _ _ y Hplace).
    apply in_or_app. now right.
Qed.

Lemma clear_run_no_double_booking (db : Database) (gens : list TimeSlot.t) :
  clear_run db gens ->
  no_double_booking_below (length gens) (gens ++ db_timeslots db).
Proof.
  intros [Hpairs Hrows].
  assert (Hmixed : forall i j a b,
             (i < length gens)%nat -> (length gens <= j)%nat ->
             nth_error (gens ++ db_timeslots db) i = Some a ->
             nth_error (gens ++ db_timeslots db) j = Some b ->
             ~ double_booked a b).
  { intros i j a b Hi Hj Ha Hb.
    rewrite nth_error_app1 in Ha by assumption.
    rewrite nth_error_app2 in Hb by assumption.
    apply nth_error_In in Ha, Hb.
    rewrite List.Forall_forall in Hrows. specialize (Hrows a Ha).
    rewrite List.Forall_forall in Hrows. now apply Hrows. }
  assert (Hinner : forall i j a b,
             (i < j)%nat -> (j < length gens)%nat ->
             nth_error (gens ++ db_timeslots db) i = Some a ->
             nth_error (gens ++ db_timeslots db) j = Some b ->
             ~ double_booked a b).
  { intros i j a b Hij Hj Ha Hb.
    rewrite nth_error_app1 in Ha by lia.
    rewrite nth_error_app1 in Hb by assumption.
    apply (ForallOrdPairs_nth _ gens i j a b Hpairs Hij Ha Hb). }
  intros i j a b Hne Hbelow Ha Hb Hbooked.
  destruct (Nat.lt_ge_cases i (length gens)) as [Hi|Hi];
    destruct (Nat.lt_ge_cases j (length gens)) as [Hj|Hj].
  - destruct (Nat.lt_trichotomy i j) as [Hlt|[Heq|Hgt]]; [|contradiction|].
    + exact (Hinner i j a b Hlt Hj Ha Hb Hbooked).
    + exact (Hinner j i b a Hgt Hi Hb Ha (double_booked_sym _ _ Hbooked)).
  - exact (Hmixed i j a b Hi Hj Ha Hb Hbooked).
  - exact (Hmixed j i b a Hj Hi Hb Ha (double_booked_sym _ _ Hbooked)).
  - lia.
Qed.

(** ** The run as a whole *)

Section Generate.
Context `{RandomSource}.

Lemma generate_no_group (self : TimetableGenerator.t) (db : Database) (g : rng) :
  target_groups self db = [] ->
  generate self db g = (inl NO_GROUP_FOUND, self, g).
Proof.
  unfold generate. now intros ->.
Qed.

Lemma generate_run (self : TimetableGenerator.t) (db : Database) (g : rng) :
  target_groups self db <> [] ->
  generate self db g
  = (inr {| Result.generated := generated_count (final_run self db g);
            Result.failed := failed_count (final_run self db g);
            Result.timeslots :=
              TimetableGenerator.generated_slots (run_self (final_run self db g));
            Result.conflicts :=
              TimetableGenerator.conflicts (run_self (final_run self db g)) |},
     run_self (final_run self db g), run_rng (final_run self db g)).
Proof.
  unfold generate, final_run.
  destruct (target_groups self db) as [|group groups]; [congruence | reflexivity].
Qed.

(** A property of the generated slots that holds of the empty list and
    that every session instance keeps holds of the slots a run returns. *)
Lemma generated_of_ind (P : list TimeSlot.t -> Prop) (self : TimetableGenerator.t)
    (db : Database) (g : rng) :
  P [] -> P (TimetableGenerator.generated_slots self) ->
  (forall group course st,
     In group (target_groups self db) -> In course (Group.courses group) ->
     P (TimetableGenerator.generated_slots (run_self st)) ->
     P (TimetableGenerator.generated_slots
          (run_self (schedule_session db (db_rooms db) group course
                       (duration_of course) st)))) ->
  P (generated_of (generate self db g).1.1).
Proof.
  intros Hnil Hself Hstep.
  destruct (target_groups self db) as [|group groups] eqn:Hgroups.
  - now rewrite generate_no_group.
  - rewrite generate_run by congruence.
    cbn [generated_of fst Result.timeslots]. unfold final_run. rewrite Hgroups.
    apply (schedule_groups_ind db (db_rooms db)
             (fun st => P (TimetableGenerator.generated_slots (run_self st))));
      [|assumption].
    intros grp course st Hgrp Hcourse. now apply Hstep.
Qed.

Lemma schedule_session_clear (db : Database) (group : Group.t) (course : Course.t)
    (st : Run) :
  clear_run db (TimetableGenerator.generated_slots (run_self st)) ->
  clear_run db
    (TimetableGenerator.generated_slots
       (run_self (schedule_session db (db_rooms db) group course
                    (duration_of course) st))).
Proof.
  intros Hclear.
  destruct (schedule_session_outcome db (db_rooms db) group course
              (duration_of course) st)
    as [_ -> _ _ _ | slot rooms day s _ _ _ _ Hplace -> _ _ _ | rooms _ _ _ -> _ _ _];
    try assumption.
  now apply (clear_run_snoc _ _ _ _ _ _ _ _ _ Hclear Hplace).
Qed.
End Generate.

(** The slots of a fresh generator's run keep the invariant. *)
Lemma generate_clear_run `{RandomSource}
    (department_id semester group_id : Z) (db : Database) (g : rng) :
  clear_run db
    (generated_of (generate (init department_id semester group_id) db g).1.1).
Proof.
  apply (generated_of_ind (clear_run db)).
  - split; constructor.
  - split; constructor.
  - intros group course st _ _. apply schedule_session_clear.
Qed.

(** The stored rows are taken as they are: two stored rows that share a
    room at the same time remain a double booked pair of the union after
    a run. *)
Lemma stored_clash_survives :
  ~ no_double_booking
      (generated_of
         (generate (init 7 1 0) (catalog clashing_rows []) (tt : @rng identity_source)).1.1
       ++ db_timeslots (catalog clashing_rows [])).
Proof.
  intros Hall.
  apply (Hall 3%nat 4%nat
           (stored 1 1 10 200 2 0 (mk_time 8 0) (mk_time 10 0))
           (stored 2 2 10 400 2 0 (mk_time 9 0) (mk_time 11 0)));
    [lia | vm_compute; lia | reflexivity | reflexivity |].
  left. repeat split.
Qed.

(** What the three busy checks establish: after a run, two assignments
    at different positions of the union of the newly generated and the
    stored assignments, at least one of them newly generated, never share
    a room, a teacher or a non-null group on the same day with windows
    that [is_overlap] relates.  The windows are compared by their stored
    end times; for a slot whose end time wrapped past midnight this says
    nothing about the hours the session occupies. *)
Lemma no_clash_on_stored_times `{RandomSource}
    (department_id semester group_id : Z) (db : Database) (g : rng) :
  let new := generated_of (generate (init department_id semester group_id) db g).1.1 in
  no_double_booking_below (length new) (new ++ db_timeslots db).
Proof.
  cbv zeta. apply clear_run_no_double_booking, generate_clear_run.
Qed.

(** ** Where a generated slot comes from *)

(** Every slot a run returns was built by [place_at] for a course of a
    targeted group, a permutation of the rooms suitable for the course, a
    day and a start time of the grid. *)
Lemma generated_Forall_placed `{RandomSource} (Q : TimeSlot.t -> Prop)
    (department_id semester group_id : Z) (db : Database) (g : rng) :
  (forall self group course rooms day start_time slot,
     In group (target_groups (init department_id semester group_id) db) ->
     In course (Group.courses group) ->
     Permutation (suitable_rooms_of (db_rooms db) course) rooms ->
     placed self db group course (duration_of course) rooms day start_time slot ->
     Q slot) ->
  Forall Q (generated_of (generate (init department_id semester group_id) db g).1.1).
Proof.
  intros HQ. apply (generated_of_ind (Forall Q)); [constructor | constructor |].
  intros group course st Hgroup Hcourse Hforall.
  destruct (schedule_session_outcome db (db_rooms db) group course
              (duration_of course) st)
    as [_ -> _ _ _ | slot rooms day s _ Hperm _ _ Hplace -> _ _ _ | rooms _ _ _ -> _ _ _];
    try assumption.
  apply Forall_app. split; [assumption|].
  constructor; [|constructor].
  apply place_at_Some in Hplace.
  exact (HQ _ _ _ _ _ _ _ Hgroup Hcourse Hperm Hplace).
Qed.

Lemma lab_flag_matches_spec (r : Room.t) (course : Course.t) :
  lab_flag_matches r course = true ->
  (Course.requires_lab course = Some true /\ Room.room_type r = "Lab"%string)
  \/ (Course.requires_lab course = Some false
      /\ Room.room_type r <> "Lab"%string).
Proof.
  unfold lab_flag_matches.
  destruct (Course.requires_lab course) as [[|]|]; [| |discriminate].
  - intros Heq. apply Bool.eqb_prop in Heq. left. split; [reflexivity|].
    now apply String.eqb_eq.
  - intros Heq. apply Bool.eqb_prop in Heq. right. split; [reflexivity|].
    now apply String.eqb_neq.
Qed.

(** What the choice of the teacher establishes: the teacher of every
    generated assignment is one of the teachers of its course; a window
    the teacher declared available for that day begins at or before the
    start time of the assignment and ends at or after its stored end
    time, unless the teacher declared no window at all; so a teacher who
    declared windows is only assigned on days for which a window is
    declared.  For a slot whose end time wrapped past midnight the two
    comparisons do not place the session inside the window. *)
Lemma teacher_qualified_and_window_test `{RandomSource}
    (department_id semester group_id : Z) (db : Database) (g : rng) :
  Forall
    (fun slot =>
       exists group course teacher,
         In group (target_groups (init department_id semester group_id) db)
         /\ In course (Group.courses group)
         /\ TimeSlot.group_id slot = Some (Group.id group)
         /\ TimeSlot.course_id slot = Course.id course
         /\ In teacher (Course.teachers course)
         /\ TimeSlot.teacher_id slot = Teacher.id teacher
         /\ ((exists a,
                available_window db (Teacher.id teacher) (TimeSlot.day_of_week slot)
                  (TimeSlot.start_time slot) (TimeSlot.end_time slot) a)
             \/ declares_nothing db (Teacher.id teacher))
         /\ (declares_nothing db (Teacher.id teacher)
             \/ declares_on db (Teacher.id teacher) (TimeSlot.day_of_week slot)))
    (generated_of (generate (init department_id semester group_id) db g).1.1).
Proof.
  apply generated_Forall_placed.
  intros self group course rooms day s slot Hgroup Hcourse _ Hplaced.
  destruct Hplaced as [room teacher _ _ _ _ Htin _ Hprefs].
  exists group, course, teacher. cbn.
  apply check_teacher_preferences_true in Hprefs.
  repeat (split; [solve [assumption | reflexivity]|]).
  destruct Hprefs as [[a Ha]|Hnone]; [right | now left].
  destruct Ha as (Hin & Hid & Hd & _). now exists a.
Qed.

(** C3: the room of every generated assignment is a Lab room when the
    course requires a lab and a room of another type when it does not; a
    room is in the pool of a course exactly when its lab flag equals the
    flag of the course, whatever its capacity. *)
Theorem C3_lab_partition `{RandomSource}
    (department_id semester group_id : Z) (db : Database) (g : rng) :
  Forall
    (fun slot =>
       exists group course room,
         In group (target_groups (init department_id semester group_id) db)
         /\ In course (Group.courses group)
         /\ TimeSlot.group_id slot = Some (Group.id group)
         /\ TimeSlot.course_id slot = Course.id course
         /\ In room (db_rooms db)
         /\ TimeSlot.room_id slot = Room.id room
         /\ ((Course.requires_lab course = Some true
              /\ Room.room_type room = "Lab"%string)
             \/ (Course.requires_lab course = Some false
                 /\ Room.room_type room <> "Lab"%string)))
    (generated_of (generate (init department_id semester group_id) db g).1.1)
  /\ (forall (all_rooms : list Room.t) (course : Course.t) (r : Room.t),
        In r (suitable_rooms_of all_rooms course)
        <-> In r all_rooms
            /\ Course.requires_lab course
               = Some (String.eqb (Room.room_type r) "Lab"%string))
  /\ (forall (course : Course.t) (id : Z) (name room_type : string)
             (capacity capacity' : Z),
        lab_flag_matches
          {| Room.id := id; Room.name := name; Room.capacity := capacity;
             Room.room_type := room_type |} course
        = lab_flag_matches
            {| Room.id := id; Room.name := name; Room.capacity := capacity';
               Room.room_type := room_type |} course).
Proof.
  split; [|split].
  - apply generated_Forall_placed.
    intros self group course rooms day s slot Hgroup Hcourse Hperm Hplaced.
    destruct Hplaced as [room teacher _ _ Hrin _ _ _ _].
    apply (Permutation_in _ (Permutation_sym Hperm)) in Hrin.
    apply filter_In in Hrin as [Hrin Hflag].
    exists group, course, room. cbn.
    repeat (split; [solve [assumption | reflexivity]|]).
    now apply lab_flag_matches_spec.
  - intros all_rooms course r. unfold suitable_rooms_of, lab_flag_matches.
    rewrite filter_In.
    destruct (Course.requires_lab course) as [b|].
    + destruct b, (String.eqb (Room.room_type r) "Lab"%string); cbn;
        intuition congruence.
    + intuition congruence.
  - reflexivity.
Qed.

(** ** Failures are counted, not raised *)

Lemma count_reason_app (r : string) (l1 l2 : list Failure.t) :
  count_reason r (l1 ++ l2) = (count_reason r l1 + count_reason r l2)%nat.
Proof.
  unfold count_reason. now rewrite List.filter_app, List.length_app.
Qed.

Section Progress.
Context `{RandomSource}.
Variable db : Database.
Variable all_rooms : list Room.t.

Lemma progress_refl (st : Run) : progress st st 0 0.
Proof.
  split; try lia. auto.
Qed.

Lemma progress_trans (st1 st2 st3 : Run) (n m u v : nat) :
  progress st1 st2 n u -> progress st2 st3 m v ->
  progress st1 st3 (n + m) (u + v).
Proof.
  intros [Ht1 Hu1 Hg1 Hf1 Hr1] [Ht2 Hu2 Hg2 Hf2 Hr2].
  split; try lia. auto.
Qed.

Lemma schedule_session_progress (group : Group.t) (course : Course.t)
    (duration_min : Z) (st : Run) :
  progress st (schedule_session db all_rooms group course duration_min st)
    1 (if has_no_teacher course then 1 else 0).
Proof.
  destruct (schedule_session_outcome db all_rooms group course duration_min st)
    as [Hnone Hg Hc Hgc Hfc
       | slot rooms day s Hsome _ _ _ _ Hg Hc Hgc Hfc
       | rooms Hsome _ _ Hg Hc Hgc Hfc];
    unfold has_no_teacher.
  - rewrite Hnone.
    split; rewrite ?Hg, ?Hc, ?Hgc, ?Hfc, ?count_reason_app, ?List.length_app;
      cbn [length]; try lia.
    + reflexivity.
    + intros Hall. apply Forall_app. split; [assumption|].
      constructor; [now left | constructor].
  - destruct (Course.teachers course); [congruence|].
    split; rewrite ?Hg, ?Hc, ?Hgc, ?Hfc, ?List.length_app; cbn [length]; try lia.
    auto.
  - destruct (Course.teachers course); [congruence|].
    split; rewrite ?Hg, ?Hc, ?Hgc, ?Hfc, ?count_reason_app, ?List.length_app;
      cbn [length]; try lia.
    + reflexivity.
    + intros Hall. apply Forall_app. split; [assumption|].
      constructor; [now right | constructor].
Qed.

Lemma repeat_sessions_progress (group : Group.t) (course : Course.t)
    (duration_min : Z) (n : nat) (st : Run) :
  progress st (repeat_sessions n db all_rooms group course duration_min st)
    n (if has_no_teacher course then n else 0).
Proof.
  revert st. induction n as [|n IH]; intros st; cbn [repeat_sessions].
  - destruct (has_no_teacher course); apply progress_refl.
  - pose proof (progress_trans _ _ _ _ _ _ _
                  (schedule_session_progress group course duration_min st)
                  (IH (schedule_session db all_rooms group course duration_min st)))
      as Hp.
    destruct (has_no_teacher course); exact Hp.
Qed.

Lemma schedule_courses_progress (group : Group.t) (courses : list Course.t)
    (st : Run) :
  progress st (fold_left (schedule_course db all_rooms group) courses st)
    (list_sum (map sessions_of_course courses))
    (list_sum (map sessions_of_course (List.filter has_no_teacher courses))).
Proof.
  revert st. induction courses as [|course rest IH]; intros st; cbn [fold_left].
  - apply progress_refl.
  - pose proof (progress_trans _ _ _ _ _ _ _
                  (repeat_sessions_progress group course (duration_of course)
                     (sessions_of_course course) st)
                  (IH (schedule_course db all_rooms group st course))) as Hp.
    cbn [map List.filter list_sum].
    destruct (has_no_teacher course); exact Hp.
Qed.

Lemma schedule_groups_progress (groups : list Group.t) (st : Run) :
  progress st (fold_left (schedule_group db all_rooms) groups st)
    (session_instances groups) (unstaffed_instances groups).
Proof.
  revert st. induction groups as [|group rest IH]; intros st; cbn [fold_left].
  - apply progress_refl.
  - exact (progress_trans _ _ _ _ _ _ _
             (schedule_courses_progress group (Group.courses group) st)
             (IH (schedule_group db all_rooms st group))).
Qed.
End Progress.

(** What a run that is not left by an exception returns: each session
    instance ends in exactly one of three ways (a failure for a course
    without teacher with no slot added, one slot added, or a failure
    after every day and start time was refused); every session instance
    of every targeted group is handled; the failures for courses without
    teacher are exactly their session instances; and the two counters
    are the lengths of the two lists. *)
Lemma failures_are_recorded `{RandomSource}
    (department_id semester group_id : Z) (db : Database) (g : rng) :
  (forall group course duration_min st,
     session_outcome db (db_rooms db) group course duration_min st
       (schedule_session db (db_rooms db) group course duration_min st))
  /\ match (generate (init department_id semester group_id) db g).1.1 with
     | inl msg =>
         msg = NO_GROUP_FOUND
         /\ target_groups (init department_id semester group_id) db = []
     | inr res =>
         Result.failed res = Z.of_nat (length (Result.conflicts res))
         /\ Result.generated res = Z.of_nat (length (Result.timeslots res))
         /\ (length (Result.timeslots res) + length (Result.conflicts res)
             = session_instances
                 (target_groups (init department_id semester group_id) db))%nat
         /\ count_reason NO_TEACHER_ASSIGNED (Result.conflicts res)
            = unstaffed_instances
                (target_groups (init department_id semester group_id) db)
         /\ Forall known_reason (Result.conflicts res)
     end.
Proof.
  split; [intros; apply schedule_session_outcome|].
  destruct (target_groups (init department_id semester group_id) db)
    as [|group groups] eqn:Hgroups.
  - rewrite generate_no_group by assumption. now split.
  - rewrite generate_run by congruence.
    cbn [fst Result.failed Result.generated Result.timeslots Result.conflicts].
    unfold final_run. rewrite Hgroups.
    destruct (schedule_groups_progress db (db_rooms db) (group :: groups)
                {| run_self := init department_id semester group_id;
                   run_rng := g; generated_count := 0; failed_count := 0 |})
      as [Ht Hu Hg Hf Hr].
    cbn [run_self generated_count failed_count init
         TimetableGenerator.generated_slots TimetableGenerator.conflicts
         length count_reason List.filter] in Ht, Hu, Hg, Hf, Hr.
    repeat split; try lia.
    apply Hr. constructor.
Qed.

(** ** The scope attributes and the search *)

Section Scope.
Context `{RandomSource}.
Variable db : Database.
Variable all_rooms : list Room.t.
Variable department_id : Z.
Variable semester : Z.
Variable group_id : Z.

Lemma scan_starts_ext (self self' : TimetableGenerator.t) (group : Group.t)
    (course : Course.t) (duration_min : Z) (rooms : list Room.t) (day : Z)
    (starts : list time) :
  TimetableGenerator.generated_slots self = TimetableGenerator.generated_slots self' ->
  scan_starts self db group course duration_min rooms day starts
  = scan_starts self' db group course duration_min rooms day starts.
Proof.
  intros Hgen. induction starts as [|s rest IH]; cbn; [reflexivity|].
  now rewrite (place_at_ext self self'), IH.
Qed.

Lemma scan_days_ext (self self' : TimetableGenerator.t) (group : Group.t)
    (course : Course.t) (duration_min : Z) (rooms : list Room.t)
    (days : list Z) (g : rng) :
  TimetableGenerator.generated_slots self = TimetableGenerator.generated_slots self' ->
  TimetableGenerator.slot_starts self = TimetableGenerator.slot_starts self' ->
  scan_days self db group course duration_min rooms days g
  = scan_days self' db group course duration_min rooms days g.
Proof.
  intros Hgen Hstarts. revert g.
  induction days as [|day rest IH]; intros g; cbn; [reflexivity|].
  rewrite Hstarts.
  destruct (shuffle (TimetableGenerator.slot_starts self') g) as [starts g1].
  rewrite (scan_starts_ext self self') by assumption.
  now rewrite IH.
Qed.

(** A session instance runs the same way under any scope: it reads
    neither the department, nor the semester, nor the group filter. *)
Lemma schedule_session_rescope (group : Group.t) (course : Course.t)
    (duration_min : Z) (st : Run) :
  schedule_session db all_rooms group course duration_min
    (rescope st department_id semester group_id)
  = rescope (schedule_session db all_rooms group course duration_min st)
      department_id semester group_id.
Proof.
  unfold schedule_session.
  cbn [rescope run_self run_rng generated_count failed_count with_scope
       TimetableGenerator.days].
  destruct (shuffle (suitable_rooms_of all_rooms course) (run_rng st))
    as [rooms g1].
  destruct (shuffle (TimetableGenerator.days (run_self st)) g1) as [days g2].
  destruct (Course.teachers course) as [|t0 ts]; [reflexivity|].
  cbn [with_days TimetableGenerator.days].
  rewrite (scan_days_ext _ (with_days (run_self st) days)) by reflexivity.
  destruct (scan_days (with_days (run_self st) days) db group course
              duration_min rooms days g2) as [[slot|] g3]; reflexivity.
Qed.

Lemma repeat_sessions_rescope (group : Group.t) (course : Course.t)
    (duration_min : Z) (n : nat) (st : Run) :
  repeat_sessions n db all_rooms group course duration_min
    (rescope st department_id semester group_id)
  = rescope (repeat_sessions n db all_rooms group course duration_min st)
      department_id semester group_id.
Proof.
  revert st. induction n as [|n IH]; intros st; cbn [repeat_sessions];
    [reflexivity|].
  now rewrite schedule_session_rescope, IH.
Qed.

Lemma schedule_group_rescope (group : Group.t) (st : Run) :
  schedule_group db all_rooms (rescope st department_id semester group_id) group
  = rescope (schedule_group db all_rooms st group)
      department_id semester group_id.
Proof.
  unfold schedule_group. revert st.
  induction (Group.courses group) as [|course rest IH]; intros st;
    cbn [fold_left]; [reflexivity|].
  unfold schedule_course at 2. now rewrite repeat_sessions_rescope, IH.
Qed.

Lemma schedule_groups_rescope (groups : list Group.t) (st : Run) :
  fold_left (schedule_group db all_rooms) groups
    (rescope st department_id semester group_id)
  = rescope (fold_left (schedule_group db all_rooms) groups st)
      department_id semester group_id.
Proof.
  revert st. induction groups as [|group rest IH]; intros st; cbn [fold_left];
    [reflexivity|].
  now rewrite schedule_group_rescope, IH.
Qed.
End Scope.

(** Two generators with the same target groups return the same
    dictionary and leave the random source in the same state. *)
Lemma generate_same_targets `{RandomSource} (self : TimetableGenerator.t)
    (department_id semester group_id : Z) (db : Database) (g : rng) :
  target_groups (with_scope self department_id semester group_id) db
  = target_groups self db ->
  (generate (with_scope self department_id semester group_id) db g).1.1
  = (generate self db g).1.1
  /\ (generate (with_scope self department_id semester group_id) db g).2
     = (generate self db g).2.
Proof.
  intros Htargets.
  destruct (target_groups self db) as [|group groups] eqn:Hgroups.
  - rewrite !generate_no_group by congruence. now split.
  - rewrite !generate_run by congruence. unfold final_run. rewrite Htargets, Hgroups.
    change {| run_self := with_scope self department_id semester group_id;
              run_rng := g; generated_count := 0; failed_count := 0 |}
      with (rescope {| run_self := self; run_rng := g;
                       generated_count := 0; failed_count := 0 |}
              department_id semester group_id).
    rewrite schedule_groups_rescope. now split.
Qed.

(** C10: two fresh generators that differ in the semester only return
    the same result from the same catalog and random source; with a
    non-zero group the target is the group of that id, whatever its
    department, and two generators that differ in the department only
    return the same result as well. *)
Theorem C10_semester_and_department_ignored `{RandomSource}
    (db : Database) (g : rng) :
  (forall department_id semester semester' group_id : Z,
     (generate (init department_id semester group_id) db g).1.1
     = (generate (init department_id semester' group_id) db g).1.1)
  /\ (forall department_id department_id' semester group_id : Z,
        group_id <> 0 ->
        target_groups (init department_id semester group_id) db
        = List.filter (fun grp => Group.id grp =? group_id) (db_groups db)
        /\ (generate (init department_id semester group_id) db g).1.1
           = (generate (init department_id' semester group_id) db g).1.1).
Proof.
  split.
  - intros department_id semester semester' group_id.
    apply (generate_same_targets (init department_id semester' group_id)
             department_id semester group_id db g).
    reflexivity.
  - intros department_id department_id' semester group_id Hgroup.
    assert (Hfilter : forall d,
               target_groups (init d semester group_id) db
               = List.filter (fun grp => Group.id grp =? group_id) (db_groups db)).
    { intros d. unfold target_groups. cbn [init TimetableGenerator.group_id].
      apply Z.eqb_neq in Hgroup. now rewrite Hgroup. }
    split; [apply Hfilter|].
    apply (generate_same_targets (init department_id' semester group_id)
             department_id semester group_id db g).
    change (with_scope (init department_id' semester group_id)
              department_id semester group_id)
      with (init department_id semester group_id).
    now rewrite !Hfilter.
Qed.

(** Group 100 belongs to department 7; asked with its id, a run for
    department 8 targets it and returns what the run for department 7
    returns. *)
Lemma C10_semester_and_department_ignored_witness :
  100 <> 0
  /\ target_groups (init 7 1 100) (catalog [] []) = [info1]
  /\ (generate (init 7 1 100) (catalog [] []) (tt : @rng reversing_source)).1.1
     = (generate (init 8 1 100) (catalog [] []) (tt : @rng reversing_source)).1.1.
Proof.
  assert (Hgroup : 100 <> 0) by lia.
  split; [exact Hgroup|].
  destruct (C10_semester_and_department_ignored (catalog [] [])
              (tt : @rng reversing_source)) as [_ Hdept].
  destruct (Hdept 7 8 1 100 Hgroup) as [Htarget Hsame].
  split; [exact Htarget | exact Hsame].
Defined.

(** ** The end of the day *)

(** What the test against 17:00 does guarantee: the stored end time of
    every generated slot is the wrapped sum of its start time and the
    duration of its course, and is not after 17:00. *)
Lemma generated_end_time `{RandomSource}
    (department_id semester group_id : Z) (db : Database) (g : rng) :
  Forall
    (fun slot =>
       TimeSlot.end_time slot <= mk_time 17 0
       /\ exists course,
            TimeSlot.course_id slot = Course.id course
            /\ TimeSlot.end_time slot
               = (TimeSlot.start_time slot + duration_of course) mod 1440)
    (generated_of (generate (init department_id semester group_id) db g).1.1).
Proof.
  apply generated_Forall_placed.
  intros self group course rooms day s slot _ _ _ Hplaced.
  destruct Hplaced as [room teacher Hend _ _ _ _ _ _]. cbn.
  split; [assumption|].
  exists course. split; [reflexivity | apply add_minutes_mod].
Qed.

(** While the sum stays within the day, a start time whose end would be
    after 17:00 is refused. *)
Lemma place_at_after_17 (self : TimetableGenerator.t) (db : Database)
    (group : Group.t) (course : Course.t) (duration_min : Z)
    (rooms : list Room.t) (day : Z) (start_time : time) :
  mk_time 17 0 < start_time + duration_min < 1440 ->
  place_at self db group course duration_min rooms day start_time = None.
Proof.
  intros Hlate. unfold place_at.
  rewrite add_minutes_exact by (unfold mk_time in Hlate; lia).
  destruct (Z.ltb_spec (mk_time 17 0) (start_time + duration_min)); [reflexivity|lia].
Qed.

(** C5 at a course of ten hours: every start time of the grid gives an
    end after 17:00, yet the run places the session at 14:00 with the
    end time 00:00 and records no failure. *)
Theorem C5_ten_hour_course_is_placed :
  Forall (fun start_time => mk_time 17 0 < start_time + duration_of marathon)
    (TimetableGenerator.slot_starts (init 9 1 0))
  /\ (generate (init 9 1 0) (catalog [] []) (tt : @rng identity_source)).1.1
     = inr {| Result.generated := 1;
              Result.failed := 0;
              Result.timeslots :=
                [{| TimeSlot.id := None;
                    TimeSlot.teacher_id := 1;
                    TimeSlot.course_id := 13;
                    TimeSlot.group_id := Some 300;
                    TimeSlot.room_id := 2;
                    TimeSlot.day_of_week := 0;
                    TimeSlot.start_time := mk_time 14 0;
                    TimeSlot.end_time := mk_time 0 0;
                    TimeSlot.is_locked := None |}];
              Result.conflicts := [] |}.
Proof.
  split.
  - repeat constructor.
  - vm_compute. reflexivity.
Qed.

(** ** Saving *)

Lemma fold_session_add (slots : list TimeSlot.t) (s : Session) :
  fold_left session_add slots s
  = {| committed := committed s; pending := pending s ++ slots |}.
Proof.
  revert s. induction slots as [|slot rest IH]; intros s; cbn [fold_left].
  - rewrite app_nil_r. now destruct s.
  - rewrite IH. cbn. now rewrite <- app_assoc.
Qed.

(** C8: saving leaves the generator as it was; when the commit goes
    through, the count of generated slots is returned and the committed
    rows are the former ones followed by everything that was added, the
    generated slots last; when the commit is refused, 0 is returned,
    nothing is raised, and the committed rows are the former ones. *)
Theorem C8_save_is_all_or_nothing (commit_ok : Session -> bool)
    (self : TimetableGenerator.t) (s : Session) :
  (save_timetable commit_ok self s).1.2 = self
  /\ (commit_ok (fold_left session_add (TimetableGenerator.generated_slots self) s)
      = true ->
      (save_timetable commit_ok self s).1.1
      = Z.of_nat (length (TimetableGenerator.generated_slots self))
      /\ committed (save_timetable commit_ok self s).2
         = committed s ++ pending s ++ TimetableGenerator.generated_slots self
      /\ pending (save_timetable commit_ok self s).2 = [])
  /\ (commit_ok (fold_left session_add (TimetableGenerator.generated_slots self) s)
      = false ->
      (save_timetable commit_ok self s).1.1 = 0
      /\ committed (save_timetable commit_ok self s).2 = committed s
      /\ pending (save_timetable commit_ok self s).2 = []).
Proof.
  unfold save_timetable, session_commit.
  destruct (commit_ok (fold_left session_add
                         (TimetableGenerator.generated_slots self) s)) eqn:Hok;
    cbn; rewrite fold_session_add; cbn.
  - split; [reflexivity|]. split; [|discriminate]. intros _. now split.
  - split; [reflexivity|]. split; [discriminate|]. intros _. now split.
Qed.

(** The three slots of a run are saved next to the two stored rows when
    the uniqueness constraints hold; a storage that refuses every commit
    gets 0 and keeps its rows, and the generator keeps its slots. *)
Lemma C8_save_is_all_or_nothing_witness :
  let self :=
    (generate (init 7 1 0) (catalog clashing_rows []) (tt : @rng identity_source)).1.2 in
  let s := {| committed := clashing_rows; pending := [] |} in
  ((save_timetable unique_constraints_ok self s).1.1 = 3
   /\ length (committed (save_timetable unique_constraints_ok self s).2) = 5%nat)
  /\ ((save_timetable (fun _ => false) self s).1.1 = 0
      /\ committed (save_timetable (fun _ => false) self s).2 = clashing_rows
      /\ TimetableGenerator.generated_slots
           (save_timetable (fun _ => false) self s).1.2
         = TimetableGenerator.generated_slots self).
Proof.
  intros self s. split.
  - destruct (C8_save_is_all_or_nothing unique_constraints_ok self s)
      as [_ [Hok _]].
    destruct (Hok ltac:(vm_compute; reflexivity)) as [Hcount [Hrows _]].
    split; [exact Hcount|]. rewrite Hrows. reflexivity.
  - destruct (C8_save_is_all_or_nothing (fun _ => false) self s)
      as [Hself [_ Hfail]].
    destruct (Hfail eq_refl) as [Hcount [Hrows _]].
    split; [exact Hcount|]. split; [exact Hrows|]. now rewrite Hself.
Defined.

(** ** The pairwise checks of the detector *)

Section PairwiseFacts.
Context {E : Type}.
Variable entry : TimeSlot.t -> TimeSlot.t -> E.
Variable same : TimeSlot.t -> TimeSlot.t -> bool.
Variable considered : TimeSlot.t -> bool.
Variable db : Database.

Lemma report_pair_tracks (slot conflict_slot : TimeSlot.t) acc trace conflicts :
  tracks entry acc trace conflicts ->
  tracks entry (report_pair entry slot acc conflict_slot)
    (report_pair as_pair slot trace conflict_slot) conflicts.
Proof.
  destruct acc as [checked entries], trace as [checked' pairs].
  intros [Hset Hlist]. cbn [fst snd] in Hset, Hlist. subst checked' entries.
  unfold report_pair. cbn [fst snd].
  destruct (bool_decide _); [now split|].
  split; cbn [fst snd]; [reflexivity|].
  rewrite map_app, <- app_assoc. reflexivity.
Qed.

Lemma report_slot_tracks (slot : TimeSlot.t) acc trace conflicts :
  tracks entry acc trace conflicts ->
  tracks entry (report_slot entry same considered db acc slot)
    (report_slot as_pair same considered db trace slot) conflicts.
Proof.
  unfold report_slot. destruct (considered slot); [|trivial].
  revert acc trace.
  induction (overlapping same db slot) as [|o rest IH]; intros acc trace Ht;
    cbn [fold_left]; [assumption|].
  apply IH. now apply report_pair_tracks.
Qed.

(** The loops run the same way whatever entry they build: the entries
    are the images of the reported pairs. *)
Lemma pairwise_check_entries (conflicts : list E) :
  (pairwise_check entry same considered db conflicts).2
  = conflicts
    ++ map (fun p => entry p.1 p.2) (pairwise_check as_pair same considered db []).2.
Proof.
  unfold pairwise_check.
  assert (Hstart : tracks entry (∅, conflicts) (∅, []) conflicts).
  { split; cbn; [reflexivity | now rewrite app_nil_r]. }
  revert Hstart. generalize (∅ : gset (Z * Z), conflicts).
  generalize (∅ : gset (Z * Z), @nil (TimeSlot.t * TimeSlot.t)).
  induction (db_timeslots db) as [|slot rest IH]; intros trace acc Ht;
    cbn [fold_left]; [apply Ht|].
  apply IH. now apply report_slot_tracks.
Qed.
End PairwiseFacts.

Section Dedup.
Variable same : TimeSlot.t -> TimeSlot.t -> bool.
Variable considered : TimeSlot.t -> bool.
Variable db : Database.

Lemma overlapping_conflicting (slot other : TimeSlot.t) :
  In slot (db_timeslots db) ->
  In other (overlapping same db slot) <-> conflicting same db (slot, other).
Proof.
  intros Hslot. unfold overlapping, conflicting. cbn [fst snd].
  split.
  - intros Hin. apply filter_In in Hin as [Hin Hq].
    apply andb_true_iff in Hq as [Hq Hcross].
    apply andb_true_iff in Hq as [Hq Hday].
    apply andb_true_iff in Hq as [Hpk Hsame].
    apply negb_true_iff, Z.eqb_neq in Hpk. apply Z.eqb_eq in Hday.
    tauto.
  - intros (_ & Hin & Hpk & Hsame & Hday & Hcross).
    apply filter_In. split; [assumption|].
    apply Z.eqb_neq in Hpk. apply Z.eqb_eq in Hday.
    now rewrite Hpk, Hsame, Hday, Hcross.
Qed.

Lemma keys_of_app (ps qs : list (TimeSlot.t * TimeSlot.t)) :
  keys_of (ps ++ qs) = keys_of ps ++ keys_of qs.
Proof.
  apply map_app.
Qed.

Lemma report_pair_ok (slot other : TimeSlot.t) trace :
  conflicting same db (slot, other) -> trace_ok same db trace ->
  trace_ok same db (report_pair as_pair slot trace other)
  /\ (forall k, k ∈ trace.1 -> k ∈ (report_pair as_pair slot trace other).1)
  /\ pair_key (pk slot) (pk other) ∈ (report_pair as_pair slot trace other).1.
Proof.
  destruct trace as [checked pairs].
  intros Hconf (Hset & Hnodup & Hall). cbn [fst snd] in Hset, Hnodup, Hall.
  unfold report_pair. cbn [fst snd].
  destruct (bool_decide_reflect (pair_key (pk slot) (pk other) ∈ checked))
    as [Hseen|Hnew].
  - repeat split; cbn [fst snd]; try assumption; try apply Hset; auto.
  - split; [|split]; cbn [fst snd].
    + split; [|split]; cbn [fst snd].
      * intros k. rewrite keys_of_app, in_app_iff, <- Hset. cbn.
        rewrite elem_of_union, elem_of_singleton. intuition.
      * rewrite keys_of_app. apply List.NoDup_app.
        -- assumption.
        -- constructor; [intros [] | constructor].
        -- intros k Hk [Heq|[]]. cbn in Heq. subst k.
           apply Hnew. now apply Hset.
      * apply Forall_app. split; [assumption|]. now constructor.
    + intros k Hk. apply elem_of_union. now right.
    + apply elem_of_union. left. now apply elem_of_singleton.
Qed.

Lemma fold_report_pair_ok (slot : TimeSlot.t) (others : list TimeSlot.t) trace :
  (forall o, In o others -> conflicting same db (slot, o)) ->
  trace_ok same db trace ->
  trace_ok same db (fold_left (report_pair as_pair slot) others trace)
  /\ (forall k, k ∈ trace.1 ->
                k ∈ (fold_left (report_pair as_pair slot) others trace).1)
  /\ (forall o, In o others ->
                pair_key (pk slot) (pk o)
                ∈ (fold_left (report_pair as_pair slot) others trace).1).
Proof.
  revert trace. induction others as [|o rest IH]; intros trace Hconf Hok;
    cbn [fold_left].
  - repeat split; try apply Hok; auto. intros o [].
  - destruct (report_pair_ok slot o trace (Hconf o (or_introl eq_refl)) Hok)
      as (Hok1 & Hmono1 & Hkey1).
    destruct (IH (report_pair as_pair slot trace o)
                (fun o' Ho' => Hconf o' (or_intror Ho')) Hok1)
      as (Hok2 & Hmono2 & Hkeys2).
    split; [assumption|]. split; [auto|].
    intros o' [<-|Ho']; auto.
Qed.

Lemma fold_report_slot_ok (slots : list TimeSlot.t) trace :
  (forall s, In s slots -> In s (db_timeslots db)) ->
  trace_ok same db trace ->
  trace_ok same db (fold_left (report_slot as_pair same considered db) slots trace)
  /\ (forall k, k ∈ trace.1 ->
                k ∈ (fold_left (report_slot as_pair same considered db) slots trace).1)
  /\ (forall s o,
        In s slots -> considered s = true -> In o (overlapping same db s) ->
        pair_key (pk s) (pk o)
        ∈ (fold_left (report_slot as_pair same considered db) slots trace).1).
Proof.
  revert trace. induction slots as [|s rest IH]; intros trace Hrows Hok;
    cbn [fold_left].
  - repeat split; try apply Hok; auto. intros s o [].
  - assert (Hstep :
      trace_ok same db (report_slot as_pair same considered db trace s)
      /\ (forall k, k ∈ trace.1 ->
                    k ∈ (report_slot as_pair same considered db trace s).1)
      /\ (forall o, considered s = true -> In o (overlapping same db s) ->
                    pair_key (pk s) (pk o)
                    ∈ (report_slot as_pair same considered db trace s).1)).
    { unfold report_slot. destruct (considered s).
      - destruct (fold_report_pair_ok s (overlapping same db s) trace)
          as (H1 & H2 & H3); [|assumption|auto].
        intros o Ho. apply overlapping_conflicting; [|assumption].
        apply Hrows. now left.
      - repeat split; try apply Hok; auto. discriminate. }
    destruct Hstep as (Hok1 & Hmono1 & Hkey1).
    destruct (IH (report_slot as_pair same considered db trace s)
                (fun s' Hs' => Hrows s' (or_intror Hs')) Hok1)
      as (Hok2 & Hmono2 & Hkeys2).
    split; [assumption|]. split; [auto|].
    intros s' o [<-|Hs'] Hc Ho; auto.
Qed.

Lemma reports_of_NoDup (k : Z * Z) (pairs : list (TimeSlot.t * TimeSlot.t)) :
  List.NoDup (keys_of pairs) -> In k (keys_of pairs) -> reports_of k pairs = 1%nat.
Proof.
  unfold reports_of, keys_of.
  induction pairs as [|p rest IH]; cbn [map List.filter]; [intros _ []|].
  intros Hnodup Hin. inversion Hnodup as [|? ? Hfresh Hrest]; subst.
  destruct (bool_decide_reflect (pair_key (pk p.1) (pk p.2) = k)) as [Heq|Hne].
  - cbn [length]. f_equal.
    assert (Hnone : forall l : list (TimeSlot.t * TimeSlot.t),
               ~ In k (map (fun p => pair_key (pk p.1) (pk p.2)) l) ->
               List.filter
                 (fun p => bool_decide (pair_key (pk p.1) (pk p.2) = k)) l = []).
    { induction l as [|q l IHl]; cbn [map List.filter]; [reflexivity|].
      intros Hq.
      destruct (bool_decide_reflect (pair_key (pk q.1) (pk q.2) = k)) as [Hk|Hk].
      - exfalso. apply Hq. now left.
      - apply IHl. intros Hl. apply Hq. now right. }
    rewrite Hnone; [reflexivity|]. now rewrite <- Heq.
  - destruct Hin as [Hk|Hin]; [contradiction|]. now apply IH.
Qed.

(** Every pair the query relates is reported once, under one key, by a
    check that starts from no reported pair. *)
Lemma pairwise_check_once :
  Forall (conflicting same db) (pairwise_check as_pair same considered db []).2
  /\ forall a b,
       In a (db_timeslots db) -> considered a = true ->
       conflicting same db (a, b) ->
       reports_of (pair_key (pk a) (pk b))
         (pairwise_check as_pair same considered db []).2 = 1%nat.
Proof.
  unfold pairwise_check.
  destruct (fold_report_slot_ok (db_timeslots db) (∅, []))
    as ((Hset & Hnodup & Hall) & _ & Hkeys).
  - auto.
  - repeat split; cbn [fst snd keys_of map]; try constructor.
    + intros Hk. now apply elem_of_empty in Hk.
    + intros [].
  - split; [assumption|].
    intros a b Ha Hc Hconf. apply reports_of_NoDup; [assumption|].
    apply Hset. apply Hkeys; try assumption.
    now apply overlapping_conflicting.
Qed.
End Dedup.

(** ** The report *)

Lemma report_conflicts (db : Database) :
  Report.conflicts (detect_all_conflicts db)
  = map (room_entry db) (room_pairs db)
    ++ map (teacher_entry db) (teacher_pairs db)
    ++ map (group_entry db) (group_pairs db)
    ++ map (availability_entry db) (availability_flagged db)
    ++ (detect_workload_violations [] db).1
    ++ (detect_capacity_conflicts [] db).1.
Proof.
  unfold detect_all_conflicts. cbn [Report.conflicts].
  unfold detect_capacity_conflicts, detect_workload_violations,
    detect_availability_conflicts, detect_group_conflicts,
    detect_teacher_conflicts, detect_room_conflicts.
  cbn [fst snd].
  rewrite !(pairwise_check_entries (E:=Conflict)). cbn [app].
  rewrite <- !app_assoc. reflexivity.
Qed.

Lemma filter_type_map {A : Type} (ty ty' : string) (f : A -> Conflict)
    (l : list A) :
  (forall x, conflict_type (f x) = ty') ->
  List.filter (has_type ty) (map f l)
  = if String.eqb ty' ty then map f l else [].
Proof.
  intros Hty. unfold has_type.
  induction l as [|x rest IH]; cbn [map List.filter].
  - now destruct (String.eqb ty' ty).
  - rewrite Hty, IH. now destruct (String.eqb ty' ty).
Qed.

(** The entries of one type are the entries of the check of that type,
    in the order in which the check appended them. *)
Lemma report_by_type (db : Database) :
  List.filter (has_type "room_conflict") (Report.conflicts (detect_all_conflicts db))
  = map (room_entry db) (room_pairs db)
  /\ List.filter (has_type "teacher_conflict")
       (Report.conflicts (detect_all_conflicts db))
     = map (teacher_entry db) (teacher_pairs db)
  /\ List.filter (has_type "availability_conflict")
       (Report.conflicts (detect_all_conflicts db))
     = map (availability_entry db) (availability_flagged db).
Proof.
  rewrite report_conflicts.
  unfold detect_workload_violations, detect_capacity_conflicts.
  cbn [fst app].
  repeat split; rewrite !List.filter_app;
    rewrite (filter_type_map _ "room_conflict" (room_entry db)) by reflexivity;
    rewrite (filter_type_map _ "teacher_conflict" (teacher_entry db)) by reflexivity;
    rewrite (filter_type_map _ "group_conflict" (group_entry db)) by reflexivity;
    rewrite (filter_type_map _ "availability_conflict" (availability_entry db))
      by reflexivity;
    rewrite (filter_type_map _ "workload_conflict") by reflexivity;
    rewrite (filter_type_map _ "capacity_conflict") by reflexivity;
    cbn [String.eqb Ascii.eqb Bool.eqb app];
    now rewrite ?app_nil_r.
Qed.

Lemma windows_overlap_cross (a b : TimeSlot.t) :
  windows_overlap a b -> windows_cross a b = true.
Proof.
  unfold windows_overlap, windows_cross.
  rewrite is_overlap_spec, crosses_spec. lia.
Qed.

Lemma pair_key_comm (a b : Z) : pair_key a b = pair_key b a.
Proof.
  unfold pair_key. now rewrite Z.min_comm, Z.max_comm.
Qed.

(** The pairs the room check reports, for rows whose relations resolve:
    the room entries of the report are the entries of the reported room
    pairs, one each; every reported pair is made of two stored rows with
    different ids, the same room, the same day and crossing windows; and
    for two such rows exactly one reported pair carries their sorted pair
    of ids, whichever of the two comes first.  The same holds of the
    teacher check. *)
Lemma one_entry_per_pair (db : Database) :
  (List.filter (has_type "room_conflict") (Report.conflicts (detect_all_conflicts db))
   = map (room_entry db) (room_pairs db)
   /\ Forall (conflicting same_room db) (room_pairs db)
   /\ forall a b,
        In a (db_timeslots db) -> In b (db_timeslots db) -> pk a <> pk b ->
        TimeSlot.room_id a = TimeSlot.room_id b ->
        TimeSlot.day_of_week a = TimeSlot.day_of_week b ->
        windows_cross a b = true ->
        reports_of (pair_key (pk a) (pk b)) (room_pairs db) = 1%nat
        /\ pair_key (pk b) (pk a) = pair_key (pk a) (pk b))
  /\ (List.filter (has_type "teacher_conflict")
        (Report.conflicts (detect_all_conflicts db))
      = map (teacher_entry db) (teacher_pairs db)
      /\ Forall (conflicting same_teacher db) (teacher_pairs db)
      /\ forall a b,
           In a (db_timeslots db) -> In b (db_timeslots db) -> pk a <> pk b ->
           TimeSlot.teacher_id a = TimeSlot.teacher_id b ->
           TimeSlot.day_of_week a = TimeSlot.day_of_week b ->
           windows_cross a b = true ->
           reports_of (pair_key (pk a) (pk b)) (teacher_pairs db) = 1%nat
           /\ pair_key (pk b) (pk a) = pair_key (pk a) (pk b)).
Proof.
  destruct (report_by_type db) as (Hroom & Hteacher & _).
  split.
  - split; [exact Hroom|].
    destruct (pairwise_check_once same_room (fun _ => true) db) as [Hall Honce].
    split; [exact Hall|].
    intros a b Ha Hb Hpk Hr Hd Hcross. split; [|apply pair_key_comm].
    apply Honce; [assumption | reflexivity |].
    unfold conflicting, same_room. cbn [fst snd].
    repeat split; auto. now apply Z.eqb_eq.
  - split; [exact Hteacher|].
    destruct (pairwise_check_once same_teacher (fun _ => true) db) as [Hall Honce].
    split; [exact Hall|].
    intros a b Ha Hb Hpk Ht Hd Hcross. split; [|apply pair_key_comm].
    apply Honce; [assumption | reflexivity |].
    unfold conflicting, same_teacher. cbn [fst snd].
    repeat split; auto. now apply Z.eqb_eq.
Qed.

(** ** The availability check of the detector *)

Lemma availability_flagged_spec (db : Database) (slot : TimeSlot.t) :
  In slot (availability_flagged db)
  <-> In slot (db_timeslots db)
      /\ TimeSlot.teacher_id slot <> 0
      /\ is_valid db slot = false.
Proof.
  unfold availability_flagged.
  rewrite filter_In, andb_true_iff, !negb_true_iff, Z.eqb_neq. tauto.
Qed.

Lemma first_availability_windows (db : Database) (slot : TimeSlot.t) :
  first_availability db slot = head (windows_of_day db slot).
Proof.
  reflexivity.
Qed.

(** A first window that covers the slot is one of its covering windows. *)
Lemma is_valid_covering (db : Database) (slot : TimeSlot.t) :
  is_valid db slot = true -> covering_windows db slot <> [].
Proof.
  unfold is_valid. rewrite first_availability_windows.
  destruct (windows_of_day db slot) as [|a rest] eqn:Hday; [discriminate|].
  cbn [head]. intros Hcov Hnone.
  assert (Hin : In a (windows_of_day db slot)) by (rewrite Hday; now left).
  unfold windows_of_day in Hin. apply filter_In in Hin as [Hin Hkey].
  assert (Hc : In a (covering_windows db slot)).
  { unfold covering_windows. apply filter_In. split; [assumption|].
    now rewrite Hkey, Hcov. }
  rewrite Hnone in Hc. destruct Hc.
Qed.

Lemma declares_nothing_no_window (db : Database) (slot : TimeSlot.t) :
  declares_nothing db (TimeSlot.teacher_id slot) -> windows_of_day db slot = [].
Proof.
  intros Hnone. unfold windows_of_day.
  destruct (List.filter _ (db_teacher_availability db)) as [|a rest] eqn:Hday;
    [reflexivity|].
  assert (Hin : In a (a :: rest)) by now left.
  rewrite <- Hday in Hin. apply filter_In in Hin as [Hin Hkey].
  apply andb_true_iff in Hkey as [Hid _]. apply Z.eqb_eq in Hid.
  now destruct (Hnone a Hin).
Qed.

(** ** Further consequences *)

(** When the stored rows are free of double booking among themselves,
    so is their union with the slots of a run. *)
Lemma no_double_booking_union `{RandomSource}
    (department_id semester group_id : Z) (db : Database) (g : rng) :
  no_double_booking (db_timeslots db) ->
  no_double_booking
    (generated_of (generate (init department_id semester group_id) db g).1.1
     ++ db_timeslots db).
Proof.
  intros Hstored.
  pose proof (clear_run_no_double_booking db _
                (generate_clear_run department_id semester group_id db g))
    as Hnew.
  set (new := generated_of (generate (init department_id semester group_id) db g).1.1)
    in *.
  intros i j a b Hne _ Ha Hb.
  destruct (Nat.lt_ge_cases i (length new)) as [Hi|Hi].
  - apply (Hnew i j a b); auto.
  - destruct (Nat.lt_ge_cases j (length new)) as [Hj|Hj].
    + apply (Hnew i j a b); auto.
    + rewrite nth_error_app2 in Ha, Hb by assumption.
      apply (Hstored (i - length new)%nat (j - length new)%nat a b);
        try assumption; [lia|].
      left. apply nth_error_Some. congruence.
Qed.

(** The scenarios on the small catalog.  A lab course with two weekly
    sessions gets two slots, both in the Lab room, at two different
    times. *)
Example scenario_lab_course :
  List.filter (fun slot => TimeSlot.course_id slot =? Course.id web_lab)
    (generated_of
       (generate (init 7 1 0) (catalog [] []) (tt : @rng reversing_source)).1.1)
  = [{| TimeSlot.id := None; TimeSlot.teacher_id := 1; TimeSlot.course_id := 11;
        TimeSlot.group_id := Some 100; TimeSlot.room_id := 1;
        TimeSlot.day_of_week := 0;
        TimeSlot.start_time := mk_time 16 0; TimeSlot.end_time := mk_time 17 0;
        TimeSlot.is_locked := None |};
     {| TimeSlot.id := None; TimeSlot.teacher_id := 1; TimeSlot.course_id := 11;
        TimeSlot.group_id := Some 100; TimeSlot.room_id := 1;
        TimeSlot.day_of_week := 5;
        TimeSlot.start_time := mk_time 15 0; TimeSlot.end_time := mk_time 16 0;
        TimeSlot.is_locked := None |}].
Proof.
  vm_compute. reflexivity.
Qed.

(** A course without teacher gets no slot and one failure. *)
Example scenario_no_teacher :
  match (generate (init 7 1 0) (catalog [] []) (tt : @rng reversing_source)).1.1 with
  | inl _ => False
  | inr res =>
      Result.conflicts res
      = [{| Failure.course := Course.name orphan;
            Failure.group := Group.name info1;
            Failure.reason := NO_TEACHER_ASSIGNED |}]
      /\ List.filter (fun slot => TimeSlot.course_id slot =? Course.id orphan)
           (Result.timeslots res) = []
  end.
Proof.
  vm_compute. split; reflexivity.
Qed.

(** Two rows of one teacher that overlap by fifteen minutes give one
    teacher conflict, of severity critical. *)
Example scenario_quarter_hour :
  map (fun c => (c, severity c))
    (List.filter (has_type "teacher_conflict")
       (Report.conflicts (detect_all_conflicts (catalog quarter_hour_rows []))))
  = [(teacher_conflict (Teacher.full_name ada) (Course.name algo)
        (Course.name web_lab), "critical"%string)].
Proof.
  vm_compute. reflexivity.
Qed.

(** The ten hour course is placed whatever the shuffles give: some start
    time from 14:00 on is reached on the first day that is tried, and
    the slot ends, after midnight, before it starts. *)
Lemma marathon_placed_by_every_source `{RandomSource} (g : rng) :
  exists slot,
    (generate (init 9 1 0) (catalog [] []) g).1.1
    = inr {| Result.generated := 1; Result.failed := 0;
             Result.timeslots := [slot]; Result.conflicts := [] |}
    /\ TimeSlot.end_time slot < TimeSlot.start_time slot.
Proof.
  rewrite generate_run by discriminate.
  unfold final_run.
  change (target_groups (init 9 1 0) (catalog [] [])) with [atelier_group].
  cbn [fold_left]. unfold schedule_group.
  change (Group.courses atelier_group) with [marathon].
  cbn [fold_left]. unfold schedule_course.
  change (Z.to_nat (Course.weekly_sessions marathon)) with 1%nat.
  change (duration_of marathon) with 600.
  cbn [repeat_sessions].
  set (st0 := {| run_self := init 9 1 0; run_rng := g;
                 generated_count := 0; failed_count := 0 |}).
  destruct (schedule_session_outcome (catalog [] []) (db_rooms (catalog [] []))
              atelier_group marathon 600 st0)
    as [Hnone _ _ _ _
       | slot rooms day s _ _ _ Hs Hplace Hg Hc Hgc Hfc
       | rooms _ Hperm Hall _ _ _ _].
  - discriminate.
  - exists slot. rewrite Hg, Hc, Hgc, Hfc. split; [reflexivity|].
    apply place_at_Some in Hplace.
    destruct Hplace as [room teacher Hend _ _ _ _ _ _].
    cbn [TimeSlot.end_time TimeSlot.start_time].
    rewrite add_minutes_mod in Hend |- *.
    cbn in Hs. unfold mk_time in Hs, Hend.
    repeat (destruct Hs as [<-|Hs];
            [ apply Z.leb_le in Hend; apply Z.ltb_lt;
              vm_compute in Hend |- *; solve [discriminate | reflexivity] |]).
    destruct Hs.
  - exfalso.
    change (suitable_rooms_of (db_rooms (catalog [] [])) marathon)
      with [class_room] in Hperm.
    apply Permutation_length_1_inv in Hperm. subst rooms.
    specialize (Hall 0 (mk_time 14 0)).
    assert (Hsome : place_at (run_self st0) (catalog [] []) atelier_group
                      marathon 600 [class_room] 0 (mk_time 14 0) <> None)
      by (vm_compute; discriminate).
    apply Hsome, Hall; cbn; auto 12.
Qed.

(** ** The search of one session is complete *)




(** X2: [check_teacher_preferences] accepts a window exactly when a row
    of the teacher for that day is marked available and contains it, or
    the teacher has no row at all; rows marked unavailable and rows of
    other days never make it accept. *)
Theorem X2_check_teacher_preferences_iff (db : Database) (teacher_id day : Z)
    (start_time end_time : time) :
  check_teacher_preferences db teacher_id day start_time end_time = true
  <-> (exists a, available_window db teacher_id day start_time end_time a)
      \/ declares_nothing db teacher_id.
Proof.
  split.
  - apply check_teacher_preferences_true.
  - apply check_teacher_preferences_complete.
Qed.

(** ** The grid of days and start times *)

Section Grid.
Context `{RandomSource}.
Variable department_id : Z.
Variable semester : Z.
Variable group_id : Z.
Variable db : Database.

Lemma final_run_ind (P : Run -> Prop) (self : TimetableGenerator.t) (g : rng) :
  P {| run_self := self; run_rng := g; generated_count := 0; failed_count := 0 |} ->
  (forall group course st,
     In group (target_groups self db) -> In course (Group.courses group) ->
     P st ->
     P (schedule_session db (db_rooms db) group course (duration_of course) st)) ->
  P (final_run self db g).
Proof.
  intros Hstart Hstep. unfold final_run.
  now apply schedule_groups_ind.
Qed.

Lemma schedule_session_grid (self : TimetableGenerator.t) (group : Group.t)
    (course : Course.t) (st : Run) :
  In group (target_groups self db) -> In course (Group.courses group) ->
  grid_kept self db st ->
  grid_kept self db
    (schedule_session db (db_rooms db) group course (duration_of course) st).
Proof.
  intros Hgroup Hcourse (Hstarts & Hdays & Hall).
  destruct (schedule_session_frame db (db_rooms db) group course
              (duration_of course) st) as [Hstarts' Hdays'].
  split; [congruence|]. split; [now transitivity (TimetableGenerator.days (run_self st))|].
  destruct (schedule_session_outcome db (db_rooms db) group course
              (duration_of course) st)
    as [_ -> _ _ _ | slot rooms day s _ _ Hd Hs Hplace -> _ _ _ | rooms _ _ _ -> _ _ _];
    try assumption.
  apply Forall_app. split; [assumption|]. constructor; [|constructor].
  apply place_at_Some in Hplace.
  destruct Hplace as [room teacher Hend _ _ _ _ _ _].
  exists group, course. cbn.
  repeat (split; [solve [assumption | reflexivity]|]).
  split; [|split; [|split]]; try reflexivity; try assumption.
  - now apply (Permutation_in _ (Permutation_sym Hdays)).
  - now rewrite <- Hstarts.
Qed.

Lemma final_run_grid (g : rng) :
  grid_kept (init department_id semester group_id) db
    (final_run (init department_id semester group_id) db g).
Proof.
  apply final_run_ind.
  - split; [reflexivity|]. split; [reflexivity | constructor].
  - intros group course st. apply schedule_session_grid.
Qed.

Lemma generated_from_grid (g : rng) :
  Forall (from_grid (init department_id semester group_id) db)
    (generated_of (generate (init department_id semester group_id) db g).1.1).
Proof.
  destruct (target_groups (init department_id semester group_id) db)
    as [|group groups] eqn:Hgroups.
  - rewrite generate_no_group by assumption. constructor.
  - rewrite generate_run by congruence.
    destruct (final_run_grid g) as (_ & _ & Hall). exact Hall.
Qed.

(** The generator object a run of a fresh generator leaves holds the
    slots the run returns. *)
Lemma generate_self_slots (g : rng) :
  TimetableGenerator.generated_slots
    (generate (init department_id semester group_id) db g).1.2
  = generated_of (generate (init department_id semester group_id) db g).1.1.
Proof.
  destruct (target_groups (init department_id semester group_id) db)
    as [|group groups] eqn:Hgroups.
  - now rewrite generate_no_group.
  - now rewrite generate_run by congruence.
Qed.
End Grid.

Lemma grid_hours (department_id semester group_id : Z) (t : time) :
  In t (TimetableGenerator.slot_starts (init department_id semester group_id)) ->
  exists h, 8 <= h <= 17 /\ t = mk_time h 0.
Proof.
  cbn. intros Hin.
  repeat (destruct Hin as [<-|Hin]; [eexists; split; [|reflexivity]; lia|]).
  destruct Hin.
Qed.

(** X3: every slot of a run of a fresh generator is for a course of a
    targeted group, on a day from Monday (0) to Saturday (5), and starts
    on a full hour from 08:00 to 17:00; after the run the generator still
    holds the six days, in some order, and its grid of start times. *)
Theorem X3_slots_stay_on_the_grid `{RandomSource}
    (department_id semester group_id : Z) (db : Database) (g : rng) :
  Forall
    (fun slot =>
       0 <= TimeSlot.day_of_week slot <= 5
       /\ (exists h, 8 <= h <= 17 /\ TimeSlot.start_time slot = mk_time h 0)
       /\ exists group course,
            In group (target_groups (init department_id semester group_id) db)
            /\ In course (Group.courses group)
            /\ TimeSlot.group_id slot = Some (Group.id group)
            /\ TimeSlot.course_id slot = Course.id course)
    (generated_of (generate (init department_id semester group_id) db g).1.1)
  /\ Permutation [0; 1; 2; 3; 4; 5]
       (TimetableGenerator.days
          (generate (init department_id semester group_id) db g).1.2)
  /\ TimetableGenerator.slot_starts
       (generate (init department_id semester group_id) db g).1.2
     = TimetableGenerator.slot_starts (init department_id semester group_id).
Proof.
  split.
  - eapply List.Forall_impl; [|apply generated_from_grid].
    intros slot (group & course & Hg & Hc & Hgid & Hcid & Hday & Hstart & _).
    split; [|split].
    + cbn in Hday. intuition lia.
    + now apply grid_hours in Hstart.
    + now exists group, course.
  - destruct (target_groups (init department_id semester group_id) db)
      as [|group groups] eqn:Hgroups.
    + rewrite generate_no_group by assumption. now split.
    + rewrite generate_run by congruence. cbn [fst snd].
      destruct (final_run_grid department_id semester group_id db g)
        as (Hstarts & Hdays & _).
      now split.
Qed.

(** ** Sessions that stay within the day *)

Lemma from_grid_within_day (department_id semester group_id : Z) (db : Database)
    (slot : TimeSlot.t) :
  targets_within_day (init department_id semester group_id) db ->
  from_grid (init department_id semester group_id) db slot ->
  nonempty_window slot
  /\ TimeSlot.end_time slot <= mk_time 17 0
  /\ exists course,
       TimeSlot.course_id slot = Course.id course
       /\ TimeSlot.end_time slot = TimeSlot.start_time slot + duration_of course.
Proof.
  intros Htargets (group & course & Hg & Hc & _ & Hcid & _ & Hstart & Hend & Hbound).
  unfold targets_within_day in Htargets.
  rewrite List.Forall_forall in Htargets. specialize (Htargets group Hg).
  rewrite List.Forall_forall in Htargets. specialize (Htargets course Hc).
  unfold within_day in Htargets.
  apply grid_hours in Hstart as [h [Hh Hs]].
  assert (Hexact : TimeSlot.end_time slot
                   = TimeSlot.start_time slot + duration_of course).
  { rewrite Hend. apply add_minutes_exact. rewrite Hs. unfold mk_time. lia. }
  split; [unfold nonempty_window; lia|]. split; [assumption|].
  now exists course.
Qed.

(** The course a slot was built for gives the slot its length. *)
Lemma from_grid_duration (department_id semester group_id : Z) (db : Database)
    (slot : TimeSlot.t) :
  targets_within_day (init department_id semester group_id) db ->
  from_grid (init department_id semester group_id) db slot ->
  exists group course,
    In group (target_groups (init department_id semester group_id) db)
    /\ In course (Group.courses group)
    /\ TimeSlot.group_id slot = Some (Group.id group)
    /\ TimeSlot.course_id slot = Course.id course
    /\ 0 < duration_of course
    /\ TimeSlot.end_time slot = TimeSlot.start_time slot + duration_of course.
Proof.
  intros Htargets (group & course & Hg & Hc & Hgid & Hcid & _ & Hstart & Hend & _).
  unfold targets_within_day in Htargets.
  rewrite List.Forall_forall in Htargets. specialize (Htargets group Hg).
  rewrite List.Forall_forall in Htargets. specialize (Htargets course Hc).
  unfold within_day in Htargets.
  apply grid_hours in Hstart as [h [Hh Hs]].
  exists group, course. repeat (split; [assumption || lia|]).
  rewrite Hend. apply add_minutes_exact. rewrite Hs. unfold mk_time. lia.
Qed.

(** X4: when every course of the targeted groups has a positive
    duration below seven hours, every generated slot ends by 17:00 and
    belongs to a course of its group, one of the targeted groups, whose
    duration is positive and is the length of the slot: the end time is
    the start time plus that duration. *)
Theorem X4_slots_last_their_duration `{RandomSource}
    (department_id semester group_id : Z) (db : Database) (g : rng) :
  targets_within_day (init department_id semester group_id) db ->
  Forall
    (fun slot =>
       TimeSlot.start_time slot < TimeSlot.end_time slot
       /\ TimeSlot.end_time slot <= mk_time 17 0
       /\ exists group course,
            In group (target_groups (init department_id semester group_id) db)
            /\ In course (Group.courses group)
            /\ TimeSlot.group_id slot = Some (Group.id group)
            /\ TimeSlot.course_id slot = Course.id course
            /\ 0 < duration_of course
            /\ TimeSlot.end_time slot
               = TimeSlot.start_time slot + duration_of course)
    (generated_of (generate (init department_id semester group_id) db g).1.1).
Proof.
  intros Htargets.
  eapply List.Forall_impl; [|apply generated_from_grid].
  intros slot Hgrid.
  destruct (from_grid_within_day _ _ _ _ _ Htargets Hgrid) as (Hlt & Hend & _).
  split; [exact Hlt|]. split; [exact Hend|].
  now apply from_grid_duration.
Qed.

(** The courses of group INFO-1 last one hour. *)
Lemma X4_slots_last_their_duration_witness :
  targets_within_day (init 7 1 0) (catalog [] [])
  /\ Forall
       (fun slot =>
          TimeSlot.group_id slot = Some 100
          /\ TimeSlot.end_time slot = TimeSlot.start_time slot + 60)
       (generated_of
          (generate (init 7 1 0) (catalog [] []) (tt : @rng reversing_source)).1.1).
Proof.
  assert (Htargets : targets_within_day (init 7 1 0) (catalog [] [])).
  { repeat constructor; cbn; lia. }
  split; [exact Htargets|].
  eapply List.Forall_impl;
    [|exact (X4_slots_last_their_duration 7 1 0 (catalog [] [])
               (tt : @rng reversing_source) Htargets)].
  intros slot (_ & _ & group & course & Hg & Hc & Hgid & _ & _ & Hend).
  cbn in Hg. destruct Hg as [<-|[]].
  split; [exact Hgid|].
  cbn in Hc. destruct Hc as [<-|[<-|[<-|[]]]]; exact Hend.
Defined.

(** ** A generator that is used again *)

(** X5: whatever slots and failures a generator object already holds,
    a run keeps them as they are, in front of what it adds, and the two
    counters it returns count what this run added only. *)
Theorem X5_run_appends `{RandomSource} (self : TimetableGenerator.t)
    (db : Database) (g : rng) :
  exists new failures,
    TimetableGenerator.generated_slots (generate self db g).1.2
    = TimetableGenerator.generated_slots self ++ new
    /\ TimetableGenerator.conflicts (generate self db g).1.2
       = TimetableGenerator.conflicts self ++ failures
    /\ match (generate self db g).1.1 with
       | inl _ => new = [] /\ failures = []
       | inr res =>
           Result.timeslots res = TimetableGenerator.generated_slots self ++ new
           /\ Result.conflicts res = TimetableGenerator.conflicts self ++ failures
           /\ Result.generated res = Z.of_nat (length new)
           /\ Result.failed res = Z.of_nat (length failures)
       end.
Proof.
  destruct (target_groups self db) as [|group groups] eqn:Hgroups.
  - rewrite generate_no_group by assumption. exists [], []. cbn.
    now rewrite !app_nil_r.
  - rewrite generate_run by congruence. cbn [fst snd].
    assert (Hprefix :
      exists new failures,
        TimetableGenerator.generated_slots (run_self (final_run self db g))
        = TimetableGenerator.generated_slots self ++ new
        /\ TimetableGenerator.conflicts (run_self (final_run self db g))
           = TimetableGenerator.conflicts self ++ failures).
    { apply (final_run_ind db
               (fun st =>
                  exists new failures,
                    TimetableGenerator.generated_slots (run_self st)
                    = TimetableGenerator.generated_slots self ++ new
                    /\ TimetableGenerator.conflicts (run_self st)
                       = TimetableGenerator.conflicts self ++ failures)).
      - exists [], []. cbn. now rewrite !app_nil_r.
      - intros grp course st _ _ (new & failures & Hnew & Hfail).
        destruct (schedule_session_outcome db (db_rooms db) grp course
                    (duration_of course) st)
          as [_ -> -> _ _ | slot rooms day s _ _ _ _ _ -> -> _ _ | rooms _ _ _ -> -> _ _].
        + exists new, (failures ++ [{| Failure.course := Course.name course;
                                       Failure.group := Group.name grp;
                                       Failure.reason := NO_TEACHER_ASSIGNED |}]).
          now rewrite Hnew, Hfail, app_assoc.
        + exists (new ++ [slot]), failures.
          now rewrite Hnew, Hfail, app_assoc.
        + exists new, (failures ++ [{| Failure.course := Course.name course;
                                       Failure.group := Group.name grp;
                                       Failure.reason := NO_VALID_SLOT |}]).
          now rewrite Hnew, Hfail, app_assoc. }
    destruct Hprefix as (new & failures & Hnew & Hfail).
    exists new, failures. split; [assumption|]. split; [assumption|].
    cbn [Result.timeslots Result.conflicts Result.generated Result.failed].
    split; [assumption|]. split; [assumption|].
    destruct (schedule_groups_progress db (db_rooms db) (target_groups self db)
                {| run_self := self; run_rng := g;
                   generated_count := 0; failed_count := 0 |})
      as [_ _ Hg Hf _].
    fold (final_run self db g) in Hg, Hf.
    cbn [run_self generated_count failed_count] in Hg, Hf.
    rewrite Hnew in Hg. rewrite Hfail in Hf.
    rewrite List.length_app in Hg, Hf. lia.
Qed.

(** ** From a run to the storage and to the detector *)

Lemma ForallOrdPairs_impl_In {A : Type} (R Q : A -> A -> Prop) (l : list A) :
  (forall a b, In a l -> In b l -> R a b -> Q a b) ->
  ForallOrdPairs R l -> ForallOrdPairs Q l.
Proof.
  intros Himpl Hl. induction Hl as [|x l Hx Hl IH]; [constructor|].
  constructor.
  - apply List.Forall_forall. intros y Hy.
    rewrite List.Forall_forall in Hx.
    apply Himpl; [now left | now right | now apply Hx].
  - apply IH. intros a b Ha Hb. apply Himpl; now right.
Qed.

Lemma ForallOrdPairs_app {A : Type} (R : A -> A -> Prop) (l1 l2 : list A) :
  ForallOrdPairs R l1 -> ForallOrdPairs R l2 ->
  (forall a b, In a l1 -> In b l2 -> R a b) ->
  ForallOrdPairs R (l1 ++ l2).
Proof.
  intros H1 H2 Hcross. induction H1 as [|x l Hx Hl IH]; cbn; [assumption|].
  constructor.
  - apply Forall_app. split; [assumption|].
    apply List.Forall_forall. intros y Hy. apply Hcross; [now left | assumption].
  - apply IH. intros a b Ha Hb. apply Hcross; [now right | assumption].
Qed.

Lemma unique_rows_spec (rows : list TimeSlot.t) :
  unique_rows rows = true <-> ForallOrdPairs distinct_keys rows.
Proof.
  induction rows as [|r rest IH]; cbn [unique_rows].
  - split; [constructor | reflexivity].
  - rewrite andb_true_iff, negb_true_iff, IH. split.
    + intros [Hnone Hrest]. constructor; [|assumption].
      apply List.Forall_forall. intros o Ho.
      pose proof (existsb_false_In _ _ o Hnone Ho) as Hkeys. cbv beta in Hkeys.
      now apply orb_false_iff in Hkeys.
    + intros Hall. inversion Hall as [|? ? Hr Hrest]; subst.
      split; [|assumption].
      destruct (existsb _ rest) eqn:Hex; [|reflexivity].
      apply existsb_exists in Hex as [o [Ho Hkeys]].
      rewrite List.Forall_forall in Hr. destruct (Hr o Ho) as [H1 H2].
      now rewrite H1, H2 in Hkeys.
Qed.

(** Two rows with non-empty windows that are not double booked differ in
    the key of each uniqueness constraint. *)
Lemma clear_distinct_keys (a b : TimeSlot.t) :
  nonempty_window a -> nonempty_window b -> ~ double_booked a b ->
  distinct_keys a b.
Proof.
  unfold nonempty_window, distinct_keys, same_room_time, same_teacher_time.
  intros Ha Hb Hclear.
  assert (Hover : TimeSlot.start_time a = TimeSlot.start_time b ->
                  windows_overlap a b).
  { intros Hs. unfold windows_overlap. apply is_overlap_spec. lia. }
  split.
  - destruct (_ && _ && _) eqn:Hkey; [|reflexivity].
    apply andb_true_iff in Hkey as [Hkey Hs].
    apply andb_true_iff in Hkey as [Hr Hd].
    rewrite Z.eqb_eq in Hr, Hd, Hs.
    exfalso. apply Hclear. left. repeat split; auto.
  - destruct (_ && _ && _) eqn:Hkey; [|reflexivity].
    apply andb_true_iff in Hkey as [Hkey Hs].
    apply andb_true_iff in Hkey as [Ht Hd].
    rewrite Z.eqb_eq in Ht, Hd, Hs.
    exfalso. apply Hclear. right; left. repeat split; auto.
Qed.

(** On non-empty windows, a pair the detector would report is a double
    booked pair. *)
Lemma detector_conflict_double_booked (a b : TimeSlot.t) :
  nonempty_window a -> nonempty_window b ->
  detector_conflict a b -> double_booked a b.
Proof.
  unfold nonempty_window, detector_conflict.
  intros Ha Hb (Hday & Hcross & Hsame).
  assert (Hover : windows_overlap a b).
  { unfold windows_overlap. apply is_overlap_spec.
    unfold windows_cross in Hcross. apply crosses_spec in Hcross. lia. }
  destruct Hsame as [Hr|[Ht|[Hn Hg]]].
  - left. now repeat split.
  - right; left. now repeat split.
  - right; right. now repeat split.
Qed.

Section RunAndStore.
Context `{RandomSource}.
Variable department_id : Z.
Variable semester : Z.
Variable group_id : Z.
Variable db : Database.
Variable g : rng.

Hypothesis Htargets : targets_within_day (init department_id semester group_id) db.

Lemma generated_nonempty :
  Forall nonempty_window
    (generated_of (generate (init department_id semester group_id) db g).1.1).
Proof.
  eapply List.Forall_impl; [|apply generated_from_grid].
  intros slot Hslot. now apply from_grid_within_day in Hslot.
Qed.

Lemma stored_and_generated_unique :
  Forall nonempty_window (db_timeslots db) ->
  unique_rows (db_timeslots db) = true ->
  unique_rows
    (db_timeslots db
     ++ generated_of (generate (init department_id semester group_id) db g).1.1)
  = true.
Proof.
  intros Hstored Hunique.
  pose proof generated_nonempty as Hnew.
  destruct (generate_clear_run department_id semester group_id db g)
    as [Hpairs Hrows].
  rewrite List.Forall_forall in Hstored, Hnew, Hrows.
  apply unique_rows_spec. apply ForallOrdPairs_app.
  - now apply unique_rows_spec.
  - apply (ForallOrdPairs_impl_In (fun a b => ~ double_booked a b));
      [|assumption].
    intros a b Ha Hb. apply clear_distinct_keys; auto.
  - intros a b Ha Hb. apply clear_distinct_keys; auto.
    intros Hbooked. apply double_booked_sym in Hbooked.
    specialize (Hrows b Hb). rewrite List.Forall_forall in Hrows.
    now apply (Hrows a Ha).
Qed.
End RunAndStore.

(** X6: when the courses of the targeted groups last less than seven
    hours and the stored rows have non-empty windows and satisfy the two
    uniqueness constraints of the table, so do the stored rows together
    with the slots of a run: saving them is not refused by a constraint,
    returns their count and commits them after the stored rows. *)
Theorem X6_run_can_be_saved `{RandomSource}
    (department_id semester group_id : Z) (db : Database) (g : rng) :
  targets_within_day (init department_id semester group_id) db ->
  Forall nonempty_window (db_timeslots db) ->
  unique_rows (db_timeslots db) = true ->
  let generator := (generate (init department_id semester group_id) db g).1.2 in
  let s := {| committed := db_timeslots db; pending := [] |} in
  (save_timetable unique_constraints_ok generator s).1.1
  = Z.of_nat (length (TimetableGenerator.generated_slots generator))
  /\ committed (save_timetable unique_constraints_ok generator s).2
     = db_timeslots db ++ TimetableGenerator.generated_slots generator.
Proof.
  intros Htargets Hstored Hunique generator s.
  assert (Hok : unique_constraints_ok
                  (fold_left session_add
                     (TimetableGenerator.generated_slots generator) s) = true).
  { rewrite fold_session_add. unfold unique_constraints_ok, generator, s.
    cbn [committed pending app]. rewrite generate_self_slots.
    now apply stored_and_generated_unique. }
  unfold save_timetable, session_commit. rewrite Hok. cbn [fst snd committed].
  split; [reflexivity|]. now rewrite fold_session_add.
Qed.

(** One stored row of teacher 2 in the Lab room, and a run for INFO-1. *)
Lemma X6_run_can_be_saved_witness :
  let rows := [stored 1 2 11 200 1 0 (mk_time 8 0) (mk_time 9 0)] in
  let generator :=
    (generate (init 7 1 0) (catalog rows []) (tt : @rng identity_source)).1.2 in
  (save_timetable unique_constraints_ok generator
     {| committed := rows; pending := [] |}).1.1 = 3.
Proof.
  intros rows generator.
  assert (Htargets : targets_within_day (init 7 1 0) (catalog rows []))
    by (repeat constructor; cbn; lia).
  assert (Hstored : Forall nonempty_window (db_timeslots (catalog rows [])))
    by (repeat constructor).
  destruct (X6_run_can_be_saved 7 1 0 (catalog rows [])
              (tt : @rng identity_source) Htargets Hstored eq_refl)
    as [Hcount _].
  exact Hcount.
Defined.

(** X7: under the same conditions on the durations and on the stored
    rows, no pair made of a slot of the run and another slot of the run
    or a stored row is one the detector would report as a room, teacher
    or group conflict, although the detector tests the windows by its
    own two comparisons. *)
Theorem X7_run_adds_no_detector_conflict `{RandomSource}
    (department_id semester group_id : Z) (db : Database) (g : rng) :
  targets_within_day (init department_id semester group_id) db ->
  Forall nonempty_window (db_timeslots db) ->
  let new := generated_of (generate (init department_id semester group_id) db g).1.1 in
  forall (i j : nat) (a b : TimeSlot.t),
    i <> j -> (i < length new \/ j < length new)%nat ->
    nth_error (new ++ db_timeslots db) i = Some a ->
    nth_error (new ++ db_timeslots db) j = Some b ->
    ~ detector_conflict a b.
Proof.
  intros Htargets Hstored new i j a b Hne Hbelow Ha Hb Hconf.
  assert (Hall : Forall nonempty_window (new ++ db_timeslots db)).
  { apply Forall_app. split; [|assumption].
    now apply generated_nonempty. }
  rewrite List.Forall_forall in Hall.
  apply (clear_run_no_double_booking db new
           (generate_clear_run department_id semester group_id db g)
           i j a b Hne Hbelow Ha Hb).
  apply detector_conflict_double_booked; [| |assumption];
    apply Hall; eapply nth_error_In; eassumption.
Qed.

(** The second slot of a run for INFO-1, in the Lab room on Monday at
    09:00, against the stored row of the Lab room on Monday at 08:00. *)
Lemma X7_run_adds_no_detector_conflict_witness :
  ~ detector_conflict
      {| TimeSlot.id := None; TimeSlot.teacher_id := 1; TimeSlot.course_id := 11;
         TimeSlot.group_id := Some 100; TimeSlot.room_id := 1;
         TimeSlot.day_of_week := 0;
         TimeSlot.start_time := mk_time 9 0; TimeSlot.end_time := mk_time 10 0;
         TimeSlot.is_locked := None |}
      (stored 1 2 11 200 1 0 (mk_time 8 0) (mk_time 9 0)).
Proof.
  set (rows := [stored 1 2 11 200 1 0 (mk_time 8 0) (mk_time 9 0)]).
  assert (Htargets : targets_within_day (init 7 1 0) (catalog rows []))
    by (repeat constructor; cbn; lia).
  assert (Hstored : Forall nonempty_window (db_timeslots (catalog rows [])))
    by (repeat constructor).
  apply (X7_run_adds_no_detector_conflict 7 1 0 (catalog rows [])
           (tt : @rng identity_source) Htargets Hstored 1%nat 3%nat);
    [lia | left; vm_compute; lia | reflexivity | reflexivity].
Defined.

(** ** The two availability tests *)

Lemma generated_prefs_accepted `{RandomSource}
    (department_id semester group_id : Z) (db : Database) (g : rng) :
  Forall
    (fun slot =>
       check_teacher_preferences db (TimeSlot.teacher_id slot)
         (TimeSlot.day_of_week slot) (TimeSlot.start_time slot)
         (TimeSlot.end_time slot) = true)
    (generated_of (generate (init department_id semester group_id) db g).1.1).
Proof.
  apply generated_Forall_placed.
  intros self group course rooms day s slot _ _ _ Hplaced.
  now destruct Hplaced as [room teacher _ _ _ _ _ _ Hprefs].
Qed.

Lemma single_window_valid (db : Database) (slot : TimeSlot.t)
    (a : TeacherAvailability.t) :
  windows_of_day db slot = [a] ->
  check_teacher_preferences db (TimeSlot.teacher_id slot)
    (TimeSlot.day_of_week slot) (TimeSlot.start_time slot)
    (TimeSlot.end_time slot) = is_valid db slot.
Proof.
  intros Hsingle. unfold is_valid. rewrite first_availability_windows.
  unfold check_teacher_preferences. fold (windows_of_day db slot).
  rewrite Hsingle. cbn. apply orb_false_r.
Qed.

(** X8: how the detector's availability test judges the slots of a run:
    a generated slot whose teacher has declared no window at all fails it
    (the generator placed it because nothing was declared), and a
    generated slot whose teacher has a single window for that day passes
    it. *)
Theorem X8_generated_slots_and_availability `{RandomSource}
    (department_id semester group_id : Z) (db : Database) (g : rng)
    (slot : TimeSlot.t) :
  In slot (generated_of (generate (init department_id semester group_id) db g).1.1) ->
  (declares_nothing db (TimeSlot.teacher_id slot) -> is_valid db slot = false)
  /\ (forall a, windows_of_day db slot = [a] -> is_valid db slot = true).
Proof.
  intros Hin. split.
  - intros Hnone. unfold is_valid. rewrite first_availability_windows.
    now rewrite declares_nothing_no_window.
  - intros a Hsingle. rewrite <- (single_window_valid db slot a Hsingle).
    pose proof (generated_prefs_accepted department_id semester group_id db g)
      as Hall.
    rewrite List.Forall_forall in Hall. now apply Hall.
Qed.

(** The slot of Algorithmique, placed on Monday at 08:00 for a teacher
    without windows and for a teacher with one window that day. *)
Lemma X8_generated_slots_and_availability_witness :
  let slot :=
    {| TimeSlot.id := None; TimeSlot.teacher_id := 1; TimeSlot.course_id := 10;
       TimeSlot.group_id := Some 100; TimeSlot.room_id := 2;
       TimeSlot.day_of_week := 0;
       TimeSlot.start_time := mk_time 8 0; TimeSlot.end_time := mk_time 9 0;
       TimeSlot.is_locked := None |} in
  is_valid (catalog [] []) slot = false
  /\ is_valid (catalog [] [window 1 1 0 (mk_time 8 0) (mk_time 12 0) true]) slot
     = true.
Proof.
  intros slot. split.
  - destruct (X8_generated_slots_and_availability 7 1 0 (catalog [] [])
                (tt : @rng identity_source) slot) as [Hnone _].
    + now left.
    + apply Hnone. intros a [].
  - destruct (X8_generated_slots_and_availability 7 1 0
                (catalog [] [window 1 1 0 (mk_time 8 0) (mk_time 12 0) true])
                (tt : @rng identity_source) slot) as [_ Hone].
    + now left.
    + now apply (Hone (window 1 1 0 (mk_time 8 0) (mk_time 12 0) true)).
Defined.

(** ** The other checks of the detector *)

Lemma filter_type_all {A : Type} (ty : string) (f : A -> Conflict) (l : list A) :
  (forall x, conflict_type (f x) = ty) ->
  List.filter (has_type ty) (map f l) = map f l.
Proof.
  intros Hty. rewrite (filter_type_map ty ty f l Hty).
  now rewrite String.eqb_refl.
Qed.

Lemma appends_of (ty : string) (fresh : list Conflict)
    (detect : list Conflict -> list Conflict * list Conflict) :
  (forall self, (detect self).1 = self ++ fresh) ->
  (forall self, (detect self).2 = List.filter (has_type ty) (detect self).1) ->
  List.filter (has_type ty) fresh = fresh ->
  appends ty fresh detect.
Proof.
  intros Hfirst Hsecond Hfresh self. split; [apply Hfirst|].
  now rewrite Hsecond, Hfirst, List.filter_app, Hfresh.
Qed.

(** For rows whose relations resolve, each method of the detector adds
    its entries after the ones the object already holds and returns all
    the entries of its type the object then holds. *)
Lemma detect_methods_append (db : Database) :
  appends "room_conflict" (fresh_room db) (fun self => detect_room_conflicts self db)
  /\ appends "teacher_conflict" (fresh_teacher db)
       (fun self => detect_teacher_conflicts self db)
  /\ appends "group_conflict" (fresh_group db)
       (fun self => detect_group_conflicts self db)
  /\ appends "availability_conflict" (fresh_availability db)
       (fun self => detect_availability_conflicts self db)
  /\ appends "workload_conflict" (fresh_workload db)
       (fun self => detect_workload_violations self db)
  /\ appends "capacity_conflict" (fresh_capacity db)
       (fun self => detect_capacity_conflicts self db)
  /\ (detect_room_conflicts (detect_room_conflicts [] db).1 db).2
     = (detect_room_conflicts [] db).2 ++ (detect_room_conflicts [] db).2.
Proof.
  assert (Hroom : appends "room_conflict" (fresh_room db)
                    (fun self => detect_room_conflicts self db)).
  { apply appends_of; [| reflexivity | now apply filter_type_all].
    intros self. unfold detect_room_conflicts. cbn [fst].
    now rewrite (pairwise_check_entries (E:=Conflict)). }
  split; [exact Hroom|].
  split; [|split; [|split; [|split; [|split]]]].
  - apply appends_of; [| reflexivity | now apply filter_type_all].
    intros self. unfold detect_teacher_conflicts. cbn [fst].
    now rewrite (pairwise_check_entries (E:=Conflict)).
  - apply appends_of; [| reflexivity | now apply filter_type_all].
    intros self. unfold detect_group_conflicts. cbn [fst].
    now rewrite (pairwise_check_entries (E:=Conflict)).
  - apply appends_of; [reflexivity | reflexivity | now apply filter_type_all].
  - apply appends_of; [reflexivity | reflexivity | now apply filter_type_all].
  - apply appends_of; [reflexivity | reflexivity | now apply filter_type_all].
  - destruct (Hroom []) as [H1 H2]. cbn [fst snd] in H1, H2.
    destruct (Hroom (detect_room_conflicts [] db).1) as [_ H3].
    cbn [fst snd] in H3. rewrite H3, H1, H2. cbn [app List.filter].
    unfold fresh_room. now rewrite filter_type_all.
Qed.

Lemma report_fresh (db : Database) :
  Report.conflicts (detect_all_conflicts db)
  = fresh_room db ++ fresh_teacher db ++ fresh_group db
    ++ fresh_availability db ++ fresh_workload db ++ fresh_capacity db.
Proof.
  rewrite report_conflicts. reflexivity.
Qed.

Lemma report_other_types (db : Database) :
  List.filter (has_type "group_conflict") (Report.conflicts (detect_all_conflicts db))
  = fresh_group db
  /\ List.filter (has_type "workload_conflict")
       (Report.conflicts (detect_all_conflicts db))
     = fresh_workload db
  /\ List.filter (has_type "capacity_conflict")
       (Report.conflicts (detect_all_conflicts db))
     = fresh_capacity db.
Proof.
  rewrite report_fresh.
  unfold fresh_room, fresh_teacher, fresh_group, fresh_availability,
    fresh_workload, fresh_capacity.
  repeat split; rewrite !List.filter_app;
    rewrite (filter_type_map _ "room_conflict" (room_entry db)) by reflexivity;
    rewrite (filter_type_map _ "teacher_conflict" (teacher_entry db)) by reflexivity;
    rewrite (filter_type_map _ "group_conflict" (group_entry db)) by reflexivity;
    rewrite (filter_type_map _ "availability_conflict" (availability_entry db))
      by reflexivity;
    rewrite (filter_type_map _ "workload_conflict" (workload_entry db))
      by reflexivity;
    rewrite (filter_type_map _ "capacity_conflict" (capacity_entry db))
      by reflexivity;
    cbn [String.eqb Ascii.eqb Bool.eqb app];
    now rewrite ?app_nil_r.
Qed.

(** The pairs the group check reports: a reported pair is made of two
    stored rows with different ids, the same non-null group, the same day
    and crossing windows; and two such rows of a group whose id is not 0
    are reported under their sorted pair of ids exactly once. *)
Lemma group_pairs_once (db : Database) :
  List.filter (has_type "group_conflict") (Report.conflicts (detect_all_conflicts db))
  = map (group_entry db) (group_pairs db)
  /\ Forall
       (fun p =>
          conflicting same_group db p
          /\ TimeSlot.group_id p.1 <> None
          /\ TimeSlot.group_id p.1 = TimeSlot.group_id p.2)
       (group_pairs db)
  /\ forall a b group,
       In a (db_timeslots db) -> In b (db_timeslots db) -> pk a <> pk b ->
       group <> 0 ->
       TimeSlot.group_id a = Some group -> TimeSlot.group_id b = Some group ->
       TimeSlot.day_of_week a = TimeSlot.day_of_week b ->
       windows_cross a b = true ->
       reports_of (pair_key (pk a) (pk b)) (group_pairs db) = 1%nat.
Proof.
  destruct (report_other_types db) as (Hgroup & _ & _).
  destruct (pairwise_check_once same_group has_group db) as [Hall Honce].
  split; [exact Hgroup|]. split.
  - eapply List.Forall_impl; [|exact Hall].
    intros [x y] Hconf. split; [exact Hconf|].
    destruct Hconf as (_ & _ & _ & Hsame & _). cbn [fst snd] in *.
    unfold same_group in Hsame.
    destruct (TimeSlot.group_id y) as [gy|]; [|discriminate].
    destruct (TimeSlot.group_id x) as [gx|]; [|discriminate].
    apply Z.eqb_eq in Hsame. split; congruence.
  - intros a b group Ha Hb Hpk Hgroup0 Hga Hgb Hday Hcross.
    apply Honce; [assumption | |].
    + unfold has_group. rewrite Hga. now apply negb_true_iff, Z.eqb_neq.
    + unfold conflicting, same_group. cbn [fst snd]. rewrite Hga, Hgb.
      repeat split; auto. apply Z.eqb_refl.
Qed.



(** X13: the capacity check compares the capacity of the room with 30
    for every stored row whose group resolves, whatever the size of the
    group, and with 0 for the other rows; a row is reported exactly when
    its room is smaller than that number. *)
Theorem X13_capacity_against_thirty (db : Database) :
  List.filter (has_type "capacity_conflict")
    (Report.conflicts (detect_all_conflicts db))
  = map (capacity_entry db) (capacity_flagged db)
  /\ forall slot,
       In slot (capacity_flagged db)
       <-> In slot (db_timeslots db)
           /\ ((group_of db slot <> None /\ room_capacity db slot < 30)
               \/ (group_of db slot = None /\ room_capacity db slot < 0)).
Proof.
  destruct (report_other_types db) as (_ & _ & Hcap).
  split; [exact Hcap|].
  intros slot. unfold capacity_flagged, students_count.
  rewrite filter_In, Z.ltb_lt.
  destruct (group_of db slot) as [grp|]; intuition congruence.
Qed.

Lemma filter_const_map {A B : Type} (p : B -> bool) (f : A -> B) (l : list A)
    (b : bool) :
  (forall x, p (f x) = b) ->
  List.filter p (map f l) = if b then map f l else [].
Proof.
  intros Hp. induction l as [|x rest IH]; cbn [map List.filter].
  - now destruct b.
  - rewrite Hp, IH. now destruct b.
Qed.

Lemma count_severity_app (sev : string) (l1 l2 : list Conflict) :
  count_severity sev (l1 ++ l2) = count_severity sev l1 + count_severity sev l2.
Proof.
  unfold count_severity. rewrite List.filter_app, List.length_app. lia.
Qed.

Lemma count_severity_map {A : Type} (sev sev' : string) (f : A -> Conflict)
    (l : list A) :
  (forall x, severity (f x) = sev') ->
  count_severity sev (map f l)
  = if String.eqb sev' sev then Z.of_nat (length l) else 0.
Proof.
  intros Hsev. unfold count_severity.
  rewrite (filter_const_map _ f l (String.eqb sev' sev)).
  - destruct (String.eqb sev' sev); [now rewrite length_map | reflexivity].
  - intros x. now rewrite Hsev.
Qed.

(** X14: in a report the three counts by severity add up to the total;
    the critical count is the number of reported room, teacher and group
    pairs, the high count the number of rows flagged for availability or
    capacity, and the medium count the number of groups flagged for their
    workload. *)
Theorem X14_report_counts (db : Database) :
  Report.total_conflicts (detect_all_conflicts db)
  = Report.critical (detect_all_conflicts db)
    + Report.high (detect_all_conflicts db)
    + Report.medium (detect_all_conflicts db)
  /\ Report.total_conflicts (detect_all_conflicts db)
     = Z.of_nat (length (Report.conflicts (detect_all_conflicts db)))
  /\ Report.critical (detect_all_conflicts db)
     = Z.of_nat (length (room_pairs db) + length (teacher_pairs db)
                 + length (group_pairs db))
  /\ Report.high (detect_all_conflicts db)
     = Z.of_nat (length (availability_flagged db) + length (capacity_flagged db))
  /\ Report.medium (detect_all_conflicts db)
     = Z.of_nat (length (workload_flagged db)).
Proof.
  assert (Hc : forall sev,
             count_severity sev (Report.conflicts (detect_all_conflicts db))
             = (if String.eqb "critical" sev
                then Z.of_nat (length (room_pairs db) + length (teacher_pairs db)
                               + length (group_pairs db))
                else 0)
               + (if String.eqb "high" sev
                  then Z.of_nat (length (availability_flagged db)
                                 + length (capacity_flagged db))
                  else 0)
               + (if String.eqb "medium" sev
                  then Z.of_nat (length (workload_flagged db))
                  else 0)).
  { intros sev. rewrite report_fresh, !count_severity_app.
    unfold fresh_room, fresh_teacher, fresh_group, fresh_availability,
      fresh_workload, fresh_capacity.
    rewrite (count_severity_map sev "critical" (room_entry db)) by reflexivity.
    rewrite (count_severity_map sev "critical" (teacher_entry db)) by reflexivity.
    rewrite (count_severity_map sev "critical" (group_entry db)) by reflexivity.
    rewrite (count_severity_map sev "high" (availability_entry db)) by reflexivity.
    rewrite (count_severity_map sev "medium" (workload_entry db)) by reflexivity.
    rewrite (count_severity_map sev "high" (capacity_entry db)) by reflexivity.
    destruct (String.eqb "critical" sev), (String.eqb "high" sev),
      (String.eqb "medium" sev); lia. }
  assert (Hcritical := Hc "critical"%string).
  assert (Hhigh := Hc "high"%string).
  assert (Hmedium := Hc "medium"%string).
  cbn [String.eqb Ascii.eqb Bool.eqb] in Hcritical, Hhigh, Hmedium.
  assert (Htotal : Report.total_conflicts (detect_all_conflicts db)
                   = Z.of_nat (length (Report.conflicts (detect_all_conflicts db))))
    by reflexivity.
  change (Report.critical (detect_all_conflicts db))
    with (count_severity "critical" (Report.conflicts (detect_all_conflicts db))).
  change (Report.high (detect_all_conflicts db))
    with (count_severity "high" (Report.conflicts (detect_all_conflicts db))).
  change (Report.medium (detect_all_conflicts db))
    with (count_severity "medium" (Report.conflicts (detect_all_conflicts db))).
  rewrite Hcritical, Hhigh, Hmedium, Htotal.
  repeat split; try lia.
  rewrite report_fresh.
  unfold fresh_room, fresh_teacher, fresh_group, fresh_availability,
    fresh_workload, fresh_capacity.
  rewrite !List.length_app, !length_map. lia.
Qed.

(** ** The exporter *)

Lemma fold_times_elem (slots : list TimeSlot.t) (acc : gset Z) (t : Z) :
  t ∈ fold_left (fun times slot => {[ TimeSlot.start_time slot ]} ∪ times) slots acc
  <-> t ∈ acc \/ exists slot, In slot slots /\ TimeSlot.start_time slot = t.
Proof.
  revert acc. induction slots as [|s rest IH]; intros acc; cbn [fold_left].
  - split; [now left | intros [Hacc|[slot [[] _]]]; assumption].
  - rewrite IH, elem_of_union, elem_of_singleton. split.
    + intros [[Heq|Hacc]|[slot [Hin Hs]]].
      * right. exists s. split; [now left | congruence].
      * now left.
      * right. exists slot. split; [now right | assumption].
    + intros [Hacc|[slot [[<-|Hin] Hs]]].
      * left. now right.
      * left. left. congruence.
      * right. now exists slot.
Qed.

Lemma sorted_distinct_strict (l : list Z) :
  StronglySorted Z.le l -> NoDup l -> StronglySorted Z.lt l.
Proof.
  induction 1 as [|x l Hl IH Hx]; intros Hnodup; [constructor|].
  apply NoDup_cons in Hnodup as [Hfresh Hnodup].
  constructor; [now apply IH|].
  apply List.Forall_forall. intros y Hy.
  rewrite List.Forall_forall in Hx. specialize (Hx y Hy).
  assert (x <> y).
  { intros ->. apply Hfresh. now apply list_elem_of_In. }
  lia.
Qed.

(** X15: [_get_unique_times] returns the start times of the slots, each
    one once, in strictly ascending order. *)
Theorem X15_unique_times_sorted (self : TimetableExporter.t) :
  StronglySorted Z.lt (_get_unique_times self)
  /\ forall t,
       In t (_get_unique_times self)
       <-> exists slot,
             In slot (TimetableExporter.timeslots self)
             /\ TimeSlot.start_time slot = t.
Proof.
  unfold _get_unique_times. split.
  - apply sorted_distinct_strict.
    + apply StronglySorted_merge_sort; apply _.
    + rewrite merge_sort_Permutation. apply NoDup_elements.
  - intros t. rewrite <- list_elem_of_In, merge_sort_Permutation.
    rewrite elem_of_elements, fold_times_elem.
    split; [intros [Hempty|Hslot] | intros Hslot; now right].
    + now apply elem_of_empty in Hempty.
    + assumption.
Qed.

Lemma append_empty (a b : string) :
  String.append a b = EmptyString -> a = EmptyString /\ b = EmptyString.
Proof.
  destruct a; cbn; [now split | discriminate].
Qed.

Lemma cell_text_not_empty (rel : Loaded) (slot : TimeSlot.t) :
  cell_text rel slot <> EmptyString.
Proof.
  unfold cell_text. intros Hempty.
  apply append_empty in Hempty as [_ Hrest].
  apply append_empty in Hrest as [Hnl _]. discriminate.
Qed.

Lemma slots_at_weekdays (self : TimetableExporter.t) (day : Z) (t : time) :
  0 <= day <= 4 ->
  slots_at (weekdays_only self) day t = slots_at self day t.
Proof.
  intros Hday. unfold slots_at, weekdays_only. cbn [TimetableExporter.timeslots].
  induction (TimetableExporter.timeslots self) as [|s rest IH];
    cbn [List.filter]; [reflexivity|].
  destruct ((TimeSlot.day_of_week s =? day) && (TimeSlot.start_time s =? t))
    eqn:Hkey.
  - apply andb_true_iff in Hkey as [Hd Ht]. apply Z.eqb_eq in Hd.
    replace ((0 <=? TimeSlot.day_of_week s) && (TimeSlot.day_of_week s <=? 4))
      with true
      by (symmetry; apply andb_true_iff; split; apply Z.leb_le; lia).
    cbn [List.filter]. apply Z.eqb_eq in Hd. now rewrite Hd, Ht, IH.
  - destruct ((0 <=? TimeSlot.day_of_week s) && (TimeSlot.day_of_week s <=? 4));
      [cbn [List.filter]; now rewrite Hkey, IH | exact IH].
Qed.

(** X16: the table of the PDF has the header row and one row of six
    cells for each start time; a cell is empty exactly when no slot has
    its day and start time; the cells are those of the slots of the five
    days Monday to Friday alone, so a slot of Saturday or Sunday gives its
    start time a row and is shown in no cell; and a slot of those five
    days that no other slot shares its day and start time with is shown
    in its cell. *)
Theorem X16_table_of_five_days (rel : Loaded) (self : TimetableExporter.t) :
  length (_create_table_data rel self) = S (length (_get_unique_times self))
  /\ Forall (fun row => length row = 6%nat) (_create_table_data rel self)
  /\ (forall t day,
        table_cell rel self t day = EmptyString
        <-> forall slot,
              In slot (TimetableExporter.timeslots self) ->
              ~ (TimeSlot.day_of_week slot = day /\ TimeSlot.start_time slot = t))
  /\ (forall t, table_row rel (weekdays_only self) t = table_row rel self t)
  /\ (forall slot,
        In slot (TimetableExporter.timeslots self) ->
        (forall other,
           In other (TimetableExporter.timeslots self) ->
           TimeSlot.day_of_week other = TimeSlot.day_of_week slot ->
           TimeSlot.start_time other = TimeSlot.start_time slot ->
           other = slot) ->
        table_cell rel self (TimeSlot.start_time slot) (TimeSlot.day_of_week slot)
        = cell_text rel slot).
Proof.
  split; [|split; [|split; [|split]]].
  - unfold _create_table_data. cbn [length]. now rewrite length_map.
  - unfold _create_table_data. constructor; [reflexivity|].
    apply List.Forall_forall. intros row Hrow.
    apply in_map_iff in Hrow as [t [<- _]]. reflexivity.
  - intros t day. unfold table_cell.
    destruct (slots_at self day t) as [|slot rest] eqn:Hslots.
    + split; [|reflexivity]. intros _ slot Hin [Hd Ht].
      assert (Hs : In slot (slots_at self day t)).
      { unfold slots_at. apply filter_In. split; [assumption|].
        apply andb_true_iff. split; now apply Z.eqb_eq. }
      rewrite Hslots in Hs. destruct Hs.
    + split; [intros Hempty; now apply cell_text_not_empty in Hempty|].
      intros Hnone. exfalso.
      assert (Hs : In slot (slots_at self day t)) by (rewrite Hslots; now left).
      unfold slots_at in Hs. apply filter_In in Hs as [Hin Hkey].
      apply andb_true_iff in Hkey as [Hd Ht].
      apply (Hnone slot Hin). split; now apply Z.eqb_eq.
  - intros t. unfold table_row. f_equal. unfold table_cell. cbn [map].
    rewrite !slots_at_weekdays by lia. reflexivity.
  - intros slot Hin Hunique. unfold table_cell.
    destruct (slots_at self (TimeSlot.day_of_week slot) (TimeSlot.start_time slot))
      as [|first rest] eqn:Hslots.
    + exfalso.
      assert (Hs : In slot (slots_at self (TimeSlot.day_of_week slot)
                              (TimeSlot.start_time slot))).
      { unfold slots_at. apply filter_In. split; [assumption|].
        now rewrite !Z.eqb_refl. }
      rewrite Hslots in Hs. destruct Hs.
    + assert (Hs : In first (slots_at self (TimeSlot.day_of_week slot)
                               (TimeSlot.start_time slot)))
        by (rewrite Hslots; now left).
      unfold slots_at in Hs. apply filter_In in Hs as [Hfirst Hkey].
      apply andb_true_iff in Hkey as [Hd Ht]. rewrite Z.eqb_eq in Hd, Ht.
      now rewrite (Hunique first Hfirst Hd Ht).
Qed.

(** A slot of Saturday next to a slot of Monday. *)
Lemma X16_table_of_five_days_witness :
  let rel := {| course_code := fun s => str_of_Z (TimeSlot.course_id s);
                room_code := fun s => str_of_Z (TimeSlot.room_id s);
                course_teachers := fun _ => [ada] |} in
  let monday := stored 1 1 10 100 2 0 (mk_time 9 0) (mk_time 10 0) in
  let saturday := stored 2 1 11 100 1 5 (mk_time 8 0) (mk_time 9 0) in
  let self := {| TimetableExporter.timeslots := [saturday; monday];
                 TimetableExporter.title := "Emploi du Temps" |} in
  table_cell rel self (mk_time 9 0) 0 = cell_text rel monday
  /\ _create_table_data rel self
     = [["Heure"; "Lundi"; "Mardi"; "Mercredi"; "Jeudi"; "Vendredi"];
        ["08:00:00"; ""; ""; ""; ""; ""];
        ["09:00:00"; cell_text rel monday; ""; ""; ""; ""]]%string.
Proof.
  intros rel monday saturday self. split.
  - destruct (X16_table_of_five_days rel self) as (_ & _ & _ & _ & Hshown).
    apply (Hshown monday).
    + right; now left.
    + intros other [<-|[<-|[]]] Hd Ht; [discriminate Hd | reflexivity].
  - vm_compute. reflexivity.
Defined.

(** ** The rows of the CSV *)






(** ** Editing a stored slot *)

Lemma head_filter_None {A : Type} (f : A -> bool) (l : list A) :
  head (List.filter f l) = None <-> forall x, In x l -> f x = false.
Proof.
  induction l as [|a rest IH]; cbn [List.filter].
  - split; [intros _ x [] | reflexivity].
  - destruct (f a) eqn:Hfa; cbn [head].
    + split; [discriminate|]. intros Hall.
      specialize (Hall a (or_introl eq_refl)). congruence.
    + rewrite IH. split.
      * intros Hall x [<-|Hin]; [assumption | now apply Hall].
      * intros Hall x Hin. apply Hall. now right.
Qed.

Lemma head_filter_Some {A : Type} (f : A -> bool) (l : list A) (x : A) :
  head (List.filter f l) = Some x -> In x l /\ f x = true.
Proof.
  intros Hhead. apply filter_In.
  destruct (List.filter f l) as [|y rest]; [discriminate|].
  injection Hhead as ->. now left.
Qed.

(** X18: when the edit of a slot is accepted, the table keeps its rows
    with their ids, courses, groups and locks; the rows with another id
    are untouched, the row with the id has the values of the form; and no
    row with another id that has the new teacher or the new room on the
    new day crosses the new window. *)
Theorem X18_accepted_edit (commit_ok : list TimeSlot.t -> bool) (db : Database)
    (slot_id : Z) (form : EditForm) (rows : list TimeSlot.t)
    (flash : string * string) :
  edit_timeslot commit_ok db slot_id form = edit_updated rows flash ->
  Forall2
    (fun old new =>
       TimeSlot.id new = TimeSlot.id old
       /\ TimeSlot.course_id new = TimeSlot.course_id old
       /\ TimeSlot.group_id new = TimeSlot.group_id old
       /\ TimeSlot.is_locked new = TimeSlot.is_locked old
       /\ (pk old <> slot_id -> new = old)
       /\ (pk old = slot_id -> new = apply_form form old))
    (db_timeslots db) rows
  /\ forall other,
       In other rows -> pk other <> slot_id ->
       TimeSlot.day_of_week other = form_day_of_week form ->
       crosses (form_start_time form) (form_end_time form)
         (TimeSlot.start_time other) (TimeSlot.end_time other) = true ->
       TimeSlot.teacher_id other <> form_teacher_id form
       /\ TimeSlot.room_id other <> form_room_id form.
Proof.
  unfold edit_timeslot.
  destruct (find _ (db_timeslots db)) as [slot|] eqn:Hfind; [|discriminate].
  apply find_some in Hfind as [Hslot Hpk]. apply Z.eqb_eq in Hpk. rewrite Hpk.
  destruct (validate_on_submit db form); [|discriminate]. cbn [negb].
  destruct (teacher_query (db_timeslots db) slot_id form) eqn:Hteacher;
    [discriminate|].
  destruct (room_query (db_timeslots db) slot_id form) eqn:Hroom;
    [discriminate|].
  destruct (commit_ok _); [|discriminate].
  intros [= <- _]. split.
  - clear. induction (db_timeslots db) as [|row rest IH]; cbn [map];
      constructor; [|exact IH].
    destruct (Z.eqb_spec (pk row) slot_id) as [Heq|Hne].
    + cbn. repeat split; try reflexivity; congruence.
    + repeat split; congruence.
  - intros other Hin Hother Hday Hcross.
    apply in_map_iff in Hin as [row [Hrow Hin]].
    destruct (Z.eqb_spec (pk row) slot_id) as [Heq|Hne].
    + subst other. unfold pk in Hother, Heq. cbn in Hother. contradiction.
    + subst row.
      pose proof (proj1 (head_filter_None _ _) Hteacher other Hin) as Ht.
      pose proof (proj1 (head_filter_None _ _) Hroom other Hin) as Hr.
      cbv beta in Ht, Hr.
      unfold crosses in Hcross. apply andb_true_iff in Hcross as [Hc1 Hc2].
      apply Z.eqb_eq in Hday. apply Z.eqb_neq in Hother.
      rewrite Hday, Hc1, Hc2, Hother in Ht, Hr. cbn [negb] in Ht, Hr.
      rewrite !andb_true_r in Ht, Hr.
      split; now apply Z.eqb_neq.
Qed.

(** Moving the Monday row of a table of two rows to Wednesday. *)
Lemma X18_accepted_edit_witness :
  let db := catalog clashing_rows [] in
  let form := {| form_room_id := 2; form_teacher_id := 1; form_day_of_week := 2;
                 form_start_time := mk_time 8 0; form_end_time := mk_time 10 0 |} in
  Forall2
    (fun old new => pk old <> 1 -> new = old)
    clashing_rows
    [apply_form form (stored 1 1 10 200 2 0 (mk_time 8 0) (mk_time 10 0));
     stored 2 2 10 400 2 0 (mk_time 9 0) (mk_time 11 0)].
Proof.
  intros db form.
  destruct (X18_accepted_edit unique_rows db 1 form
              [apply_form form (stored 1 1 10 200 2 0 (mk_time 8 0) (mk_time 10 0));
               stored 2 2 10 400 2 0 (mk_time 9 0) (mk_time 11 0)]
              ("Créneau mis à jour avec succès"%string, "success"%string)
              eq_refl) as [Hrows _].
  eapply Forall2_impl; [exact Hrows|].
  intros old new (_ & _ & _ & _ & Hsame & _). exact Hsame.
Defined.

(** X19: once the form validates, another stored row of the chosen
    teacher that crosses the chosen window on the chosen day makes the
    route raise AttributeError: the message about the teacher is never
    flashed, and the only refusal that is flashed is the one about a busy
    room.  A form that asks for Monday does not validate, so the route
    shows the form again without looking at the table. *)
Theorem X19_teacher_conflict_raises (commit_ok : list TimeSlot.t -> bool)
    (db : Database) (slot_id : Z) (form : EditForm) :
  (forall other,
     find (fun row => pk row =? slot_id) (db_timeslots db) <> None ->
     validate_on_submit db form = true ->
     In other (db_timeslots db) -> pk other <> slot_id ->
     TimeSlot.teacher_id other = form_teacher_id form ->
     TimeSlot.day_of_week other = form_day_of_week form ->
     crosses (form_start_time form) (form_end_time form)
       (TimeSlot.start_time other) (TimeSlot.end_time other) = true ->
     edit_timeslot commit_ok db slot_id form = edit_raises "AttributeError")
  /\ (forall flash,
        edit_timeslot commit_ok db slot_id form = edit_refused flash ->
        exists busy,
          In busy (db_timeslots db)
          /\ pk busy <> slot_id
          /\ TimeSlot.room_id busy = form_room_id form
          /\ flash = room_busy_message db busy)
  /\ (find (fun row => pk row =? slot_id) (db_timeslots db) <> None ->
      form_day_of_week form = 0 ->
      edit_timeslot commit_ok db slot_id form = edit_form_shown).
Proof.
  unfold edit_timeslot. split; [|split].
  - intros other Hfound Hvalid Hin Hother Hteacher Hday Hcross.
    destruct (find _ (db_timeslots db)) as [slot|] eqn:Hfind; [|congruence].
    apply find_some in Hfind as [Hslot Hpk]. apply Z.eqb_eq in Hpk. rewrite Hpk.
    rewrite Hvalid. cbn [negb].
    destruct (teacher_query (db_timeslots db) slot_id form) eqn:Hquery;
      [reflexivity|].
    exfalso.
    pose proof (proj1 (head_filter_None _ _) Hquery other Hin) as Ht.
    cbv beta in Ht.
    unfold crosses in Hcross. apply andb_true_iff in Hcross as [Hc1 Hc2].
    apply Z.eqb_eq in Hteacher, Hday. apply Z.eqb_neq in Hother.
    now rewrite Hteacher, Hday, Hc1, Hc2, Hother in Ht.
  - intros flash.
    destruct (find _ (db_timeslots db)) as [slot|] eqn:Hfind; [|discriminate].
    apply find_some in Hfind as [Hslot Hpk]. apply Z.eqb_eq in Hpk. rewrite Hpk.
    destruct (validate_on_submit db form); [|discriminate]. cbn [negb].
    destruct (teacher_query (db_timeslots db) slot_id form); [discriminate|].
    destruct (room_query (db_timeslots db) slot_id form) as [busy|] eqn:Hroom.
    + intros [= <-]. apply head_filter_Some in Hroom as [Hin Hkey].
      repeat (apply andb_true_iff in Hkey as [Hkey ?]).
      exists busy. repeat split; try assumption.
      * now apply Z.eqb_neq, negb_true_iff.
      * now apply Z.eqb_eq.
    + destruct (commit_ok _); discriminate.
  - intros Hfound Hmonday.
    destruct (find _ (db_timeslots db)) as [slot|]; [|congruence].
    unfold validate_on_submit. rewrite Hmonday. cbn [Z.eqb negb].
    now rewrite andb_false_r.
Qed.

(** The Monday row of teacher 1 cannot be moved onto the Tuesday row of
    teacher 1: the request fails with the exception. *)
Lemma X19_teacher_conflict_raises_witness :
  edit_timeslot unique_rows
    (catalog [monday_row; stored 7 1 11 200 1 1 (mk_time 9 0) (mk_time 10 0)] [])
    1
    {| form_room_id := 2; form_teacher_id := 1; form_day_of_week := 1;
       form_start_time := mk_time 9 30; form_end_time := mk_time 10 30 |}
  = edit_raises "AttributeError".
Proof.
  destruct (X19_teacher_conflict_raises unique_rows
              (catalog [monday_row;
                        stored 7 1 11 200 1 1 (mk_time 9 0) (mk_time 10 0)] [])
              1
              {| form_room_id := 2; form_teacher_id := 1; form_day_of_week := 1;
                 form_start_time := mk_time 9 30;
                 form_end_time := mk_time 10 30 |}) as [Hraise _].
  apply (Hraise (stored 7 1 11 200 1 1 (mk_time 9 0) (mk_time 10 0)));
    [discriminate | reflexivity | right; now left | cbn; lia | reflexivity
    | reflexivity | reflexivity].
Defined.

(** ** The worksheet *)

Section Worksheet.
Variable rel : Loaded.
Variable self : TimetableExporter.t.

Lemma write_day_other (row_idx : Z) (t : time) (ws : gmap (Z * Z) string)
    (day r c : Z) :
  (r, c) <> (row_idx, day + 2) ->
  write_day rel self row_idx t ws day !! (r, c) = ws !! (r, c).
Proof.
  intros Hne. unfold write_day.
  destruct (slots_at self day t); [reflexivity|].
  now apply lookup_insert_ne.
Qed.

Lemma write_days_lookup (row_idx : Z) (t : time) (days : list Z)
    (ws : gmap (Z * Z) string) (r c : Z) :
  fold_left (write_day rel self row_idx t) days ws !! (r, c)
  = if (r =? row_idx) && existsb (fun day => day + 2 =? c) days
    then match slots_at self (c - 2) t with
         | slot :: _ => Some (cell_text rel slot)
         | [] => ws !! (r, c)
         end
    else ws !! (r, c).
Proof.
  revert ws. induction days as [|d rest IH]; intros ws;
    cbn [fold_left existsb].
  - now rewrite andb_false_r.
  - rewrite IH.
    destruct (Z.eqb_spec r row_idx) as [->|Hr]; cbn [andb].
    + destruct (Z.eqb_spec (d + 2) c) as [Hc|Hc]; cbn [orb].
      * replace (c - 2) with d by lia. subst c. unfold write_day.
        destruct (slots_at self d t) as [|slot others].
        -- now destruct (existsb _ rest).
        -- destruct (existsb _ rest); [reflexivity|].
           apply lookup_insert_eq.
      * rewrite write_day_other by congruence. reflexivity.
    + apply write_day_other. congruence.
Qed.

Lemma five_days (c : Z) :
  existsb (fun day => day + 2 =? c) [0; 1; 2; 3; 4] = (2 <=? c) && (c <=? 6).
Proof.
  cbn [existsb].
  destruct (Z.leb_spec 2 c), (Z.leb_spec c 6); cbn [andb];
    repeat match goal with
           | |- context [?a =? c] => destruct (Z.eqb_spec a c)
           end; cbn [orb]; try reflexivity; lia.
Qed.

Lemma write_time_row_lookup (row_idx : Z) (t : time) (ws : gmap (Z * Z) string)
    (r c : Z) :
  write_time_row rel self ws (row_idx, t) !! (r, c)
  = if r =? row_idx then row_value rel self t c (ws !! (r, c)) else ws !! (r, c).
Proof.
  unfold write_time_row. cbn [fst snd].
  rewrite write_days_lookup, five_days. unfold row_value.
  destruct (Z.eqb_spec r row_idx) as [->|Hr]; cbn [andb].
  - destruct (Z.eqb_spec c 1) as [->|Hc].
    + cbn. apply lookup_insert_eq.
    + rewrite lookup_insert_ne by congruence. reflexivity.
  - apply lookup_insert_ne. congruence.
Qed.

Lemma write_rows_lookup (times : list time) (start : Z)
    (ws : gmap (Z * Z) string) (r c : Z) :
  fold_left (write_time_row rel self) (enumerate start times) ws !! (r, c)
  = match (if start <=? r then nth_error times (Z.to_nat (r - start)) else None) with
    | Some t => row_value rel self t c (ws !! (r, c))
    | None => ws !! (r, c)
    end.
Proof.
  revert start ws. induction times as [|t0 rest IH]; intros start ws;
    cbn [enumerate fold_left].
  - destruct (start <=? r); [|reflexivity].
    now destruct (Z.to_nat (r - start)).
  - rewrite IH, write_time_row_lookup.
    destruct (Z.leb_spec (start + 1) r) as [Hlater|Hnot].
    + destruct (Z.leb_spec start r); [|lia].
      destruct (Z.eqb_spec r start); [lia|].
      replace (Z.to_nat (r - start)) with (S (Z.to_nat (r - (start + 1)))) by lia.
      reflexivity.
    + destruct (Z.leb_spec start r) as [Hhere|Hbefore].
      * assert (r = start) by lia. subst r.
        rewrite Z.eqb_refl, Z.sub_diag. reflexivity.
      * destruct (Z.eqb_spec r start); [lia | reflexivity].
Qed.
End Worksheet.

(** X20: the worksheet holds the title in A1, the six headers of the
    table in row 3, and from row 4 on one row for each start time, with
    the time in the first column and, in the columns of Monday to Friday,
    the cells of the table of the PDF, a cell that is empty in the table
    being left unset in the worksheet. *)
Theorem X20_worksheet_matches_table (rel : Loaded) (self : TimetableExporter.t) :
  export_to_excel rel self !! (1, 1) = Some (TimetableExporter.title self)
  /\ (forall j header,
        nth_error (hd [] (_create_table_data rel self)) j = Some header ->
        export_to_excel rel self !! (3, Z.of_nat j + 1) = Some header)
  /\ forall i t,
       nth_error (_get_unique_times self) i = Some t ->
       export_to_excel rel self !! (4 + Z.of_nat i, 1) = Some (time_str t)
       /\ forall day,
            0 <= day <= 4 ->
            export_to_excel rel self !! (4 + Z.of_nat i, day + 2)
            = if String.eqb (table_cell rel self t day) EmptyString
              then None
              else Some (table_cell rel self t day).
Proof.
  unfold export_to_excel. split; [|split].
  - rewrite write_rows_lookup. reflexivity.
  - intros j header Hj. rewrite write_rows_lookup.
    destruct (Z.leb_spec 4 3); [lia|].
    unfold _create_table_data in Hj. cbn [hd] in Hj.
    do 6 (destruct j as [|j]; [injection Hj as <-; reflexivity|]).
    destruct j; discriminate.
  - intros i t Hi.
    assert (Hrow : forall c,
               fold_left (write_time_row rel self)
                 (enumerate 4 (_get_unique_times self))
                 (fold_left write_header (enumerate 1 EXCEL_HEADERS)
                    (<[(1, 1) := TimetableExporter.title self]> ∅))
               !! (4 + Z.of_nat i, c)
               = row_value rel self t c None).
    { intros c. rewrite write_rows_lookup.
      destruct (Z.leb_spec 4 (4 + Z.of_nat i)); [|lia].
      replace (Z.to_nat (4 + Z.of_nat i - 4)) with i by lia.
      rewrite Hi. f_equal.
      cbn [enumerate EXCEL_HEADERS fold_left]. unfold write_header.
      cbn [fst snd].
      repeat (rewrite lookup_insert_ne by (intros [= ? ?]; lia)).
      apply lookup_empty. }
    split.
    + rewrite Hrow. reflexivity.
    + intros day Hday. rewrite Hrow. unfold row_value, table_cell.
      destruct (Z.eqb_spec (day + 2) 1); [lia|].
      destruct (Z.leb_spec 2 (day + 2)), (Z.leb_spec (day + 2) 6); try lia.
      cbn [andb]. replace (day + 2 - 2) with day by lia.
      destruct (slots_at self day t) as [|slot others]; [reflexivity|].
      destruct (String.eqb_spec (cell_text rel slot) EmptyString) as [Hempty|];
        [|reflexivity].
      now apply cell_text_not_empty in Hempty.
Qed.

(** The sheet of the Saturday slot and the Monday slot. *)
Lemma X20_worksheet_matches_table_witness :
  let rel := {| course_code := fun s => str_of_Z (TimeSlot.course_id s);
                room_code := fun s => str_of_Z (TimeSlot.room_id s);
                course_teachers := fun _ => [ada] |} in
  let monday := stored 1 1 10 100 2 0 (mk_time 9 0) (mk_time 10 0) in
  let saturday := stored 2 1 11 100 1 5 (mk_time 8 0) (mk_time 9 0) in
  let self := {| TimetableExporter.timeslots := [saturday; monday];
                 TimetableExporter.title := "Emploi du Temps" |} in
  export_to_excel rel self !! (3, 2) = Some "Lundi"%string
  /\ export_to_excel rel self !! (5, 1) = Some "09:00:00"%string
  /\ export_to_excel rel self !! (5, 2) = Some (cell_text rel monday)
  /\ export_to_excel rel self !! (4, 2) = None.
Proof.
  intros rel monday saturday self.
  destruct (X20_worksheet_matches_table rel self) as (_ & Hheader & Hrows).
  split; [exact (Hheader 1%nat "Lundi"%string eq_refl)|].
  destruct (Hrows 1%nat (mk_time 9 0) eq_refl) as [Htime Hcells].
  destruct (Hrows 0%nat (mk_time 8 0) eq_refl) as [_ Hcells8].
  split; [exact Htime|]. split.
  - exact (Hcells 0 ltac:(lia)).
  - exact (Hcells8 0 ltac:(lia)).
Defined.

(** ** The run and its exceptions *)

Lemma timedelta_returned (minutes delta : Z) :
  timedelta minutes = returned delta -> delta = minutes.
Proof.
  unfold timedelta. cbv zeta.
  destruct (_ || _); [discriminate|].
  destruct (_ || _); [discriminate|].
  now intros [= <-].
Qed.

(** When [add_minutes] returns, it returns the wrapped sum. *)
Lemma add_minutes_returned (start_time : time) (minutes : Z) (t : time) :
  Raising.add_minutes start_time minutes = returned t ->
  t = add_minutes start_time minutes.
Proof.
  unfold Raising.add_minutes, add_minutes. cbv zeta.
  destruct (timedelta minutes) as [delta|e] eqn:Hdelta; cbn [bind]; [|discriminate].
  apply timedelta_returned in Hdelta. subst delta.
  destruct (_ || _); [discriminate|].
  now intros [= <-].
Qed.

(** It returns for every duration of at most a thousand million minutes
    in absolute value, some nineteen centuries. *)
Lemma add_minutes_in_range (start_time : time) (minutes : Z) :
  0 <= start_time < 1440 -> -1000000000 <= minutes <= 1000000000 ->
  Raising.add_minutes start_time minutes
  = returned (add_minutes start_time minutes).
Proof.
  intros Hstart Hminutes.
  assert (Hdays : -999999999 <= minutes / 1440 <= 999999999).
  { pose proof (Z.div_mod minutes 1440 ltac:(lia)).
    pose proof (Z.mod_pos_bound minutes 1440 ltac:(lia)). lia. }
  unfold Raising.add_minutes, timedelta, add_minutes. cbv zeta.
  rewrite hour_minute.
  destruct (Z.ltb_spec (minutes / 1440) (-2147483648)); [lia|].
  destruct (Z.ltb_spec 2147483647 (minutes / 1440)); [lia|].
  destruct (Z.ltb_spec (minutes / 1440) (-999999999)); [lia|].
  destruct (Z.ltb_spec 999999999 (minutes / 1440)); [lia|].
  cbn [orb bind].
  unfold FIRST_MINUTE, END_OF_CALENDAR.
  destruct (Z.ltb_spec (start_time + minutes) (- (730119 * 1440))); [lia|].
  destruct (Z.leb_spec (2921940 * 1440) (start_time + minutes)); [lia|].
  reflexivity.
Qed.

(** The date of a sum that passes the year 9999 is out of range. *)
Lemma add_minutes_out_of_range (start_time : time) (minutes : Z) :
  0 <= start_time < 1440 ->
  2921940 * 1440 <= minutes <= 999999999 * 1440 ->
  Raising.add_minutes start_time minutes = raised OVERFLOW_DATE.
Proof.
  intros Hstart Hminutes.
  assert (Hdays : 0 <= minutes / 1440 <= 999999999).
  { pose proof (Z.div_mod minutes 1440 ltac:(lia)).
    pose proof (Z.mod_pos_bound minutes 1440 ltac:(lia)). lia. }
  unfold Raising.add_minutes, timedelta. cbv zeta.
  rewrite hour_minute.
  destruct (Z.ltb_spec (minutes / 1440) (-2147483648)); [lia|].
  destruct (Z.ltb_spec 2147483647 (minutes / 1440)); [lia|].
  destruct (Z.ltb_spec (minutes / 1440) (-999999999)); [lia|].
  destruct (Z.ltb_spec 999999999 (minutes / 1440)); [lia|].
  cbn [orb bind].
  unfold FIRST_MINUTE, END_OF_CALENDAR.
  destruct (Z.ltb_spec (start_time + minutes) (- (730119 * 1440))); [lia|].
  destruct (Z.leb_spec (2921940 * 1440) (start_time + minutes)); [|lia].
  reflexivity.
Qed.

Lemma fold_outcome_returned {A B : Type} (f : A -> B -> outcome A) (g : A -> B -> A)
    (l : list B) (a a' : A) :
  (forall x b y, f x b = returned y -> y = g x b) ->
  fold_outcome f l a = returned a' -> a' = fold_left g l a.
Proof.
  intros Hstep. revert a.
  induction l as [|b rest IH]; cbn [fold_outcome fold_left]; intros a.
  - now intros [= <-].
  - destruct (f a b) as [y|e] eqn:Hf; cbn [bind]; [|discriminate].
    apply Hstep in Hf. subst y. apply IH.
Qed.

Section RaisingRun.
Context `{RandomSource}.
Variable db : Database.
Variable all_rooms : list Room.t.

Lemma place_at_returned (self : TimetableGenerator.t) (group : Group.t)
    (course : Course.t) (duration_min : Z) (rooms : list Room.t) (day : Z)
    (start_time : time) (x : option TimeSlot.t) :
  Raising.place_at self db group course duration_min rooms day start_time
  = returned x ->
  x = place_at self db group course duration_min rooms day start_time.
Proof.
  unfold Raising.place_at.
  destruct (Raising.add_minutes start_time duration_min) as [t|e] eqn:Ht;
    cbn [bind]; [|discriminate].
  apply add_minutes_returned in Ht. subst t. now intros [= <-].
Qed.

Lemma place_at_computable (self : TimetableGenerator.t) (group : Group.t)
    (course : Course.t) (duration_min : Z) (rooms : list Room.t) (day : Z)
    (start_time : time) :
  Raising.add_minutes start_time duration_min
  = returned (add_minutes start_time duration_min) ->
  Raising.place_at self db group course duration_min rooms day start_time
  = returned (place_at self db group course duration_min rooms day start_time).
Proof.
  intros Hend. unfold Raising.place_at. now rewrite Hend.
Qed.

Lemma scan_starts_returned (self : TimetableGenerator.t) (group : Group.t)
    (course : Course.t) (duration_min : Z) (rooms : list Room.t) (day : Z)
    (starts : list time) (x : option TimeSlot.t) :
  Raising.scan_starts self db group course duration_min rooms day starts
  = returned x ->
  x = scan_starts self db group course duration_min rooms day starts.
Proof.
  induction starts as [|s rest IH]; cbn [Raising.scan_starts scan_starts].
  - now intros [= <-].
  - destruct (Raising.place_at self db group course duration_min rooms day s)
      as [placed|e] eqn:Hplace; cbn [bind]; [|discriminate].
    apply place_at_returned in Hplace. subst placed.
    destruct (place_at self db group course duration_min rooms day s);
      [now intros [= <-] | exact IH].
Qed.

Lemma scan_starts_computable (self : TimetableGenerator.t) (group : Group.t)
    (course : Course.t) (duration_min : Z) (rooms : list Room.t) (day : Z)
    (starts : list time) :
  computable starts duration_min ->
  Raising.scan_starts self db group course duration_min rooms day starts
  = returned (scan_starts self db group course duration_min rooms day starts).
Proof.
  induction 1 as [|s rest Hs _ IH]; cbn [Raising.scan_starts scan_starts];
    [reflexivity|].
  rewrite (place_at_computable _ _ _ _ _ _ _ Hs). cbn [bind].
  destruct (place_at self db group course duration_min rooms day s);
    [reflexivity | exact IH].
Qed.

Lemma scan_days_returned (self : TimetableGenerator.t) (group : Group.t)
    (course : Course.t) (duration_min : Z) (rooms : list Room.t)
    (days : list Z) (g : rng) (x : option TimeSlot.t * rng) :
  Raising.scan_days self db group course duration_min rooms days g = returned x ->
  x = scan_days self db group course duration_min rooms days g.
Proof.
  revert g. induction days as [|day rest IH];
    cbn [Raising.scan_days scan_days]; intros g.
  - now intros [= <-].
  - destruct (shuffle (TimetableGenerator.slot_starts self) g) as [starts g'].
    destruct (Raising.scan_starts self db group course duration_min rooms day starts)
      as [found|e] eqn:Hscan; cbn [bind]; [|discriminate].
    apply scan_starts_returned in Hscan. subst found.
    destruct (scan_starts self db group course duration_min rooms day starts);
      [now intros [= <-] | apply IH].
Qed.

Lemma shuffle_computable (starts : list time) (duration_min : Z) (g : rng) :
  computable starts duration_min ->
  computable (shuffle starts g).1 duration_min.
Proof.
  unfold computable. rewrite !List.Forall_forall.
  intros Hall s Hin. apply Hall. now apply (shuffle_In _ g).
Qed.

Lemma scan_days_computable (self : TimetableGenerator.t) (group : Group.t)
    (course : Course.t) (duration_min : Z) (rooms : list Room.t)
    (days : list Z) (g : rng) :
  computable (TimetableGenerator.slot_starts self) duration_min ->
  Raising.scan_days self db group course duration_min rooms days g
  = returned (scan_days self db group course duration_min rooms days g).
Proof.
  intros Hall. revert g. induction days as [|day rest IH];
    cbn [Raising.scan_days scan_days]; intros g; [reflexivity|].
  pose proof (shuffle_computable _ _ g Hall) as Hshuffled.
  destruct (shuffle (TimetableGenerator.slot_starts self) g) as [starts g'].
  cbn [fst] in Hshuffled.
  rewrite (scan_starts_computable _ _ _ _ _ _ _ Hshuffled). cbn [bind].
  destruct (scan_starts self db group course duration_min rooms day starts);
    [reflexivity | apply IH].
Qed.

(** Whenever a session instance returns, it leaves the loop variables as
    [schedule_session] computes them. *)
Lemma schedule_session_returned (group : Group.t) (course : Course.t)
    (duration_min : Z) (st st' : Run) :
  Raising.schedule_session db all_rooms group course duration_min st = returned st' ->
  st' = schedule_session db all_rooms group course duration_min st.
Proof.
  unfold Raising.schedule_session, schedule_session.
  destruct (shuffle (suitable_rooms_of all_rooms course) (run_rng st)) as [rooms g1].
  destruct (shuffle (TimetableGenerator.days (run_self st)) g1) as [days g2].
  destruct (Course.teachers course) as [|t0 ts]; [now intros [= <-]|].
  destruct (Raising.scan_days _ _ _ _ _ _ _ _) as [found|e] eqn:Hscan;
    cbn [bind]; [|discriminate].
  apply scan_days_returned in Hscan. rewrite <- Hscan.
  destruct found as [[slot|] g3]; now intros [= <-].
Qed.

Lemma schedule_session_computable (group : Group.t) (course : Course.t)
    (duration_min : Z) (st : Run) :
  computable (TimetableGenerator.slot_starts (run_self st)) duration_min ->
  Raising.schedule_session db all_rooms group course duration_min st
  = returned (schedule_session db all_rooms group course duration_min st).
Proof.
  intros Hall. unfold Raising.schedule_session, schedule_session.
  destruct (shuffle (suitable_rooms_of all_rooms course) (run_rng st)) as [rooms g1].
  destruct (shuffle (TimetableGenerator.days (run_self st)) g1) as [days g2].
  destruct (Course.teachers course) as [|t0 ts]; [reflexivity|].
  rewrite scan_days_computable by exact Hall. cbn [bind].
  now destruct (scan_days _ _ _ _ _ _ _ _) as [[slot|] g3].
Qed.

(** A session instance of a course with a teacher raises when no end
    time can be computed: the first start time of the first day is
    enough. *)
Lemma schedule_session_raises (group : Group.t) (course : Course.t)
    (duration_min : Z) (st : Run) (e : PyError) :
  Course.teachers course <> [] ->
  TimetableGenerator.days (run_self st) <> [] ->
  TimetableGenerator.slot_starts (run_self st) <> [] ->
  Forall (fun start_time => Raising.add_minutes start_time duration_min = raised e)
    (TimetableGenerator.slot_starts (run_self st)) ->
  Raising.schedule_session db all_rooms group course duration_min st = raised e.
Proof.
  intros Hteachers Hdays Hstarts Hall. unfold Raising.schedule_session.
  destruct (shuffle (suitable_rooms_of all_rooms course) (run_rng st)) as [rooms g1].
  pose proof (shuffle_Permutation _ (TimetableGenerator.days (run_self st)) g1)
    as Hperm.
  destruct (shuffle (TimetableGenerator.days (run_self st)) g1) as [days g2].
  cbn [fst] in Hperm.
  destruct (Course.teachers course) as [|t0 ts]; [congruence|].
  cbn [with_days TimetableGenerator.days TimetableGenerator.slot_starts].
  destruct days as [|day rest].
  { apply Permutation_sym, Permutation_nil in Hperm. congruence. }
  cbn [Raising.scan_days with_days TimetableGenerator.slot_starts].
  pose proof (shuffle_Permutation _ (TimetableGenerator.slot_starts (run_self st)) g2)
    as Hperm'.
  destruct (shuffle (TimetableGenerator.slot_starts (run_self st)) g2)
    as [starts g3].
  cbn [fst] in Hperm'.
  destruct starts as [|s others].
  { apply Permutation_sym, Permutation_nil in Hperm'. congruence. }
  cbn [Raising.scan_starts]. unfold Raising.place_at.
  rewrite List.Forall_forall in Hall.
  rewrite (Hall s); [reflexivity|].
  apply (Permutation_in _ (Permutation_sym Hperm')). now left.
Qed.

Lemma repeat_sessions_returned (group : Group.t) (course : Course.t)
    (duration_min : Z) (n : nat) (st st' : Run) :
  Raising.repeat_sessions n db all_rooms group course duration_min st = returned st' ->
  st' = repeat_sessions n db all_rooms group course duration_min st.
Proof.
  revert st. induction n as [|n IH];
    cbn [Raising.repeat_sessions repeat_sessions]; intros st.
  - now intros [= <-].
  - destruct (Raising.schedule_session db all_rooms group course duration_min st)
      as [st1|e] eqn:Hstep; cbn [bind]; [|discriminate].
    apply schedule_session_returned in Hstep. subst st1. apply IH.
Qed.

Lemma repeat_sessions_computable (group : Group.t) (course : Course.t)
    (duration_min : Z) (n : nat) (st : Run) :
  computable (TimetableGenerator.slot_starts (run_self st)) duration_min ->
  Raising.repeat_sessions n db all_rooms group course duration_min st
  = returned (repeat_sessions n db all_rooms group course duration_min st).
Proof.
  revert st. induction n as [|n IH];
    cbn [Raising.repeat_sessions repeat_sessions]; intros st Hall; [reflexivity|].
  rewrite schedule_session_computable by exact Hall. cbn [bind].
  apply IH.
  destruct (schedule_session_frame db all_rooms group course duration_min st)
    as [Hstarts _].
  now rewrite Hstarts.
Qed.

Lemma schedule_group_returned (group : Group.t) (st st' : Run) :
  Raising.schedule_group db all_rooms st group = returned st' ->
  st' = schedule_group db all_rooms st group.
Proof.
  unfold Raising.schedule_group, schedule_group.
  apply fold_outcome_returned.
  intros x course y. unfold Raising.schedule_course, schedule_course.
  apply repeat_sessions_returned.
Qed.

Lemma schedule_groups_returned (groups : list Group.t) (st st' : Run) :
  fold_outcome (Raising.schedule_group db all_rooms) groups st = returned st' ->
  st' = fold_left (schedule_group db all_rooms) groups st.
Proof.
  apply fold_outcome_returned. intros x group y. apply schedule_group_returned.
Qed.
End RaisingRun.

(** Whenever [generate] returns, it returns what the definition without
    exceptions computes. *)
Lemma generate_returned `{RandomSource} (self : TimetableGenerator.t)
    (db : Database) (g : rng) x :
  Raising.generate self db g = returned x -> x = generate self db g.
Proof.
  unfold Raising.generate, generate.
  destruct (target_groups self db) as [|group groups]; [now intros [= <-]|].
  destruct (fold_outcome _ _ _) as [st|e] eqn:Hfold; cbn [bind]; [|discriminate].
  apply schedule_groups_returned in Hfold. subst st. now intros [= <-].
Qed.

Section RaisingGroups.
Context `{RandomSource}.
Variable db : Database.
Variable all_rooms : list Room.t.

Lemma schedule_course_starts (group : Group.t) (course : Course.t) (st : Run) :
  TimetableGenerator.slot_starts
    (run_self (schedule_course db all_rooms group st course))
  = TimetableGenerator.slot_starts (run_self st).
Proof.
  unfold schedule_course.
  apply (repeat_sessions_ind db all_rooms
           (fun st' =>
              TimetableGenerator.slot_starts (run_self st')
              = TimetableGenerator.slot_starts (run_self st)));
    [|reflexivity].
  intros st' Hst'.
  destruct (schedule_session_frame db all_rooms group course (duration_of course) st')
    as [Hstarts _].
  congruence.
Qed.

Lemma schedule_group_starts (group : Group.t) (st : Run) :
  TimetableGenerator.slot_starts (run_self (schedule_group db all_rooms st group))
  = TimetableGenerator.slot_starts (run_self st).
Proof.
  apply (schedule_group_ind db all_rooms
           (fun st' =>
              TimetableGenerator.slot_starts (run_self st')
              = TimetableGenerator.slot_starts (run_self st)));
    [|reflexivity].
  intros course st' _ Hst'.
  destruct (schedule_session_frame db all_rooms group course (duration_of course) st')
    as [Hstarts _].
  congruence.
Qed.

Lemma schedule_courses_computable (group : Group.t) (courses : list Course.t)
    (st : Run) :
  (forall course,
     In course courses ->
     computable (TimetableGenerator.slot_starts (run_self st)) (duration_of course)) ->
  fold_outcome (Raising.schedule_course db all_rooms group) courses st
  = returned (fold_left (schedule_course db all_rooms group) courses st).
Proof.
  revert st. induction courses as [|course rest IH];
    cbn [fold_outcome fold_left]; intros st Hall; [reflexivity|].
  unfold Raising.schedule_course at 1.
  rewrite repeat_sessions_computable by (apply Hall; now left).
  cbn [bind]. apply IH.
  intros c Hc. rewrite schedule_course_starts. apply Hall. now right.
Qed.

Lemma schedule_groups_computable (groups : list Group.t) (st : Run) :
  (forall group course,
     In group groups -> In course (Group.courses group) ->
     computable (TimetableGenerator.slot_starts (run_self st)) (duration_of course)) ->
  fold_outcome (Raising.schedule_group db all_rooms) groups st
  = returned (fold_left (schedule_group db all_rooms) groups st).
Proof.
  revert st. induction groups as [|group rest IH];
    cbn [fold_outcome fold_left]; intros st Hall; [reflexivity|].
  unfold Raising.schedule_group at 1.
  rewrite schedule_courses_computable
    by (intros c Hc; apply (Hall group); [now left | exact Hc]).
  cbn [bind]. apply IH.
  intros grp c Hgrp Hc. rewrite schedule_group_starts.
  apply (Hall grp); [now right | exact Hc].
Qed.
End RaisingGroups.

(** A run in which every end time can be computed returns. *)
Lemma generate_computable `{RandomSource} (self : TimetableGenerator.t)
    (db : Database) (g : rng) :
  (forall group course,
     In group (target_groups self db) -> In course (Group.courses group) ->
     computable (TimetableGenerator.slot_starts self) (duration_of course)) ->
  Raising.generate self db g = returned (generate self db g).
Proof.
  intros Hall. unfold Raising.generate, generate.
  destruct (target_groups self db) as [|group groups]; [reflexivity|].
  now rewrite schedule_groups_computable.
Qed.

(** In particular a run of a fresh generator returns when no course of a
    targeted group lasts more than a thousand million minutes. *)
Lemma generate_returns `{RandomSource} (department_id semester group_id : Z)
    (db : Database) (g : rng) :
  (forall group course,
     In group (target_groups (init department_id semester group_id) db) ->
     In course (Group.courses group) ->
     -1000000000 <= duration_of course <= 1000000000) ->
  Raising.generate (init department_id semester group_id) db g
  = returned (generate (init department_id semester group_id) db g).
Proof.
  intros Hall. apply generate_computable.
  intros group course Hgroup Hcourse. specialize (Hall group course Hgroup Hcourse).
  unfold computable. apply List.Forall_forall. intros s Hs.
  apply add_minutes_in_range; [|exact Hall].
  apply grid_hours in Hs as [h [Hh ->]]. unfold mk_time. lia.
Qed.

(** C7 at a course of 5 000 000 000 minutes, whatever the shuffles give:
    the session of the one hour course that comes first is placed, then
    the first end time computed for the long course raises
    [OverflowError]; [generate] is left by the exception and returns
    neither the slot nor a failure record. *)
Theorem C7_overlong_course_aborts_the_run `{RandomSource} (g : rng) :
  (exists st,
     Raising.schedule_course long_catalog (db_rooms long_catalog) hist1
       {| run_self := init 10 1 0; run_rng := g;
          generated_count := 0; failed_count := 0 |}
       algo
     = returned st
     /\ generated_count st = 1
     /\ failed_count st = 0
     /\ TimetableGenerator.conflicts (run_self st) = [])
  /\ Raising.generate (init 10 1 0) long_catalog g = raised OVERFLOW_DATE.
Proof.
  set (st0 := {| run_self := init 10 1 0; run_rng := g;
                 generated_count := 0; failed_count := 0 |}).
  assert (Hgrid : computable (TimetableGenerator.slot_starts (run_self st0))
                    (duration_of algo)).
  { repeat constructor. }
  assert (Hfirst : Raising.schedule_course long_catalog (db_rooms long_catalog)
                     hist1 st0 algo
                   = returned (schedule_session long_catalog (db_rooms long_catalog)
                                 hist1 algo 60 st0)).
  { unfold Raising.schedule_course.
    change (Z.to_nat (Course.weekly_sessions algo)) with 1%nat.
    now rewrite repeat_sessions_computable. }
  split.
  - eexists. split; [exact Hfirst|].
    destruct (schedule_session_outcome long_catalog (db_rooms long_catalog)
                hist1 algo 60 st0)
      as [Hnone _ _ _ _
         | slot rooms day s _ _ _ _ _ _ Hc Hgc Hfc
         | rooms _ Hperm Hall _ _ _ _].
    + discriminate.
    + rewrite Hc, Hgc, Hfc. now repeat split.
    + exfalso.
      change (suitable_rooms_of (db_rooms long_catalog) algo)
        with [class_room] in Hperm.
      apply Permutation_length_1_inv in Hperm. subst rooms.
      specialize (Hall 0 (mk_time 8 0)).
      assert (Hsome : place_at (run_self st0) long_catalog hist1 algo 60
                        [class_room] 0 (mk_time 8 0) <> None)
        by (vm_compute; discriminate).
      apply Hsome, Hall; cbn; auto 12.
  - unfold Raising.generate.
    change (target_groups (init 10 1 0) long_catalog) with [hist1].
    cbn [fold_outcome]. unfold Raising.schedule_group.
    change (Group.courses hist1) with [algo; eon].
    cbn [fold_outcome]. fold st0. rewrite Hfirst. cbn [bind].
    unfold Raising.schedule_course.
    change (Z.to_nat (Course.weekly_sessions eon)) with 1%nat.
    change (duration_of eon) with 5000000000.
    cbn [Raising.repeat_sessions].
    destruct (schedule_session_frame long_catalog (db_rooms long_catalog)
                hist1 algo 60 st0) as [Hstarts Hdays].
    rewrite (schedule_session_raises long_catalog (db_rooms long_catalog)
               hist1 eon 5000000000 _ OVERFLOW_DATE); [reflexivity | discriminate | | |].
    + intros Hnil. rewrite Hnil in Hdays.
      apply Permutation_sym, Permutation_nil in Hdays. discriminate.
    + rewrite Hstarts. discriminate.
    + rewrite Hstarts. apply List.Forall_forall. intros s Hs.
      apply add_minutes_out_of_range; [|lia].
      apply (grid_hours 10 1 0) in Hs as [h [Hh ->]]. unfold mk_time. lia.
Qed.

(** ** Sessions that pass midnight *)

(** C2 at a course of ten hours whose teacher declared Monday from 08:00
    to 12:00 and nothing else.  Whatever the shuffles give, the run
    returns one slot for that teacher, on Monday, starting at 14:00 or
    later: after the end of the only window the teacher declared.  The
    end time wrapped past midnight, and [check_teacher_preferences]
    compares the window with that end time. *)
Theorem C2_long_course_outside_the_window `{RandomSource} (g : rng) :
  exists (slot : TimeSlot.t) (self : TimetableGenerator.t) (g' : rng),
    Raising.generate (init 9 1 0) (catalog [] monday_morning) g
    = returned
        (inr {| Result.generated := 1; Result.failed := 0;
                Result.timeslots := [slot]; Result.conflicts := [] |},
         self, g')
    /\ TimeSlot.course_id slot = Course.id marathon
    /\ TimeSlot.teacher_id slot = Teacher.id ada
    /\ TimeSlot.day_of_week slot = 0
    /\ mk_time 14 0 <= TimeSlot.start_time slot
    /\ TimeSlot.end_time slot < TimeSlot.start_time slot
    /\ ~ declares_nothing (catalog [] monday_morning) (Teacher.id ada)
    /\ forall a,
         In a (db_teacher_availability (catalog [] monday_morning)) ->
         TeacherAvailability.teacher_id a = Teacher.id ada ->
         TeacherAvailability.end_time a = mk_time 12 0.
Proof.
  set (db := catalog [] monday_morning).
  rewrite generate_returns.
  2:{ intros group course Hgroup Hcourse.
      cbn in Hgroup. destruct Hgroup as [<-|[]].
      cbn in Hcourse. destruct Hcourse as [<-|[]]. cbn. lia. }
  rewrite generate_run by discriminate.
  unfold final_run.
  change (target_groups (init 9 1 0) db) with [atelier_group].
  cbn [fold_left]. unfold schedule_group.
  change (Group.courses atelier_group) with [marathon].
  cbn [fold_left]. unfold schedule_course.
  change (Z.to_nat (Course.weekly_sessions marathon)) with 1%nat.
  change (duration_of marathon) with 600.
  cbn [repeat_sessions].
  set (st0 := {| run_self := init 9 1 0; run_rng := g;
                 generated_count := 0; failed_count := 0 |}).
  assert (Hwindows : ~ declares_nothing db (Teacher.id ada)
                     /\ forall a,
                          In a (db_teacher_availability db) ->
                          TeacherAvailability.teacher_id a = Teacher.id ada ->
                          TeacherAvailability.end_time a = mk_time 12 0).
  { split.
    - intros Hnone. apply (Hnone (window 1 1 0 (mk_time 8 0) (mk_time 12 0) true));
        [now left | reflexivity].
    - intros a [<-|[]] _. reflexivity. }
  destruct (schedule_session_outcome db (db_rooms db) atelier_group marathon 600 st0)
    as [Hnone _ _ _ _
       | slot rooms day s _ _ Hd Hs Hplace Hg Hc Hgc Hfc
       | rooms _ Hperm Hall _ _ _ _].
  - discriminate.
  - exists slot. eexists. eexists. rewrite Hg, Hc, Hgc, Hfc.
    split; [reflexivity|].
    apply place_at_Some in Hplace.
    destruct Hplace as [room teacher Hend _ _ _ Hteacher _ Hprefs].
    cbn [TimeSlot.course_id TimeSlot.teacher_id TimeSlot.day_of_week
         TimeSlot.start_time TimeSlot.end_time].
    cbn in Hteacher. destruct Hteacher as [<-|[]].
    split; [reflexivity|]. split; [reflexivity|].
    apply Z.leb_le in Hend.
    cbn in Hd, Hs.
    assert (Hcases : day = 0 /\ mk_time 14 0 <= s
                     /\ add_minutes s 600 < s).
    { repeat (destruct Hd as [<-|Hd];
              [ repeat (destruct Hs as [<-|Hs];
                        [ vm_compute in Hend, Hprefs;
                          first [ discriminate
                                | split; [reflexivity|];
                                  split; [apply Z.leb_le | apply Z.ltb_lt];
                                  vm_compute; reflexivity ] |]);
                destruct Hs |]).
      destruct Hd. }
    destruct Hcases as (Hday & Hstart & Hwrap).
    repeat (split; [assumption|]). exact Hwindows.
  - exfalso.
    change (suitable_rooms_of (db_rooms db) marathon) with [class_room] in Hperm.
    apply Permutation_length_1_inv in Hperm. subst rooms.
    specialize (Hall 0 (mk_time 14 0)).
    assert (Hsome : place_at (run_self st0) db atelier_group marathon 600
                      [class_room] 0 (mk_time 14 0) <> None)
      by (vm_compute; discriminate).
    apply Hsome, Hall; cbn; auto 12.
Qed.

(** C1 at a group with two courses of ten hours, the shuffles leaving
    the lists in place: the run returns two slots with the same room, the
    same teacher and the same group, both on Monday from 14:00.  Each
    session lasts ten hours, so the two occupy the same hours; their
    stored end time is 00:00, and no test of the generator relates the
    two windows. *)
Theorem C1_long_courses_are_double_booked :
  exists (a b : TimeSlot.t) (self : TimetableGenerator.t),
    Raising.generate (init 11 1 0) double_catalog (tt : @rng identity_source)
    = returned
        (inr {| Result.generated := 2; Result.failed := 0;
                Result.timeslots := [a; b]; Result.conflicts := [] |},
         self, tt)
    /\ TimeSlot.course_id a = Course.id marathon
    /\ TimeSlot.course_id b = Course.id marathon2
    /\ TimeSlot.room_id a = TimeSlot.room_id b
    /\ TimeSlot.teacher_id a = TimeSlot.teacher_id b
    /\ TimeSlot.group_id a = Some (Group.id atelier2_group)
    /\ TimeSlot.group_id b = Some (Group.id atelier2_group)
    /\ TimeSlot.day_of_week a = 0 /\ TimeSlot.day_of_week b = 0
    /\ TimeSlot.start_time a = mk_time 14 0
    /\ TimeSlot.start_time b = mk_time 14 0
    /\ TimeSlot.end_time a = mk_time 0 0
    /\ TimeSlot.end_time b = mk_time 0 0
    /\ Z.max (TimeSlot.start_time a) (TimeSlot.start_time b)
       < Z.min (TimeSlot.start_time a + duration_of marathon)
           (TimeSlot.start_time b + duration_of marathon2)
    /\ ~ double_booked a b.
Proof.
  eexists. eexists. eexists.
  split; [vm_compute; reflexivity|].
  cbn [TimeSlot.course_id TimeSlot.room_id TimeSlot.teacher_id TimeSlot.group_id
       TimeSlot.day_of_week TimeSlot.start_time TimeSlot.end_time].
  repeat (split; [reflexivity|]).
  unfold double_booked, room_clash, teacher_clash, group_clash, windows_overlap.
  cbn [TimeSlot.start_time TimeSlot.end_time].
  intros [(_ & _ & Hover)|[(_ & _ & Hover)|(_ & _ & _ & Hover)]];
    vm_compute in Hover; discriminate.
Qed.

(** ** The route that runs the generator *)

(** X9: the message the route flashes does not depend on whether the
    commit goes through, and neither do the counters and the failure
    records it renders: a run that generated slots is announced as a
    success even when none was stored.  When the scope has no group the
    user sees the text of a KeyError, not the message of the generator,
    and nothing is rendered; when [generate] is left by an exception the
    user sees its text and the session is rolled back.  When the storage
    refuses the commit, the committed rows are what they were and the
    rendered slots are not persistent. *)
Theorem X9_route_reports_the_run_only `{RandomSource}
    (department_id semester group_id : Z) (db : Database) (s : Session) (g : rng) :
  (forall commit_ok commit_ok' : Session -> bool,
     flashed (generate_timetable commit_ok department_id semester group_id db s g)
     = flashed (generate_timetable commit_ok' department_id semester group_id db s g)
     /\ option_map
          (fun r => (rendered_generated r, rendered_failed r, rendered_conflicts r))
          (generated_timetable
             (generate_timetable commit_ok department_id semester group_id db s g))
        = option_map
            (fun r => (rendered_generated r, rendered_failed r, rendered_conflicts r))
            (generated_timetable
               (generate_timetable commit_ok' department_id semester group_id db s g)))
  /\ (forall commit_ok res self' g',
        Raising.generate (init department_id semester group_id) db g
        = returned (inr res, self', g') ->
        0 < Result.generated res ->
        flashed (generate_timetable commit_ok department_id semester group_id db s g)
        = flash_success (Result.generated res))
  /\ (target_groups (init department_id semester group_id) db = [] ->
      forall commit_ok,
        flashed (generate_timetable commit_ok department_id semester group_id db s g)
        = ("Erreur: 'generated'"%string, "danger"%string)
        /\ generated_timetable
             (generate_timetable commit_ok department_id semester group_id db s g)
           = None)
  /\ (forall commit_ok e,
        Raising.generate (init department_id semester group_id) db g = raised e ->
        generate_timetable commit_ok department_id semester group_id db s g
        = {| flashed := flash_error (error_message e);
             generated_timetable := None;
             session_after := session_rollback s |})
  /\ committed
       (session_after
          (generate_timetable (fun _ => false) department_id semester group_id db s g))
     = committed s
  /\ forall r,
       generated_timetable
         (generate_timetable (fun _ => false) department_id semester group_id db s g)
       = Some r ->
       timeslots_persistent r = false.
Proof.
  unfold generate_timetable.
  destruct (Raising.generate (init department_id semester group_id) db g)
    as [[[result generator] g1]|e] eqn:Hrun.
  - split; [|split; [|split; [|split; [|split]]]].
    + intros commit_ok commit_ok'.
      destruct (save_timetable commit_ok generator s) as [[n1 self1] s1].
      destruct (save_timetable commit_ok' generator s) as [[n2 self2] s2].
      destruct result as [msg|res]; now split.
    + intros commit_ok res self' g' [= -> -> ->] Hpos.
      destruct (save_timetable commit_ok self' s) as [[n1 self1] s1].
      cbn [flashed].
      destruct (Z.ltb_spec 0 (Result.generated res)); [reflexivity | lia].
    + intros Hnone commit_ok.
      apply generate_returned in Hrun.
      rewrite generate_no_group in Hrun by exact Hnone.
      injection Hrun as -> -> ->.
      destruct (save_timetable commit_ok _ s) as [[n1 self1] s1].
      now split.
    + discriminate.
    + unfold save_timetable, session_commit. rewrite fold_session_add.
      destruct result as [msg|res]; reflexivity.
    + intros r. unfold save_timetable, session_commit.
      destruct result as [msg|res]; [discriminate|].
      now intros [= <-].
  - split; [|split; [|split; [|split; [|split]]]].
    + intros; now split.
    + discriminate.
    + intros Hnone. exfalso.
      rewrite generate_computable in Hrun; [discriminate|].
      rewrite Hnone. intros group course [].
    + now intros commit_ok e' [= <-].
    + reflexivity.
    + discriminate.
Qed.

(** Department 5 has no group; department 7 has one, and its run is
    announced as a success although nothing is committed. *)
Lemma X9_route_reports_the_run_only_witness :
  flashed
    (generate_timetable unique_constraints_ok 5 1 0 (catalog [] [])
       {| committed := []; pending := [] |} (tt : @rng identity_source))
  = ("Erreur: 'generated'"%string, "danger"%string)
  /\ flashed
       (generate_timetable (fun _ => false) 7 1 0 (catalog [] [])
          {| committed := []; pending := [] |} (tt : @rng identity_source))
     = flash_success 3
  /\ committed
       (session_after
          (generate_timetable (fun _ => false) 7 1 0 (catalog [] [])
             {| committed := []; pending := [] |} (tt : @rng identity_source)))
     = [].
Proof.
  split; [|split].
  - destruct (X9_route_reports_the_run_only 5 1 0 (catalog [] [])
                {| committed := []; pending := [] |} (tt : @rng identity_source))
      as (_ & _ & Hnone & _).
    now apply Hnone.
  - destruct (X9_route_reports_the_run_only 7 1 0 (catalog [] [])
                {| committed := []; pending := [] |} (tt : @rng identity_source))
      as (_ & Hsuccess & _).
    assert (Hrun : exists res self' g',
               Raising.generate (init 7 1 0) (catalog [] [])
                 (tt : @rng identity_source)
               = returned (inr res, self', g')
               /\ Result.generated res = 3).
    { eexists. eexists. eexists. split; [vm_compute; reflexivity | reflexivity]. }
    destruct Hrun as (res & self' & g' & Hrun & Hgenerated).
    rewrite (Hsuccess (fun _ => false) res self' g' Hrun); [|lia].
    now rewrite Hgenerated.
  - now destruct (X9_route_reports_the_run_only 7 1 0 (catalog [] [])
                    {| committed := []; pending := [] |}
                    (tt : @rng identity_source)) as (_ & _ & _ & _ & -> & _).
Defined.

(** ** The detector and its exceptions *)

Lemma settle_app {E : Type} (conflicts : list E) (l1 l2 : list (outcome E)) :
  settle conflicts (l1 ++ l2)
  = match settle conflicts l1 with
    | (acc, None) => settle acc l2
    | (acc, Some e) => (acc, Some e)
    end.
Proof.
  revert conflicts. induction l1 as [|[c|e] rest IH]; intros conflicts;
    cbn [settle app]; [reflexivity | apply IH | reflexivity].
Qed.

Section Settle.
Context {A E : Type}.
Variable f : A -> outcome E.
Variable g : A -> E.
Hypothesis f_returned : forall a c, f a = returned c -> c = g a.

Lemma settle_returned (l : list A) (conflicts x : list E) :
  settle conflicts (map f l) = (x, None) ->
  x = conflicts ++ map g l /\ Forall (fun a => f a = returned (g a)) l.
Proof.
  revert conflicts. induction l as [|a rest IH]; intros conflicts; cbn [map settle].
  - intros [= <-]. now rewrite app_nil_r.
  - destruct (f a) as [c|e] eqn:Hfa; [|discriminate].
    apply f_returned in Hfa as Hc. subst c.
    intros Hrest. apply IH in Hrest as [-> Hall].
    rewrite <- app_assoc. split; [reflexivity|]. now constructor.
Qed.

Lemma settle_resolving (l : list A) (conflicts : list E) :
  Forall (fun a => f a = returned (g a)) l ->
  settle conflicts (map f l) = (conflicts ++ map g l, None).
Proof.
  intros Hall. revert conflicts.
  induction Hall as [|a rest Ha _ IH]; intros conflicts; cbn [map settle].
  - now rewrite app_nil_r.
  - rewrite Ha, IH, <- app_assoc. reflexivity.
Qed.

End Settle.

Section RaisingPairs.
Context {E : Type}.
Variable entry : TimeSlot.t -> TimeSlot.t -> outcome E.
Variable same : TimeSlot.t -> TimeSlot.t -> bool.
Variable considered : TimeSlot.t -> bool.
Variable db : Database.

Lemma report_pair_follows (slot conflict_slot : TimeSlot.t) (conflicts : list E)
    acc trace :
  follows entry conflicts acc trace ->
  follows entry conflicts (Raising.report_pair entry slot acc conflict_slot)
    (report_pair as_pair slot trace conflict_slot).
Proof.
  intros [Hsettle Hchecked]. unfold Raising.report_pair, report_pair.
  destruct acc as [[checked confs] left]. destruct trace as [keys pairs].
  cbn [fst snd] in *.
  destruct left as [e|].
  - split; [|discriminate]. cbn [fst snd].
    destruct (bool_decide _); [exact Hsettle|].
    cbn [snd]. now rewrite map_app, settle_app, <- Hsettle.
  - specialize (Hchecked eq_refl). subst checked.
    destruct (bool_decide _); [now split|].
    unfold follows. cbn [fst snd].
    rewrite map_app, settle_app, <- Hsettle. unfold as_pair. cbn [map settle fst snd].
    destruct (entry slot conflict_slot) as [c|e]; split;
      solve [reflexivity | discriminate].
Qed.

Lemma fold_report_pair_follows (slot : TimeSlot.t) (others : list TimeSlot.t)
    (conflicts : list E) acc trace :
  follows entry conflicts acc trace ->
  follows entry conflicts (fold_left (Raising.report_pair entry slot) others acc)
    (fold_left (report_pair as_pair slot) others trace).
Proof.
  revert acc trace. induction others as [|o rest IH]; intros acc trace Hfollows;
    cbn [fold_left]; [assumption|].
  apply IH. now apply report_pair_follows.
Qed.

Lemma fold_report_slot_follows (slots : list TimeSlot.t) (conflicts : list E)
    acc trace :
  follows entry conflicts acc trace ->
  follows entry conflicts
    (fold_left (Raising.report_slot entry same considered db) slots acc)
    (fold_left (report_slot as_pair same considered db) slots trace).
Proof.
  revert acc trace. induction slots as [|slot rest IH]; intros acc trace Hfollows;
    cbn [fold_left]; [assumption|].
  apply IH. unfold Raising.report_slot, report_slot.
  destruct (considered slot); [|assumption].
  now apply fold_report_pair_follows.
Qed.

(** A pairwise check builds the entries of the pairs it reports, in
    their order, until one of them cannot be built. *)
Lemma pairwise_check_settle (conflicts : list E) :
  ((Raising.pairwise_check entry same considered db conflicts).1.2,
   (Raising.pairwise_check entry same considered db conflicts).2)
  = settle conflicts
      (map (fun p => entry p.1 p.2)
         (pairwise_check as_pair same considered db []).2).
Proof.
  unfold Raising.pairwise_check, pairwise_check.
  apply fold_report_slot_follows. now split.
Qed.
End RaisingPairs.

Lemma teacher_entry_returned (db : Database) (p : TimeSlot.t * TimeSlot.t)
    (c : Conflict) :
  Raising.teacher_conflict_entry db p.1 p.2 = returned c -> c = teacher_entry db p.
Proof.
  unfold Raising.teacher_conflict_entry, teacher_entry.
  destruct (teacher_of db p.1); [now intros [= <-] | discriminate].
Qed.

Lemma group_entry_returned (db : Database) (p : TimeSlot.t * TimeSlot.t)
    (c : Conflict) :
  Raising.group_conflict_entry db p.1 p.2 = returned c -> c = group_entry db p.
Proof.
  unfold Raising.group_conflict_entry, group_entry, group_name.
  destruct (group_of db p.1); [now intros [= <-] | discriminate].
Qed.

Lemma availability_entry_returned (db : Database) (slot : TimeSlot.t)
    (c : Conflict) :
  Raising.availability_conflict_entry db slot = returned c ->
  c = availability_entry db slot.
Proof.
  unfold Raising.availability_conflict_entry, availability_entry, teacher_name,
    teacher_of.
  destruct (find _ (db_teachers db)); [now intros [= <-] | discriminate].
Qed.

(** The three checks that can be left by an exception, as the entries of
    the pairs or rows of the check appended until one cannot be built. *)
Lemma detect_teacher_conflicts_settle (self : list Conflict) (db : Database) :
  Raising.detect_teacher_conflicts self db
  = Raising.finish "teacher_conflict"
      (settle self
         (map (fun p => Raising.teacher_conflict_entry db p.1 p.2)
            (teacher_pairs db))).1
      (settle self
         (map (fun p => Raising.teacher_conflict_entry db p.1 p.2)
            (teacher_pairs db))).2.
Proof.
  unfold Raising.detect_teacher_conflicts, teacher_pairs. cbv zeta.
  now rewrite <- pairwise_check_settle.
Qed.

Lemma detect_group_conflicts_settle (self : list Conflict) (db : Database) :
  Raising.detect_group_conflicts self db
  = Raising.finish "group_conflict"
      (settle self
         (map (fun p => Raising.group_conflict_entry db p.1 p.2) (group_pairs db))).1
      (settle self
         (map (fun p => Raising.group_conflict_entry db p.1 p.2) (group_pairs db))).2.
Proof.
  unfold Raising.detect_group_conflicts, group_pairs. cbv zeta.
  now rewrite <- pairwise_check_settle.
Qed.

Lemma fold_check_availability (db : Database) (slots : list TimeSlot.t)
    (conflicts : list Conflict) :
  fold_left (Raising.check_availability db) slots (conflicts, None)
  = settle conflicts
      (map (Raising.availability_conflict_entry db)
         (List.filter
            (fun slot =>
               negb (TimeSlot.teacher_id slot =? 0) && negb (is_valid db slot))
            slots)).
Proof.
  assert (Hleft : forall rest x e,
             fold_left (Raising.check_availability db) rest (x, Some e)
             = (x, Some e)).
  { induction rest as [|slot rest IH]; intros x e; cbn [fold_left];
      [reflexivity | apply IH]. }
  revert conflicts. induction slots as [|slot rest IH]; intros conflicts;
    cbn [fold_left List.filter]; [reflexivity|].
  unfold Raising.check_availability at 2. cbn [fst snd].
  destruct (TimeSlot.teacher_id slot =? 0); cbn [negb andb]; [apply IH|].
  destruct (is_valid db slot); cbn [negb]; [apply IH|].
  cbn [map settle].
  destruct (Raising.availability_conflict_entry db slot) as [c|e];
    [apply IH | apply Hleft].
Qed.

Lemma detect_availability_conflicts_settle (self : list Conflict) (db : Database) :
  Raising.detect_availability_conflicts self db
  = Raising.finish "availability_conflict"
      (settle self
         (map (Raising.availability_conflict_entry db) (availability_flagged db))).1
      (settle self
         (map (Raising.availability_conflict_entry db) (availability_flagged db))).2.
Proof.
  unfold Raising.detect_availability_conflicts, availability_flagged. cbv zeta.
  now rewrite fold_check_availability.
Qed.



(** Whenever [detect_all_conflicts] returns a report, every entry of the
    three checks could be built, and the report is the one computed for
    rows whose relations resolve. *)
Lemma detect_all_conflicts_returned (db : Database) (report : Report.t) :
  Raising.detect_all_conflicts db = returned report ->
  report = detect_all_conflicts db
  /\ Forall (fun p => Raising.teacher_conflict_entry db p.1 p.2
                      = returned (teacher_entry db p)) (teacher_pairs db)
  /\ Forall (fun p => Raising.group_conflict_entry db p.1 p.2
                      = returned (group_entry db p)) (group_pairs db)
  /\ Forall (fun slot => Raising.availability_conflict_entry db slot
                         = returned (availability_entry db slot))
       (availability_flagged db).
Proof.
  destruct (detect_methods_append db)
    as (_ & Hteacher & Hgroup & Havailability & _).
  unfold Raising.detect_all_conflicts, detect_all_conflicts. cbv zeta.
  rewrite detect_teacher_conflicts_settle. unfold Raising.finish at 1.
  destruct (settle _ (map _ (teacher_pairs db))) as [c2 [e|]] eqn:H2;
    cbn [fst snd bind]; [discriminate|].
  apply (settle_returned _ (teacher_entry db) (teacher_entry_returned db)) in H2
    as [-> Hall2].
  rewrite detect_group_conflicts_settle. unfold Raising.finish at 1.
  destruct (settle _ (map _ (group_pairs db))) as [c3 [e|]] eqn:H3;
    cbn [fst snd bind]; [discriminate|].
  apply (settle_returned _ (group_entry db) (group_entry_returned db)) in H3
    as [-> Hall3].
  rewrite detect_availability_conflicts_settle. unfold Raising.finish at 1.
  destruct (settle _ (map _ (availability_flagged db))) as [c4 [e|]] eqn:H4;
    cbn [fst snd bind]; [discriminate|].
  apply (settle_returned _ (availability_entry db) (availability_entry_returned db))
    in H4 as [-> Hall4].
  intros [= <-].
  split; [|now repeat split].
  rewrite (proj1 (Hteacher _)), (proj1 (Hgroup _)), (proj1 (Havailability _)).
  reflexivity.
Qed.

Lemma overlapping_stored (same : TimeSlot.t -> TimeSlot.t -> bool) (db : Database)
    (p : TimeSlot.t * TimeSlot.t) :
  conflicting same db p -> In p.1 (db_timeslots db).
Proof.
  now intros (Hin & _).
Qed.

(** When every stored row has its teacher and its group, the report is
    returned. *)
Lemma detect_all_conflicts_resolving (db : Database) :
  relations_resolve db ->
  Raising.detect_all_conflicts db = returned (detect_all_conflicts db).
Proof.
  intros Hresolve. unfold relations_resolve in Hresolve.
  rewrite List.Forall_forall in Hresolve.
  destruct (detect_methods_append db)
    as (_ & Hteacher & Hgroup & Havailability & _).
  unfold Raising.detect_all_conflicts, detect_all_conflicts. cbv zeta.
  rewrite detect_teacher_conflicts_settle.
  rewrite (settle_resolving _ (teacher_entry db)).
  2:{ eapply List.Forall_impl;
        [|exact (proj1 (pairwise_check_once same_teacher (fun _ => true) db))].
      intros p Hp. apply overlapping_stored, Hresolve in Hp as [Ht _].
      unfold Raising.teacher_conflict_entry, teacher_entry.
      destruct (teacher_of db p.1); [reflexivity | congruence]. }
  cbn [Raising.finish fst snd bind].
  rewrite detect_group_conflicts_settle.
  rewrite (settle_resolving _ (group_entry db)).
  2:{ eapply List.Forall_impl;
        [|exact (proj1 (pairwise_check_once same_group has_group db))].
      intros p Hp. pose proof Hp as (_ & _ & _ & Hsame & _).
      apply overlapping_stored, Hresolve in Hp as [_ Hg].
      unfold Raising.group_conflict_entry, group_entry, group_name.
      destruct (group_of db p.1); [reflexivity|].
      exfalso. apply Hg; [|reflexivity].
      unfold same_group in Hsame.
      destruct (TimeSlot.group_id p.2); [|discriminate].
      destruct (TimeSlot.group_id p.1); [discriminate | discriminate]. }
  cbn [Raising.finish fst snd bind].
  rewrite detect_availability_conflicts_settle.
  rewrite (settle_resolving _ (availability_entry db)).
  2:{ apply List.Forall_forall. intros slot Hslot.
      apply availability_flagged_spec in Hslot as (Hin & _).
      apply Hresolve in Hin as [Ht _].
      unfold Raising.availability_conflict_entry, availability_entry, teacher_name,
        teacher_of in *.
      destruct (find _ (db_teachers db)); [reflexivity | congruence]. }
  cbn [Raising.finish fst snd bind].
  rewrite (proj1 (Hteacher _)), (proj1 (Hgroup _)), (proj1 (Havailability _)).
  reflexivity.
Qed.

Lemma Forall2_map_returned {A E : Type} (f : A -> outcome E) (g : A -> E)
    (l : list A) :
  Forall (fun a => f a = returned (g a)) l ->
  Forall2 (fun a c => f a = returned c) l (map g l).
Proof.
  induction 1; cbn [map]; now constructor.
Qed.

(** For a window that does not end before or when it starts, the two
    comparisons of the availability test say that the window lies in the
    declared one. *)
Lemma covers_inside (slot : TimeSlot.t) (a : TeacherAvailability.t) :
  TimeSlot.start_time slot < TimeSlot.end_time slot ->
  covers a (TimeSlot.start_time slot) (TimeSlot.end_time slot) = true
  <-> TeacherAvailability.is_available a = true /\ inside slot a.
Proof.
  intros Hwindow. unfold covers, inside.
  rewrite !andb_true_iff, !Z.leb_le. split.
  - intros [[Ha Hs] He]. split; [assumption|]. intros t Ht. lia.
  - intros [Ha Hin]. split; [split; [assumption|]|].
    + apply (Hin (TimeSlot.start_time slot)). lia.
    + pose proof (Hin (TimeSlot.end_time slot - 1)). lia.
Qed.

(** C6, as stated, fails: with two windows of the teacher that both
    contain the assignment there is not exactly one such window, yet the
    report the detector returns has no availability conflict. *)
Lemma C6_two_covering_windows_not_flagged :
  In monday_row (db_timeslots (catalog [monday_row] two_windows))
  /\ TimeSlot.teacher_id monday_row <> 0
  /\ teacher_of (catalog [monday_row] two_windows) monday_row = Some ada
  /\ length (covering_windows (catalog [monday_row] two_windows) monday_row) = 2%nat
  /\ exists report,
       Raising.detect_all_conflicts (catalog [monday_row] two_windows)
       = returned report
       /\ List.filter (has_type "availability_conflict") (Report.conflicts report)
          = [].
Proof.
  split; [now left|]. split; [cbn; lia|]. split; [reflexivity|].
  split; [reflexivity|].
  eexists. split; [vm_compute; reflexivity | reflexivity].
Qed.

(** C6 (amended): in a report the detector returns, the availability
    entries are one per flagged assignment, in table order, each with the
    name of the teacher and the severity high.  An assignment with a
    teacher id whose window ends after it starts is flagged whenever no
    window of the teacher for that day is marked available and contains
    it, so always when the teacher declared no window at all; it is not
    flagged when the first window of the teacher for that day is marked
    available and contains it; and with a single window for that day it
    is flagged exactly when that window is not an available one that
    contains it. *)
Theorem C6_availability_conflicts (db : Database) (report : Report.t) :
  Raising.detect_all_conflicts db = returned report ->
  Forall2
    (fun slot c =>
       Raising.availability_conflict_entry db slot = returned c
       /\ severity c = "high"%string)
    (availability_flagged db)
    (List.filter (has_type "availability_conflict") (Report.conflicts report))
  /\ forall slot,
       In slot (db_timeslots db) -> TimeSlot.teacher_id slot <> 0 ->
       TimeSlot.start_time slot < TimeSlot.end_time slot ->
       ((forall a,
           In a (windows_of_day db slot) ->
           ~ (TeacherAvailability.is_available a = true /\ inside slot a)) ->
        In slot (availability_flagged db))
       /\ (declares_nothing db (TimeSlot.teacher_id slot) ->
           In slot (availability_flagged db))
       /\ (forall a,
             first_availability db slot = Some a ->
             TeacherAvailability.is_available a = true -> inside slot a ->
             ~ In slot (availability_flagged db))
       /\ (forall a,
             windows_of_day db slot = [a] ->
             (In slot (availability_flagged db)
              <-> ~ (TeacherAvailability.is_available a = true /\ inside slot a))).
Proof.
  intros Hreport.
  apply detect_all_conflicts_returned in Hreport as (-> & _ & _ & Hentries).
  split.
  - destruct (report_by_type db) as (_ & _ & ->).
    induction Hentries as [|slot rest Hslot _ IH]; cbn [map]; constructor;
      [|exact IH].
    split; [exact Hslot | reflexivity].
  - intros slot Hin Hteacher Hwindow. split; [|split; [|split]].
    + intros Hnone. apply availability_flagged_spec. repeat split; auto.
      unfold is_valid. rewrite first_availability_windows.
      destruct (windows_of_day db slot) as [|a rest] eqn:Hday; [reflexivity|].
      cbn [head].
      destruct (covers a (TimeSlot.start_time slot) (TimeSlot.end_time slot))
        eqn:Hcov; [|reflexivity].
      apply (covers_inside slot a Hwindow) in Hcov.
      destruct (Hnone a (or_introl eq_refl) Hcov).
    + intros Hnone. apply availability_flagged_spec. repeat split; auto.
      unfold is_valid. rewrite first_availability_windows.
      now rewrite declares_nothing_no_window.
    + intros a Hfirst Havailable Hinside Hflag.
      apply availability_flagged_spec in Hflag as (_ & _ & Hvalid).
      unfold is_valid in Hvalid. rewrite Hfirst in Hvalid.
      rewrite (proj2 (covers_inside slot a Hwindow) (conj Havailable Hinside))
        in Hvalid.
      discriminate.
    + intros a Hsingle. rewrite <- (covers_inside slot a Hwindow). split.
      * intros Hflag.
        apply availability_flagged_spec in Hflag as (_ & _ & Hvalid).
        unfold is_valid in Hvalid. rewrite first_availability_windows in Hvalid.
        rewrite Hsingle in Hvalid. cbn [head] in Hvalid. congruence.
      * intros Hcov. apply availability_flagged_spec. repeat split; auto.
        unfold is_valid. rewrite first_availability_windows, Hsingle. cbn [head].
        now destruct (covers a _ _).
Qed.

(** The Monday row is flagged when its teacher declared nothing, not
    flagged when the first window of the day contains it, and flagged
    when the only window of the day starts after it. *)
Lemma C6_availability_conflicts_witness :
  In monday_row (availability_flagged (catalog [monday_row] []))
  /\ ~ In monday_row (availability_flagged (catalog [monday_row] two_windows))
  /\ In monday_row
       (availability_flagged
          (catalog [monday_row] [window 1 1 0 (mk_time 9 30) (mk_time 12 0) true])).
Proof.
  assert (Hteacher : TimeSlot.teacher_id monday_row <> 0) by (cbn; lia).
  assert (Hwindow : TimeSlot.start_time monday_row < TimeSlot.end_time monday_row)
    by reflexivity.
  split; [|split].
  - destruct (C6_availability_conflicts (catalog [monday_row] [])
                (detect_all_conflicts (catalog [monday_row] []))
                ltac:(vm_compute; reflexivity)) as (_ & Hslot).
    destruct (Hslot monday_row (or_introl eq_refl) Hteacher Hwindow)
      as (_ & Hnone & _).
    apply Hnone. intros a [].
  - destruct (C6_availability_conflicts (catalog [monday_row] two_windows)
                (detect_all_conflicts (catalog [monday_row] two_windows))
                ltac:(vm_compute; reflexivity)) as (_ & Hslot).
    destruct (Hslot monday_row (or_introl eq_refl) Hteacher Hwindow)
      as (_ & _ & Hfirst & _).
    apply (Hfirst (window 1 1 0 (mk_time 8 0) (mk_time 12 0) true));
      [reflexivity | reflexivity |].
    unfold inside, monday_row, stored, window, mk_time. cbn. lia.
  - destruct (C6_availability_conflicts
                (catalog [monday_row]
                   [window 1 1 0 (mk_time 9 30) (mk_time 12 0) true])
                (detect_all_conflicts
                   (catalog [monday_row]
                      [window 1 1 0 (mk_time 9 30) (mk_time 12 0) true]))
                ltac:(vm_compute; reflexivity)) as (_ & Hslot).
    destruct (Hslot monday_row (or_introl eq_refl) Hteacher Hwindow)
      as (_ & _ & _ & Hone).
    apply (Hone (window 1 1 0 (mk_time 9 30) (mk_time 12 0) true));
      [reflexivity|].
    intros [_ Hinside]. specialize (Hinside (mk_time 9 0)).
    unfold monday_row, stored, window, mk_time in Hinside. cbn in Hinside. lia.
Defined.

(** A stored row whose end time wrapped past midnight passes the
    availability test of the detector on a morning window: the two
    comparisons hold of the stored times. *)
Lemma wrapped_row_passes_availability :
  let row := stored 1 1 13 300 2 0 (mk_time 14 0) (mk_time 0 0) in
  ~ In row (availability_flagged (catalog [row] monday_morning))
  /\ ~ inside
         {| TimeSlot.id := Some 1; TimeSlot.teacher_id := 1; TimeSlot.course_id := 13;
            TimeSlot.group_id := Some 300; TimeSlot.room_id := 2;
            TimeSlot.day_of_week := 0; TimeSlot.start_time := mk_time 14 0;
            TimeSlot.end_time := mk_time 24 0; TimeSlot.is_locked := Some false |}
         (window 1 1 0 (mk_time 8 0) (mk_time 12 0) true).
Proof.
  split.
  - vm_compute. intros [].
  - intros Hinside. specialize (Hinside (mk_time 14 0)).
    unfold window, mk_time in Hinside. cbn in Hinside. lia.
Qed.

(** C9 at two stored rows of a teacher whose record was deleted: the
    rows are on the same day and their windows overlap, and the teacher
    check finds the pair; building its entry raises [AttributeError],
    nothing is appended, and [detect_all_conflicts] is left by the
    exception without a report.  And at two stored rows whose end times
    wrapped past midnight: the two sessions of ten hours share the room,
    the teacher and the group on Monday afternoon, and the report that is
    returned has no critical entry. *)
Theorem C9_deleted_teacher_breaks_the_report :
  (exists a b,
     db_timeslots (catalog orphaned_rows []) = [a; b]
     /\ pk a <> pk b
     /\ TimeSlot.teacher_id a = TimeSlot.teacher_id b
     /\ TimeSlot.day_of_week a = TimeSlot.day_of_week b
     /\ TimeSlot.start_time a < TimeSlot.end_time a
     /\ TimeSlot.start_time b < TimeSlot.end_time b
     /\ windows_overlap a b
     /\ teacher_of (catalog orphaned_rows []) a = None
     /\ reports_of (pair_key (pk a) (pk b)) (teacher_pairs (catalog orphaned_rows []))
        = 1%nat)
  /\ Raising.detect_teacher_conflicts [] (catalog orphaned_rows [])
     = ([], raised (NONE_HAS_NO "full_name"))
  /\ Raising.detect_all_conflicts (catalog orphaned_rows [])
     = raised (NONE_HAS_NO "full_name")
  /\ exists a b report,
       db_timeslots (catalog wrapped_rows []) = [a; b]
       /\ pk a <> pk b
       /\ TimeSlot.room_id a = TimeSlot.room_id b
       /\ TimeSlot.teacher_id a = TimeSlot.teacher_id b
       /\ TimeSlot.day_of_week a = TimeSlot.day_of_week b
       /\ TimeSlot.end_time a = add_minutes (TimeSlot.start_time a) 600
       /\ TimeSlot.end_time b = add_minutes (TimeSlot.start_time b) 600
       /\ Z.max (TimeSlot.start_time a) (TimeSlot.start_time b)
          < Z.min (TimeSlot.start_time a + 600) (TimeSlot.start_time b + 600)
       /\ unique_rows (db_timeslots (catalog wrapped_rows [])) = true
       /\ Raising.detect_all_conflicts (catalog wrapped_rows []) = returned report
       /\ Report.critical report = 0.
Proof.
  split; [|split; [|split]].
  - eexists. eexists. split; [reflexivity|].
    split; [cbn; lia|].
    repeat (split; [reflexivity|]). reflexivity.
  - vm_compute. reflexivity.
  - vm_compute. reflexivity.
  - eexists. eexists. eexists. split; [reflexivity|].
    split; [cbn; lia|].
    do 7 (split; [reflexivity|]).
    split; [vm_compute; reflexivity | reflexivity].
Qed.

(** X11: in a report the detector returns, the group entries are one
    per reported group pair, in order, each with the name of the group of
    the first row; a reported pair is made of two stored rows with
    different ids, the same non-null group, the same day and crossing
    windows; and two such rows of a group whose id is not 0 are reported
    under their sorted pair of ids exactly once. *)
Theorem X11_group_pairs_reported_once (db : Database) (report : Report.t) :
  Raising.detect_all_conflicts db = returned report ->
  Forall2 (fun p c => Raising.group_conflict_entry db p.1 p.2 = returned c)
    (group_pairs db)
    (List.filter (has_type "group_conflict") (Report.conflicts report))
  /\ Forall
       (fun p =>
          conflicting same_group db p
          /\ TimeSlot.group_id p.1 <> None
          /\ TimeSlot.group_id p.1 = TimeSlot.group_id p.2
          /\ group_of db p.1 <> None)
       (group_pairs db)
  /\ forall a b group,
       In a (db_timeslots db) -> In b (db_timeslots db) -> pk a <> pk b ->
       group <> 0 ->
       TimeSlot.group_id a = Some group -> TimeSlot.group_id b = Some group ->
       TimeSlot.day_of_week a = TimeSlot.day_of_week b ->
       windows_cross a b = true ->
       reports_of (pair_key (pk a) (pk b)) (group_pairs db) = 1%nat.
Proof.
  intros Hreport.
  apply detect_all_conflicts_returned in Hreport as (-> & _ & Hentries & _).
  destruct (group_pairs_once db) as (Hgroup & Hall & Honce).
  split; [|split; [|exact Honce]].
  - rewrite Hgroup. now apply Forall2_map_returned.
  - rewrite List.Forall_forall in Hall, Hentries. apply List.Forall_forall.
    intros p Hp. destruct (Hall p Hp) as (Hconf & Hsome & Hsame).
    repeat (split; [assumption|]).
    specialize (Hentries p Hp). unfold Raising.group_conflict_entry in Hentries.
    destruct (group_of db p.1); [discriminate | discriminate].
Qed.

(** Two rows of group 100 on Tuesday that overlap, in two rooms with
    two teachers. *)
Lemma X11_group_pairs_reported_once_witness :
  reports_of (pair_key 1 2)
    (group_pairs
       (catalog [stored 1 1 10 100 2 1 (mk_time 9 0) (mk_time 10 0);
                 stored 2 2 11 100 1 1 (mk_time 9 30) (mk_time 10 30)] []))
  = 1%nat.
Proof.
  destruct (X11_group_pairs_reported_once
              (catalog [stored 1 1 10 100 2 1 (mk_time 9 0) (mk_time 10 0);
                        stored 2 2 11 100 1 1 (mk_time 9 30) (mk_time 10 30)] [])
              (detect_all_conflicts
                 (catalog [stored 1 1 10 100 2 1 (mk_time 9 0) (mk_time 10 0);
                           stored 2 2 11 100 1 1 (mk_time 9 30) (mk_time 10 30)] []))
              ltac:(vm_compute; reflexivity))
    as (_ & _ & Honce).
  apply (Honce (stored 1 1 10 100 2 1 (mk_time 9 0) (mk_time 10 0))
           (stored 2 2 11 100 1 1 (mk_time 9 30) (mk_time 10 30)) 100);
    [now left | right; now left | cbn; lia | lia | reflexivity | reflexivity
    | reflexivity | reflexivity].
Defined.
